(** * Verification of the analysis-normalisation and code-generation pipeline
    of samedotdev ([src/ai_agents/agents/analyzer_agent.py],
    [generator_agent.py], [website_clone.py]).

    Shallow embedding: Python objects are the inductive [value] below, a
    Python [dict] is an association list kept in insertion order (a new key
    is appended, an existing key keeps its position), and every function
    that can raise returns a [result] carrying the Python exception class. *)

From Stdlib Require Import ZArith String Ascii List Bool Lia DecimalString Sorted.
Import ListNotations.
Open Scope string_scope.
Set Warnings "-register-all".

(* ------------------------------------------------------------------ *)
(** ** Python values, exceptions and dictionaries *)

Module Py.

(** A Python [float], an IEEE 754 binary64 number: [FFin neg m e] is
    [(-1)^neg * m * 2^e] with [0 <= m < 2^53] and [-1074 <= e <= 971],
    and [m >= 2^52] unless [e = -1074] (subnormal numbers and zeros). *)
Inductive pyfloat : Type :=
| FFin (neg : bool) (m e : Z)
| FInf (neg : bool)
| FNaN.

Inductive value : Type :=
| VNone
| VBool (b : bool)
| VInt (z : Z)
| VFloat (f : pyfloat)
| VStr (s : string)
| VList (l : list value)
| VDict (d : list (string * value)).

Definition dict := list (string * value).

(** The exception classes raised by the modelled code. *)
Inductive exn : Type :=
| KeyError | AttributeError | IndexError | TypeError | ValueError | JSONDecodeError.

Inductive result (A : Type) : Type :=
| Ok (a : A)
| Err (e : exn).
Arguments Ok {A} a.
Arguments Err {A} e.

Definition bind {A B} (m : result A) (k : A -> result B) : result B :=
  match m with Ok a => k a | Err e => Err e end.

Notation "'let*' x := m 'in' k" := (bind m (fun x => k))
  (at level 200, x name, m at level 100, k at level 200).

(** [try: m except Exception: h] *)
Definition try_except {A} (m : result A) (h : result A) : result A :=
  match m with Ok a => Ok a | Err _ => h end.

(** Python truthiness. *)
Definition truthy (v : value) : bool :=
  match v with
  | VNone => false
  | VBool b => b
  | VInt z => negb (Z.eqb z 0)
  | VFloat (FFin _ m _) => negb (Z.eqb m 0)
  | VFloat _ => true
  | VStr s => negb (String.eqb s "")
  | VList l => negb (Nat.eqb (List.length l) 0)
  | VDict d => negb (Nat.eqb (List.length d) 0)
  end.

Fixpoint dict_get (d : dict) (k : string) : option value :=
  match d with
  | [] => None
  | (k', v) :: d' => if String.eqb k k' then Some v else dict_get d' k
  end.

Definition dict_mem (d : dict) (k : string) : bool :=
  match dict_get d k with Some _ => true | None => false end.

(** [d[k] = v]: an existing key keeps its position, a new one is appended. *)
Fixpoint dict_set (d : dict) (k : string) (v : value) : dict :=
  match d with
  | [] => [(k, v)]
  | (k', v') :: d' =>
      if String.eqb k k' then (k', v) :: d' else (k', v') :: dict_set d' k v
  end.

Definition dict_keys (d : dict) : list string := map fst d.

(** [obj.get(k, default)]: only a [dict] has [.get]. *)
Definition py_get (o : value) (k : string) (default : value) : result value :=
  match o with
  | VDict d => Ok (match dict_get d k with Some v => v | None => default end)
  | _ => Err AttributeError
  end.

(** [obj[k]] with a string key. *)
Definition py_subscript (o : value) (k : string) : result value :=
  match o with
  | VDict d => match dict_get d k with Some v => Ok v | None => Err KeyError end
  | _ => Err TypeError
  end.

(** [obj[0]]. *)
Definition py_index0 (o : value) : result value :=
  match o with
  | VList (x :: _) => Ok x
  | VList [] => Err IndexError
  | VStr (String c _) => Ok (VStr (String c EmptyString))
  | VStr EmptyString => Err IndexError
  | VDict _ => Err KeyError
  | _ => Err TypeError
  end.

(** [obj[k] = v] on a dict. *)
Definition py_setitem (o : value) (k : string) (v : value) : result value :=
  match o with
  | VDict d => Ok (VDict (dict_set d k v))
  | _ => Err TypeError
  end.

Definition is_str_eq (v : value) (s : string) : bool :=
  match v with VStr s' => String.eqb s' s | _ => false end.

End Py.

(* ------------------------------------------------------------------ *)
(** ** Characters and [str] methods

    A [string] is a sequence of 8-bit characters, read as Latin-1 code
    points; Python's character classes are given on that range. *)

Module Str.
Local Open Scope nat_scope.

Definition code (c : ascii) : nat := nat_of_ascii c.
Definition chr (n : nat) : ascii := ascii_of_nat n.
Definition dq : ascii := chr 34.
Definition nl : ascii := chr 10.
Definition s1 (c : ascii) : string := String c EmptyString.
Definition NL : string := s1 nl.

(** [str.isspace] / regex [\s] on Latin-1. *)
Definition isspace (c : ascii) : bool :=
  let n := code c in
  ((9 <=? n) && (n <=? 13)) || ((28 <=? n) && (n <=? 32))
  || (n =? 133) || (n =? 160).

Definition isdigit09 (c : ascii) : bool :=
  let n := code c in (48 <=? n) && (n <=? 57).

Definition isalpha (c : ascii) : bool :=
  let n := code c in
  ((65 <=? n) && (n <=? 90)) || ((97 <=? n) && (n <=? 122))
  || (n =? 170) || (n =? 181) || (n =? 186)
  || ((192 <=? n) && (n <=? 214)) || ((216 <=? n) && (n <=? 246))
  || ((248 <=? n) && (n <=? 255)).

(** [str.isalnum] per character: letters, digits and the numeric
    characters of Latin-1 (superscripts and vulgar fractions). *)
Definition isalnum_c (c : ascii) : bool :=
  let n := code c in
  isalpha c || isdigit09 c
  || (n =? 178) || (n =? 179) || (n =? 185)
  || ((188 <=? n) && (n <=? 190)).

(** Regex [\w]. *)
Definition isword (c : ascii) : bool := isalnum_c c || (code c =? 95).

Definition ishex (c : ascii) : bool :=
  let n := code c in
  isdigit09 c || ((65 <=? n) && (n <=? 70)) || ((97 <=? n) && (n <=? 102)).

Fixpoint all_chars (p : ascii -> bool) (s : string) : bool :=
  match s with
  | EmptyString => true
  | String c s' => p c && all_chars p s'
  end.

Fixpoint any_char (p : ascii -> bool) (s : string) : bool :=
  match s with
  | EmptyString => false
  | String c s' => p c || any_char p s'
  end.

(** [str.isalnum]: non-empty and every character alphanumeric. *)
Definition isalnum (s : string) : bool :=
  negb (String.eqb s "") && all_chars isalnum_c s.

(** [str.lower] on Latin-1. *)
Definition lower_c (c : ascii) : ascii :=
  let n := code c in
  if ((65 <=? n) && (n <=? 90)) || ((192 <=? n) && (n <=? 222) && negb (n =? 215))
  then chr (n + 32) else c.

(** Upper case of the first character in [str.capitalize]; the three
    Latin-1 letters whose title case leaves Latin-1 (sharp s, micro sign,
    y with diaeresis) are left as they are. *)
Definition upper_c (c : ascii) : ascii :=
  let n := code c in
  if ((97 <=? n) && (n <=? 122)) || ((224 <=? n) && (n <=? 254) && negb (n =? 247))
  then chr (n - 32) else c.

Fixpoint lower (s : string) : string :=
  match s with
  | EmptyString => EmptyString
  | String c s' => String (lower_c c) (lower s')
  end.

Definition capitalize (s : string) : string :=
  match s with
  | EmptyString => EmptyString
  | String c s' => String (upper_c c) (lower s')
  end.

Fixpoint lstrip (s : string) : string :=
  match s with
  | String c s' => if isspace c then lstrip s' else s
  | EmptyString => EmptyString
  end.

Fixpoint rev_str (s : string) (acc : string) : string :=
  match s with
  | EmptyString => acc
  | String c s' => rev_str s' (String c acc)
  end.

Definition rstrip (s : string) : string :=
  rev_str (lstrip (rev_str s EmptyString)) EmptyString.

(** [str.strip()]. *)
Definition strip (s : string) : string := rstrip (lstrip s).

Definition startswith (s p : string) : bool := String.prefix p s.

Definition endswith (s p : string) : bool :=
  String.prefix (rev_str p EmptyString) (rev_str s EmptyString).

(** [p in s] for strings. *)
Fixpoint contains (s p : string) : bool :=
  String.prefix p s ||
  match s with
  | EmptyString => false
  | String _ s' => contains s' p
  end.

(** [s.replace(p, r)] for a non-empty [p]: a left-to-right scan replacing
    non-overlapping occurrences. *)
Fixpoint replace_fuel (fuel : nat) (p r s : string) : string :=
  match fuel with
  | O => s
  | S f =>
      match s with
      | EmptyString => EmptyString
      | String c s' =>
          if String.prefix p s
          then r ++ replace_fuel f p r (substring (String.length p) (String.length s) s)
          else String c (replace_fuel f p r s')
      end
  end.

Definition replace (p r s : string) : string :=
  replace_fuel (S (String.length s)) p r s.

(** [s[:n]]. *)
Definition take (n : nat) (s : string) : string := substring 0 n s.

(** [s.split('\n')]. *)
Fixpoint split_nl_acc (s : string) (cur : string) : list string :=
  match s with
  | EmptyString => [rev_str cur EmptyString]
  | String c s' =>
      if Ascii.eqb c nl then rev_str cur EmptyString :: split_nl_acc s' EmptyString
      else split_nl_acc s' (String c cur)
  end.

Definition split_nl (s : string) : list string := split_nl_acc s EmptyString.

Definition concat_with (sep : string) (l : list string) : string :=
  String.concat sep l.

End Str.

(* ------------------------------------------------------------------ *)
(** ** Number printing, [str()] and [repr()] *)

Module Fmt.
Import Py Str.
Local Open Scope nat_scope.

Definition digit_char (d : N) : ascii := chr (48 + N.to_nat d).

(** Decimal digits of [n], most significant first, prepended to [acc];
    [fuel] bounds the number of digits. *)
Fixpoint ndigits (fuel : nat) (n : N) (acc : string) : string :=
  match fuel with
  | O => acc
  | S f =>
      let acc' := String (digit_char (N.modulo n 10)) acc in
      if N.eqb (N.div n 10) 0 then acc' else ndigits f (N.div n 10) acc'
  end.

Definition show_N (n : N) : string :=
  ndigits (S (N.size_nat n)) n EmptyString.

(** [str(i)] for an [int]. *)
Definition show_Z (z : Z) : string :=
  if Z.ltb z 0 then "-" ++ show_N (Z.to_N (Z.opp z)) else show_N (Z.to_N z).

(** *** Python floats: [float(str)] and [repr(float)] *)

Local Open Scope Z_scope.

(** [floor(log2(num / den))] for positive [num] and [den]. *)
Definition flog2 (num den : Z) : Z :=
  let t := Z.log2 num - Z.log2 den in
  if 0 <=? t then (if den * 2 ^ t <=? num then t else t - 1)
  else (if den <=? num * 2 ^ (- t) then t else t - 1).

(** [floor(log10 n)] for a positive [n]. *)
Fixpoint zlog10_fuel (fuel : nat) (n : Z) : Z :=
  match fuel with
  | O => 0
  | S f => if n <? 10 then 0 else 1 + zlog10_fuel f (n / 10)
  end.
Definition zlog10 (n : Z) : Z := zlog10_fuel (Z.to_nat (Z.log2 n + 1)) n.

(** [floor(log10(num / den))] for positive [num] and [den]. *)
Definition flog10 (num den : Z) : Z :=
  let t := zlog10 num - zlog10 den in
  if 0 <=? t then (if den * 10 ^ t <=? num then t else t - 1)
  else (if den <=? num * 10 ^ (- t) then t else t - 1).

(** [a / b] rounded to the nearest integer, ties to even ([a >= 0], [b > 0]). *)
Definition div_round_even (a b : Z) : Z :=
  let q := a / b in
  let r := a mod b in
  if (b <? 2 * r) || ((2 * r =? b) && Z.odd q) then q + 1 else q.

(** [float(s)] for the decimal [(-1)^neg * d * 10^x], [d >= 0]: the
    nearest binary64 value, ties to even; beyond the largest finite
    value, an infinity; below half the least subnormal, a zero. *)
Definition float_of_decimal (neg : bool) (d x : Z) : pyfloat :=
  if d =? 0 then FFin neg 0 (-1074) else
  let num := if 0 <=? x then d * 10 ^ x else d in
  let den := if 0 <=? x then 1 else 10 ^ (- x) in
  let k := Z.max (flog2 num den - 52) (-1074) in
  let q := div_round_even (num * 2 ^ Z.max 0 (- k)) (den * 2 ^ Z.max 0 k) in
  let '(q, k) := if q =? 2 ^ 53 then (2 ^ 52, k + 1) else (q, k) in
  if 971 <? k then FInf neg else FFin neg q k.

(** [u * 2^(e-2)] over [10^s], as a fraction of integers. *)
Definition scaled (u e s : Z) : Z * Z :=
  (u * 2 ^ Z.max 0 (e - 2) * 10 ^ Z.max 0 (- s), 2 ^ Z.max 0 (2 - e) * 10 ^ Z.max 0 s).

(** Among the multiples [d * 10^s] that read back as the positive
    [m * 2^e], the one nearest to it (ties to even), if any: a real
    strictly between the midpoints to the neighbouring binary64 values
    rounds to [m * 2^e], and a midpoint does too when [m] is even. *)
Definition pick_at (m e s : Z) : option Z :=
  let gl := if (m =? 2 ^ 52) && (-1074 <? e) then 1 else 2 in
  let incl := Z.even m in
  let '(nl, dl) := scaled (4 * m - gl) e s in
  let '(nh, dh) := scaled (4 * m + 2) e s in
  let '(nx, dx) := scaled (4 * m) e s in
  let lo := (nl + dl - 1) / dl in
  let lo := if negb incl && (nl mod dl =? 0) then lo + 1 else lo in
  let hi := nh / dh in
  let hi := if negb incl && (nh mod dh =? 0) then hi - 1 else hi in
  if hi <? lo then None
  else Some (Z.max lo (Z.min hi (div_round_even nx dx))).

(** The coarsest grid [10^s], from [s] down, holding a value that reads
    back as [m * 2^e]: the shortest such decimal, as [(d, s)]. *)
Fixpoint shortest_from (fuel : nat) (m e s : Z) : Z * Z :=
  match fuel with
  | O => let '(nx, dx) := scaled (4 * m) e s in (div_round_even nx dx, s)
  | S f =>
      match pick_at m e s with
      | Some d => (d, s)
      | None => shortest_from f m e (s - 1)
      end
  end.

Fixpoint strip_zeros (fuel : nat) (d s : Z) : Z * Z :=
  match fuel with
  | O => (d, s)
  | S f => if (0 <? d) && (d mod 10 =? 0) then strip_zeros f (d / 10) (s + 1) else (d, s)
  end.

Fixpoint zeros (n : nat) : string :=
  match n with O => EmptyString | S k => String "0"%char (zeros k) end.

(** The layout of [repr] for the digits [ds] of a value [0.ds * 10^decpt]:
    an exponent when [decpt <= -4] or [decpt > 16], a point otherwise,
    with [.0] added to a whole number. *)
Definition float_layout (ds : string) (decpt : Z) : string :=
  let n := Z.of_nat (String.length ds) in
  if (decpt <=? -4) || (16 <? decpt) then
    let x := decpt - 1 in
    match ds with
    | String c r => String c (if String.eqb r EmptyString then EmptyString else "." ++ r)
    | EmptyString => EmptyString
    end ++ "e" ++ (if x <? 0 then "-" else "+")
    ++ (if Z.abs x <? 10 then "0" else EmptyString) ++ show_N (Z.to_N (Z.abs x))
  else if decpt <=? 0 then "0." ++ zeros (Z.to_nat (- decpt)) ++ ds
  else if n <=? decpt then ds ++ zeros (Z.to_nat (decpt - n)) ++ ".0"
  else substring 0 (Z.to_nat decpt) ds ++ "."
       ++ substring (Z.to_nat decpt) (String.length ds) ds.

(** [repr(x)] of a finite float: the shortest decimal that reads back
    as [x], the nearest one among those. *)
Definition repr_finite (neg : bool) (m e : Z) : string :=
  (if neg then "-" else EmptyString) ++
  if m =? 0 then "0.0" else
  let p := flog10 (m * 2 ^ Z.max 0 e) (2 ^ Z.max 0 (- e)) in
  let '(d, s) := shortest_from 19 m e (p + 1) in
  let '(d, s) := strip_zeros 20 d s in
  let ds := show_N (Z.to_N d) in
  float_layout ds (Z.of_nat (String.length ds) + s).

(** [repr(x)] / [str(x)] of a float. *)
Definition float_repr (f : pyfloat) : string :=
  match f with
  | FFin neg m e => repr_finite neg m e
  | FInf neg => if neg then "-inf" else "inf"
  | FNaN => "nan"
  end.

(** [json.dumps] of a float: [float.__repr__], and [NaN], [Infinity],
    [-Infinity] for the others ([allow_nan=True]). *)
Definition float_json (f : pyfloat) : string :=
  match f with
  | FFin neg m e => repr_finite neg m e
  | FInf neg => if neg then "-Infinity" else "Infinity"
  | FNaN => "NaN"
  end.

Local Open Scope nat_scope.

Definition hex_char (d : nat) : ascii :=
  if d <? 10 then chr (48 + d) else chr (87 + d).

(** Two lowercase hex digits of a byte. *)
Definition hex2 (n : nat) : string :=
  String (hex_char (n / 16)) (s1 (hex_char (n mod 16))).

Definition backslash : ascii := "\"%char.
Definition squote : ascii := "'"%char.

(** One character of [repr(s)] quoted with [q]. *)
Definition repr_char (q c : ascii) : string :=
  let n := code c in
  if Ascii.eqb c backslash then String backslash (s1 backslash)
  else if Ascii.eqb c q then String backslash (s1 q)
  else if n =? 9 then "\t"
  else if n =? 10 then "\n"
  else if n =? 13 then "\r"
  else if (n <? 32) || ((127 <=? n) && (n <=? 160)) || (n =? 173)
  then "\x" ++ hex2 n
  else s1 c.

Fixpoint repr_chars (q : ascii) (s : string) : string :=
  match s with
  | EmptyString => EmptyString
  | String c s' => repr_char q c ++ repr_chars q s'
  end.

(** [repr(s)]: double quotes when [s] has a single quote and no double
    quote, single quotes otherwise. *)
Definition repr_str (s : string) : string :=
  let q := if any_char (Ascii.eqb squote) s && negb (any_char (Ascii.eqb dq) s)
           then dq else squote in
  s1 q ++ repr_chars q s ++ s1 q.

Fixpoint py_repr (v : value) : string :=
  match v with
  | VNone => "None"
  | VBool true => "True"
  | VBool false => "False"
  | VInt z => show_Z z
  | VFloat f => float_repr f
  | VStr s => repr_str s
  | VList l => "[" ++ concat_with ", " (map py_repr l) ++ "]"
  | VDict d =>
      "{" ++ concat_with ", "
               (map (fun kv => repr_str (fst kv) ++ ": " ++ py_repr (snd kv)) d)
      ++ "}"
  end.

(** [str(v)], as used by an f-string replacement field. *)
Definition py_str (v : value) : string :=
  match v with
  | VStr s => s
  | _ => py_repr v
  end.

End Fmt.

(* ------------------------------------------------------------------ *)
(** ** [json.dumps] and [json.loads]

    [dumps] follows Python's encoder with [ensure_ascii=True]: separators
    [", "] and [": "] without indent, [","] and [": "] with one.
    [loads] follows Python's decoder (the C scanner): it raises
    [JSONDecodeError] on malformed text and [ValueError] on an integer of
    more than 4300 digits, and decodes floats, [NaN] and [Infinity].  Not
    modelled: [\u] escapes above U+00FF, outside the 8-bit strings of this
    embedding (here a [JSONDecodeError]), and the [RecursionError] Python
    raises when nesting exceeds the interpreter's recursion limit. *)

Module Json.
Import Py Str Fmt.
Local Open Scope nat_scope.

(** One character of an encoded string. *)
Definition esc_char (c : ascii) : string :=
  let n := code c in
  if Ascii.eqb c dq then String backslash (s1 dq)
  else if Ascii.eqb c backslash then String backslash (s1 backslash)
  else if n =? 10 then "\n"
  else if n =? 13 then "\r"
  else if n =? 9 then "\t"
  else if n =? 8 then "\b"
  else if n =? 12 then "\f"
  else if (n <? 32) || (126 <? n) then "\u00" ++ hex2 n
  else s1 c.

Fixpoint esc_chars (s : string) : string :=
  match s with
  | EmptyString => EmptyString
  | String c s' => esc_char c ++ esc_chars s'
  end.

Definition dumps_str (s : string) : string := s1 dq ++ esc_chars s ++ s1 dq.

Fixpoint spaces (n : nat) : string :=
  match n with O => EmptyString | S k => String " "%char (spaces k) end.

(** [json.dumps(v, indent=ind)] at nesting depth [lvl]. *)
Fixpoint dumps_at (ind : option nat) (lvl : nat) (v : value) : string :=
  let open_sep := match ind with
                  | None => EmptyString
                  | Some k => NL ++ spaces (k * S lvl) end in
  let item_sep := match ind with
                  | None => ", "
                  | Some k => "," ++ NL ++ spaces (k * S lvl) end in
  let close_sep := match ind with
                   | None => EmptyString
                   | Some k => NL ++ spaces (k * lvl) end in
  match v with
  | VNone => "null"
  | VBool true => "true"
  | VBool false => "false"
  | VInt z => show_Z z
  | VFloat f => float_json f
  | VStr s => dumps_str s
  | VList [] => "[]"
  | VList l =>
      "[" ++ open_sep ++ concat_with item_sep (map (dumps_at ind (S lvl)) l)
      ++ close_sep ++ "]"
  | VDict [] => "{}"
  | VDict d =>
      "{" ++ open_sep
      ++ concat_with item_sep
           (map (fun kv => dumps_str (fst kv) ++ ": " ++ dumps_at ind (S lvl) (snd kv)) d)
      ++ close_sep ++ "}"
  end.

Definition dumps (v : value) : string := dumps_at None 0 v.
Definition dumps_indent (k : nat) (v : value) : string := dumps_at (Some k) 0 v.

(** JSON whitespace: space, tab, newline, carriage return. *)
Definition json_ws (c : ascii) : bool :=
  let n := code c in (n =? 32) || (n =? 9) || (n =? 10) || (n =? 13).

Fixpoint skip_ws (s : string) : string :=
  match s with
  | String c s' => if json_ws c then skip_ws s' else s
  | EmptyString => EmptyString
  end.

Definition hex_val (c : ascii) : option nat :=
  let n := code c in
  if isdigit09 c then Some (n - 48)
  else if (97 <=? n) && (n <=? 102) then Some (n - 87)
  else if (65 <=? n) && (n <=? 70) then Some (n - 55)
  else None.

(** One step inside a string literal: [Some (None, r)] at the closing
    quote, [Some (Some c, r)] for a decoded character, [None] on an
    error (an unescaped control character, a bad escape, the end of
    input). *)
Definition str_step (s : string) : option (option ascii * string) :=
  match s with
  | EmptyString => None
  | String c r =>
      if Ascii.eqb c dq then Some (None, r)
      else if Ascii.eqb c backslash then
        match r with
        | EmptyString => None
        | String e r' =>
            let n := code e in
            if Ascii.eqb e dq then Some (Some dq, r')
            else if Ascii.eqb e backslash then Some (Some backslash, r')
            else if n =? 47 then Some (Some e, r')
            else if n =? 98 then Some (Some (chr 8), r')
            else if n =? 102 then Some (Some (chr 12), r')
            else if n =? 110 then Some (Some (chr 10), r')
            else if n =? 114 then Some (Some (chr 13), r')
            else if n =? 116 then Some (Some (chr 9), r')
            else if n =? 117 then
              match r' with
              | String h1 (String h2 (String h3 (String h4 r''))) =>
                  match hex_val h1, hex_val h2, hex_val h3, hex_val h4 with
                  | Some a, Some b, Some c', Some d =>
                      let u := ((a * 16 + b) * 16 + c') * 16 + d in
                      if u <? 256 then Some (Some (chr u), r'') else None
                  | _, _, _, _ => None
                  end
              | _ => None
              end
            else None
        end
      else if code c <? 32 then None
      else Some (Some c, r)
  end.

(** The body of a string literal, after its opening quote. *)
Fixpoint str_body (fuel : nat) (s : string) : option (string * string) :=
  match fuel with
  | O => None
  | S f =>
      match str_step s with
      | None => None
      | Some (None, r) => Some (EmptyString, r)
      | Some (Some c, r) =>
          match str_body f r with
          | Some (b, r') => Some (String c b, r')
          | None => None
          end
      end
  end.

Definition pstring (s : string) : option (string * string) :=
  match s with
  | String c r => if Ascii.eqb c dq then str_body (S (String.length r)) r else None
  | EmptyString => None
  end.

(** A maximal run of digits, accumulated in [acc]; returns the run's
    value, its length and the rest. *)
Fixpoint digits_acc (s : string) (acc : N) (len : nat) : N * nat * string :=
  match s with
  | String c r =>
      if isdigit09 c
      then digits_acc r (N.add (N.mul acc 10) (N.of_nat (code c - 48))) (S len)
      else (acc, len, s)
  | EmptyString => (acc, len, s)
  end.

(** The digits of a maximal run, as text, and the rest. *)
Fixpoint digit_run (s : string) : string * string :=
  match s with
  | String c r =>
      if isdigit09 c then let '(d, r') := digit_run r in (String c d, r') else (EmptyString, s)
  | EmptyString => (EmptyString, s)
  end.

Definition value_of_digits (d : string) : Z := Z.of_N (fst (fst (digits_acc d 0%N 0))).

Definition is_char (c : ascii) (s : string) : bool :=
  match s with String c' _ => Ascii.eqb c c' | EmptyString => false end.

Definition tail (s : string) : string :=
  match s with String _ r => r | EmptyString => EmptyString end.

(** The fraction after an integer part: ['.'] and at least one digit. *)
Definition scan_frac (s : string) : option string * string :=
  match s with
  | String c (String d r) =>
      if Ascii.eqb c "."%char && isdigit09 d
      then let '(f, r') := digit_run (String d r) in (Some f, r')
      else (None, s)
  | _ => (None, s)
  end.

(** The exponent: ['e'] or ['E'], an optional sign and at least one
    digit; without a digit nothing is read. *)
Definition scan_exp (s : string) : option Z * string :=
  match s with
  | String c r =>
      if Ascii.eqb c "e"%char || Ascii.eqb c "E"%char then
        let '(neg, r1) := match r with
                          | String d r' =>
                              if Ascii.eqb d "-"%char then (true, r')
                              else if Ascii.eqb d "+"%char then (false, r')
                              else (false, r)
                          | EmptyString => (false, r) end in
        match digit_run r1 with
        | (String _ _ as ds, r2) =>
            let x := value_of_digits ds in (Some (if neg then Z.opp x else x), r2)
        | (EmptyString, _) => (None, s)
        end
      else (None, s)
  | EmptyString => (None, s)
  end.

(** A number as [_match_number_unicode] scans it: an optional minus
    (not at the end), then [0] alone or a non-zero digit and all digits
    after it, then a fraction and an exponent when complete.  Without
    either it is [int()] of the text, which refuses more than 4300 digits
    with [ValueError] (the default [sys.set_int_max_str_digits] limit);
    with one it is [float()] of the text, correctly rounded. *)
Definition pnumber (s : string) : result (value * string) :=
  let '(neg, body) := match s with
                      | String c r => if Ascii.eqb c "-"%char then (true, r) else (false, s)
                      | EmptyString => (false, s) end in
  match body with
  | String c r =>
      if isdigit09 c then
        let '(ip, rest) := if Ascii.eqb c "0"%char then (s1 c, r) else digit_run body in
        let '(fr, rest) := scan_frac rest in
        let '(ex, rest) := scan_exp rest in
        match fr, ex with
        | None, None =>
            if Nat.ltb 4300 (String.length ip) then Err ValueError
            else let n := value_of_digits ip in
                 Ok (VInt (if neg then Z.opp n else n), rest)
        | _, _ =>
            let f := match fr with Some f => f | None => EmptyString end in
            let x := match ex with Some x => x | None => 0%Z end in
            Ok (VFloat (float_of_decimal neg (value_of_digits (ip ++ f))
                          (x - Z.of_nat (String.length f))), rest)
        end
      else Err JSONDecodeError
  | EmptyString => Err JSONDecodeError
  end.

(** A JSON value after optional whitespace; arrays and objects through
    their item loops.  [fuel] bounds the nesting and item count.  The
    scanner stops at the first error, a [JSONDecodeError] or the
    [ValueError] of an over-long integer. *)
Fixpoint pvalue (fuel : nat) (s : string) : result (value * string) :=
  match fuel with
  | O => Err JSONDecodeError
  | S f =>
      let s := skip_ws s in
      match s with
      | EmptyString => Err JSONDecodeError
      | String c r =>
          if Ascii.eqb c dq then
            match pstring s with Some (t, r') => Ok (VStr t, r') | None => Err JSONDecodeError end
          else if Ascii.eqb c "{"%char then
            let r := skip_ws r in
            if is_char "}"%char r then Ok (VDict [], tail r)
            else pmembers f r []
          else if Ascii.eqb c "["%char then
            let r := skip_ws r in
            if is_char "]"%char r then Ok (VList [], tail r)
            else pelems f r []
          else if String.prefix "null" s then Ok (VNone, substring 4 (String.length s) s)
          else if String.prefix "true" s then Ok (VBool true, substring 4 (String.length s) s)
          else if String.prefix "false" s then Ok (VBool false, substring 5 (String.length s) s)
          else if String.prefix "NaN" s then Ok (VFloat FNaN, substring 3 (String.length s) s)
          else if String.prefix "Infinity" s
          then Ok (VFloat (FInf false), substring 8 (String.length s) s)
          else if String.prefix "-Infinity" s
          then Ok (VFloat (FInf true), substring 9 (String.length s) s)
          else pnumber s
      end
  end
(** Object members, [acc] in insertion order; a repeated key keeps its
    first position and takes the last value, as [dict(pairs)] does. *)
with pmembers (fuel : nat) (s : string) (acc : dict) : result (value * string) :=
  match fuel with
  | O => Err JSONDecodeError
  | S f =>
      match pstring s with
      | None => Err JSONDecodeError
      | Some (k, r) =>
          let r := skip_ws r in
          if is_char ":"%char r then
            match pvalue f (tail r) with
            | Err e => Err e
            | Ok (v, r') =>
                let r' := skip_ws r' in
                let acc' := dict_set acc k v in
                if is_char ","%char r' then pmembers f (skip_ws (tail r')) acc'
                else if is_char "}"%char r' then Ok (VDict acc', tail r')
                else Err JSONDecodeError
            end
          else Err JSONDecodeError
      end
  end
with pelems (fuel : nat) (s : string) (acc : list value) : result (value * string) :=
  match fuel with
  | O => Err JSONDecodeError
  | S f =>
      match pvalue f s with
      | Err e => Err e
      | Ok (v, r) =>
          let r := skip_ws r in
          if is_char ","%char r then pelems f (tail r) (acc ++ [v])%list
          else if is_char "]"%char r then Ok (VList (acc ++ [v])%list, tail r)
          else Err JSONDecodeError
      end
  end.

(** [json.loads(s)]: one value, surrounded only by whitespace. *)
Definition loads (s : string) : result value :=
  match pvalue (S (String.length s)) s with
  | Ok (v, r) => if String.eqb (skip_ws r) EmptyString then Ok v else Err JSONDecodeError
  | Err e => Err e
  end.

(** The nesting depth of a decoded value: the recursion depth of the
    scanner that built it. *)
Fixpoint depth (v : value) : nat :=
  match v with
  | VList l => S (fold_right (fun x m => Nat.max (depth x) m) 0 l)
  | VDict d => S (fold_right (fun kv m => Nat.max (depth (snd kv)) m) 0 d)
  | _ => 0
  end.

End Json.

(* ------------------------------------------------------------------ *)
(** ** [AnalyzerAgent] ([analyzer_agent.py]) *)

Module Analyzer.
Import Py Str Fmt.

Definition vstrs (l : list string) : value := VList (map VStr l).

(** The indicator table of [_detect_framework_from_html], in its order. *)
Definition framework_indicators : list (string * list string) :=
  [("react", ["react"; "_react"; "jsx"; "data-reactroot"; "__REACT_DEVTOOLS"]);
   ("vue", ["vue"; "_vue"; "v-"; "@click"; "data-v-"]);
   ("angular", ["ng-"; "[ng"; "angular"; "_angular"]);
   ("next", ["_next"; "__next"; "next.js"]);
   ("nuxt", ["_nuxt"; "__nuxt"; "nuxt.js"]);
   ("svelte", ["svelte"; "_svelte"]);
   ("bootstrap", ["bootstrap"; "btn-"; "col-"; "container-fluid"]);
   ("tailwind", ["tailwind"; "tw-"; "text-"; "bg-"; "flex"; "grid"]);
   ("material-ui", ["mui"; "material-ui"; "makeStyles"]);
   ("chakra", ["chakra-ui"; "css-"]);
   ("wordpress", ["wp-content"; "wordpress"; "wp-"]);
   ("shopify", ["shopify"; "liquid"; "theme_id"])].

Definition js_frameworks := ["react"; "vue"; "angular"; "next"; "nuxt"; "svelte"].
Definition css_framework_names := ["bootstrap"; "tailwind"; "material-ui"; "chakra"].
Definition cms_names := ["wordpress"; "shopify"].

Definition mem_str (x : string) (l : list string) : bool :=
  existsb (String.eqb x) l.

(** [_detect_framework_from_html]: each table entry is appended (once, the
    loop breaks at its first indicator) to its category when one of its
    indicators occurs in the lower-cased HTML. *)
Definition detect_framework_from_html (html_content : string) : value :=
  let html_lower := lower html_content in
  let hits := filter (fun fi => existsb (contains html_lower) (snd fi))
                     framework_indicators in
  let names := map fst hits in
  VDict [("frameworks", vstrs (filter (fun n => mem_str n js_frameworks) names));
         ("css_frameworks", vstrs (filter (fun n => mem_str n css_framework_names) names));
         ("cms", vstrs (filter (fun n => mem_str n cms_names) names))].

(** The patterns of [_detect_components_from_html] are literals or
    [a.*b]: [split_gap] splits a pattern at its first [.*]. *)
Fixpoint split_gap (p : string) : option (string * string) :=
  match p with
  | EmptyString => None
  | String c r =>
      match r with
      | String c' r' =>
          if Ascii.eqb c "."%char && Ascii.eqb c' "*"%char then Some (EmptyString, r')
          else match split_gap r with
               | Some (a, b) => Some (String c a, b)
               | None => None
               end
      | EmptyString => None
      end
  end.

(** The text up to the first newline: the reach of [.*] without
    [re.DOTALL]. *)
Fixpoint line_head (s : string) : string :=
  match s with
  | EmptyString => EmptyString
  | String c r => if Ascii.eqb c nl then EmptyString else String c (line_head r)
  end.

(** [re.search(a + '.*' + b, s)]: [a] occurs, and [b] occurs after it on the
    same line. *)
Fixpoint search_gap (a b s : string) : bool :=
  (String.prefix a s &&
   contains (line_head (substring (String.length a) (String.length s) s)) b) ||
  match s with
  | EmptyString => false
  | String _ r => search_gap a b r
  end.

(** [re.search(pattern, s)] for the patterns of the component table, whose
    only metacharacters are one [.*]. *)
Definition re_search (pattern s : string) : bool :=
  match split_gap pattern with
  | Some (a, b) => search_gap a b s
  | None => contains s pattern
  end.

(** The indicator table of [_detect_components_from_html], in its order. *)
Definition component_indicators : list (string * list string) :=
  [("header", ["<header"; "class.*header"; "id.*header"]);
   ("navigation", ["<nav"; "class.*nav"; "navbar"; "menu"]);
   ("hero", ["class.*hero"; "class.*banner"; "class.*jumbotron"]);
   ("main", ["<main"; "class.*main"; "id.*main"]);
   ("content", ["class.*content"; "class.*article"]);
   ("sidebar", ["class.*sidebar"; "class.*aside"; "<aside"]);
   ("footer", ["<footer"; "class.*footer"; "id.*footer"]);
   ("card", ["class.*card"; "class.*tile"]);
   ("form", ["<form"; "class.*form"]);
   ("button", ["<button"; "class.*btn"]);
   ("modal", ["class.*modal"; "class.*popup"]);
   ("carousel", ["class.*carousel"; "class.*slider"]);
   ("gallery", ["class.*gallery"; "class.*grid"])].

(** [if x not in components: components.append(x)]. *)
Definition append_new (components : list string) (x : string) : list string :=
  if mem_str x components then components else (components ++ [x])%list.

(** [_detect_components_from_html]: a component is appended (the pattern
    loop breaks at its first match) when one of its patterns matches the
    lower-cased HTML; then each of [header], [main], [footer] that is
    missing is appended. *)
Definition detect_components_from_html (html_content : string) : list string :=
  let html_lower := lower html_content in
  let components :=
    fold_left (fun components ci =>
                 if existsb (fun pattern => re_search pattern html_lower) (snd ci)
                 then append_new components (fst ci) else components)
              component_indicators [] in
  fold_left append_new ["header"; "main"; "footer"] components.

(** [analysis.get(k, default)] on a dict. *)
Definition dget (d : dict) (k : string) (default : value) : value :=
  match dict_get d k with Some v => v | None => default end.

Definition required_fields : list string :=
  ["framework"; "layout"; "colors"; "typography"; "components";
   "interactive_elements"; "content_structure"; "cloning_requirements"].

(** The first loop of [_validate_and_enhance_analysis]. *)
Definition fill_required (analysis : dict) : dict :=
  fold_left (fun a field =>
               if dict_mem a field then a
               else dict_set a field (if String.eqb field "components"
                                      then VList [] else VDict []))
            required_fields analysis.

Definition default_package_json : value :=
  VDict [("name", VStr "cloned-website");
         ("version", VStr "1.0.0");
         ("description", VStr "Cloned website");
         ("scripts", VDict [("start", VStr "live-server");
                            ("build", VStr "echo 'No build step required'")]);
         ("dependencies", VDict []);
         ("devDependencies", VDict [("live-server", VStr "^1.2.2")])].

Definition default_text_content : value :=
  VDict [("header", VStr "Default header text");
         ("main", VStr "Default main content");
         ("footer", VStr "Default footer text")].

(** [framework[key]] is replaced by [framework_hints.get(hint_key,
    ["vanilla"])[0]] when it is falsy or equal to ["unknown"]. *)
Definition hint_field (framework : value) (key : string) (hints : value)
    (hint_key : string) : result value :=
  let* cur := py_get framework key VNone in
  let* needed := if negb (truthy cur) then Ok true
                 else let* cur' := py_subscript framework key in
                      Ok (is_str_eq cur' "unknown") in
  if needed then
    let* l := py_get hints hint_key (vstrs ["vanilla"]) in
    let* h := py_index0 l in
    py_setitem framework key h
  else Ok framework.

(** The [if framework_hints:] block. *)
Definition apply_hints (analysis : dict) (framework_hints : option value)
    : result dict :=
  match framework_hints with
  | Some hints =>
      if truthy hints then
        let framework := dget analysis "framework" (VDict []) in
        let* framework := hint_field framework "primary" hints "frameworks" in
        let* framework := hint_field framework "css" hints "css_frameworks" in
        Ok (dict_set analysis "framework" framework)
      else Ok analysis
  | None => Ok analysis
  end.

(** [content_structure['text_content'][k]], formatted by an f-string. *)
Definition text_of (content_structure : value) (k : string) : result string :=
  let* tc := py_subscript content_structure "text_content" in
  let* v := py_subscript tc k in
  Ok (py_str v).

Definition q1 (s : string) : string := "'" ++ s ++ "'".

(** [_validate_and_enhance_analysis(analysis, framework_hints)]: the
    Specification Completer.  [cloning_req] and [content_structure] are the
    very dicts stored in [analysis] (the loop has just made the keys
    present), so their updates are written back under their keys. *)
Definition validate_and_enhance_analysis (analysis : dict)
    (framework_hints : option value) : result dict :=
  let analysis := fill_required analysis in
  let* analysis := apply_hints analysis framework_hints in
  let cloning_req := dget analysis "cloning_requirements" (VDict []) in
  let* pj := py_get cloning_req "package_json" VNone in
  let* cloning_req := if negb (truthy pj)
                      then py_setitem cloning_req "package_json" default_package_json
                      else Ok cloning_req in
  let content_structure := dget analysis "content_structure" (VDict []) in
  let* tc := py_get content_structure "text_content" VNone in
  let* content_structure :=
    if negb (truthy tc)
    then py_setitem content_structure "text_content" default_text_content
    else Ok content_structure in
  let* cd := py_get cloning_req "components_description" VNone in
  let* cloning_req :=
    if negb (truthy cd) then
      let* h := text_of content_structure "header" in
      let* m := text_of content_structure "main" in
      let* f := text_of content_structure "footer" in
      py_setitem cloning_req "components_description"
        (VDict [("components/Header.html",
                 VStr ("Header with text " ++ q1 h ++ ", blue background, flexbox layout"));
                ("components/Main.html",
                 VStr ("Main section with text " ++ q1 m ++ ", centered content"));
                ("components/Footer.html",
                 VStr ("Footer with text " ++ q1 f ++ ", dark background"))])
    else Ok cloning_req in
  let* pd := py_get cloning_req "pages_description" VNone in
  let* cloning_req :=
    if negb (truthy pd) then
      let* h := text_of content_structure "header" in
      let* m := text_of content_structure "main" in
      let* f := text_of content_structure "footer" in
      py_setitem cloning_req "pages_description"
        (VDict [("index.html",
                 VStr ("Main page with header (" ++ q1 h ++ "), main (" ++ q1 m
                       ++ "), and footer (" ++ q1 f ++ ")"))])
    else Ok cloning_req in
  let* sd := py_get cloning_req "styles_description" VNone in
  let* cloning_req :=
    if negb (truthy sd) then
      py_setitem cloning_req "styles_description"
        (VDict [("style.css", VStr "Main stylesheet with layout, typography, and component styles, including text styling")])
    else Ok cloning_req in
  Ok (dict_set (dict_set analysis "cloning_requirements" cloning_req)
               "content_structure" content_structure).

End Analyzer.

(* ------------------------------------------------------------------ *)
(** ** Response Normalizer: [_parse_gemini_response] and its fallback *)

Module Normalizer.
Import Py Str Fmt Analyzer.

(** [_get_packages_for_framework]. *)
Definition get_packages_for_framework (framework css_framework : value) : value :=
  let base :=
    if is_str_eq framework "react" then ["react"; "react-dom"]
    else if is_str_eq framework "next" then ["next"; "react"; "react-dom"]
    else if is_str_eq framework "vue" then ["vue"]
    else if is_str_eq framework "angular" then ["@angular/core"; "@angular/common"]
    else if is_str_eq framework "vanilla" then ["live-server"]
    else [] in
  let base :=
    if is_str_eq css_framework "tailwind" then (base ++ ["tailwindcss"; "autoprefixer"; "postcss"])%list
    else if is_str_eq css_framework "bootstrap" then (base ++ ["bootstrap"])%list
    else base in
  match base with [] => vstrs ["live-server"] | _ => vstrs base end.

(** The line loop of [_extract_from_text_response]: a stripped line longer
    than 5 characters at index [i] of [n] lines goes to the header when
    [i < n * 0.3], to the main part when [i < n * 0.7], to the footer
    otherwise.  The float products are below the exact rationals and round
    to at most the integer they approach, so the comparisons are those of
    [10 i < 3 n] and [10 i < 7 n]. *)
Fixpoint segment (n i : nat) (lines : list string) (h m f : string)
    : string * string * string :=
  match lines with
  | [] => (h, m, f)
  | line :: rest =>
      let line := strip line in
      if negb (String.eqb line "") && (5 <? String.length line)%nat then
        if (10 * i <? 3 * n)%nat then segment n (S i) rest (take 100 line) m f
        else if (10 * i <? 7 * n)%nat then segment n (S i) rest h (take 100 line) f
        else segment n (S i) rest h m (take 100 line)
      else segment n (S i) rest h m f
  end.

(** [_extract_from_text_response(response_text, framework_hints)]. *)
Definition extract_from_text_response (response_text : string)
    (framework_hints : option value) : result value :=
  let* detected :=
    match framework_hints with
    | Some hints =>
        if truthy hints then
          let* l := py_get hints "frameworks" (vstrs ["vanilla"]) in
          let* fw := py_index0 l in
          let* l' := py_get hints "css_frameworks" (vstrs ["vanilla"]) in
          let* css := py_index0 l' in
          Ok (fw, css)
        else Ok (VStr "vanilla", VStr "vanilla")
    | None => Ok (VStr "vanilla", VStr "vanilla")
    end in
  let '(detected_framework, detected_css) := detected in
  let lines := split_nl response_text in
  let '(h, m, f) := segment (List.length lines) 0 lines
                      "Welcome to Our Site" "About Us Content" "Copyright 2025" in
  let text_content := VDict [("header", VStr h); ("main", VStr m); ("footer", VStr f)] in
  Ok (VDict
   [("framework", VDict
       [("primary", detected_framework);
        ("css", detected_css);
        ("build_tools", if is_str_eq detected_framework "vanilla" then VList [] else vstrs ["vite"]);
        ("backend_indicators", VList [])]);
    ("layout", VDict
       [("type", VStr "flexbox");
        ("structure", VStr "header-main-footer");
        ("breakpoints", vstrs ["sm:640px"; "md:768px"; "lg:1024px"; "xl:1280px"]);
        ("component_hierarchy", vstrs ["Header"; "Main"; "Footer"])]);
    ("colors", VDict
       [("primary", VStr "#3b82f6"); ("secondary", VStr "#f8fafc");
        ("accent", VStr "#10b981"); ("background", VStr "#ffffff");
        ("text", VStr "#111827")]);
    ("typography", VDict
       [("primary_font", VStr "system-ui");
        ("font_sizes", vstrs ["14px"; "16px"; "18px"; "24px"; "32px"]);
        ("font_weights", VList [VInt 400; VInt 500; VInt 600; VInt 700]);
        ("line_heights", vstrs ["1.4"; "1.6"; "1.8"])]);
    ("components", vstrs ["header"; "main"; "footer"]);
    ("interactive_elements", VDict
       [("navigation", vstrs ["hamburger"]); ("buttons", vstrs ["primary"]);
        ("forms", vstrs ["text-input"]); ("animations", vstrs ["fade"])]);
    ("content_structure", VDict
       [("sections", vstrs ["hero"; "main"; "footer"]);
        ("text_hierarchy", vstrs ["h1"; "h2"; "p"]);
        ("text_content", text_content);
        ("images", vstrs ["hero-bg"; "content-images"]);
        ("icons", vstrs ["fontawesome"])]);
    ("cloning_requirements", VDict
       [("npm_packages", get_packages_for_framework detected_framework detected_css);
        ("component_files", vstrs ["components/Header.html"; "components/Main.html"; "components/Footer.html"]);
        ("components_description", VDict
           [("components/Header.html", VStr ("Header with text " ++ q1 h ++ ", blue background, flexbox layout"));
            ("components/Main.html", VStr ("Main section with text " ++ q1 m ++ ", centered content"));
            ("components/Footer.html", VStr ("Footer with text " ++ q1 f ++ ", dark background"))]);
        ("pages", vstrs ["index.html"]);
        ("pages_description", VDict
           [("index.html", VStr ("Main page with header (" ++ q1 h ++ "), main (" ++ q1 m
                                 ++ "), and footer (" ++ q1 f ++ ")"))]);
        ("styles", vstrs ["style.css"]);
        ("styles_description", VDict
           [("style.css", VStr "Global CSS with reset, typography, layout, and component-specific styles")]);
        ("config_files", VDict [("package.json", VDict [])]);
        ("assets", vstrs ["images/"; "icons/"; "fonts/"]);
        ("performance_tips", vstrs ["lazy-loading"; "image-optimization"]);
        ("package_json", default_package_json)]);
    ("raw_analysis", VStr response_text);
    ("text_parsing_used", VBool true)]).

(** Pattern (a), [\{[\s\S]*\}]: from the leftmost ['{'] that has a ['}']
    after it, greedily up to the last ['}']. *)
Fixpoint greedy_close (r : string) : option string :=
  match r with
  | EmptyString => None
  | String c r' =>
      match greedy_close r' with
      | Some p => Some (String c p)
      | None => if Ascii.eqb c "}"%char then Some (s1 c) else None
      end
  end.

Fixpoint search_a (s : string) : option string :=
  match s with
  | EmptyString => None
  | String c r =>
      match (if Ascii.eqb c "{"%char then greedy_close r else None) with
      | Some p => Some (String c p)
      | None => search_a r
      end
  end.

(** Pattern (b), [(\{[\s\S]*?\})\s*$]: lazily up to the first ['}'] after
    which only whitespace remains. *)
Fixpoint lazy_close_end (r : string) : option string :=
  match r with
  | EmptyString => None
  | String c r' =>
      if Ascii.eqb c "}"%char && all_chars isspace r' then Some (s1 c)
      else match lazy_close_end r' with
           | Some p => Some (String c p)
           | None => None
           end
  end.

Fixpoint search_b (s : string) : option string :=
  match s with
  | EmptyString => None
  | String c r =>
      match (if Ascii.eqb c "{"%char then lazy_close_end r else None) with
      | Some p => Some (String c p)
      | None => search_b r
      end
  end.

(** Patterns (c) and (d), [OPENER\s*(\{[\s\S]*?\})\s*```]: after the
    opener and whitespace, lazily up to the first ['}'] followed by
    whitespace and a closing fence. *)
Fixpoint lazy_close_fence (r : string) : option string :=
  match r with
  | EmptyString => None
  | String c r' =>
      if Ascii.eqb c "}"%char && startswith (lstrip r') "```" then Some (s1 c)
      else match lazy_close_fence r' with
           | Some p => Some (String c p)
           | None => None
           end
  end.

Definition fenced_at (opener s : string) : option string :=
  if startswith s opener then
    match lstrip (substring (String.length opener) (String.length s) s) with
    | String c r =>
        if Ascii.eqb c "{"%char
        then match lazy_close_fence r with Some p => Some (String c p) | None => None end
        else None
    | EmptyString => None
    end
  else None.

Fixpoint search_fenced (opener s : string) : option string :=
  match s with
  | EmptyString => None
  | String _ r =>
      match fenced_at opener s with
      | Some g => Some g
      | None => search_fenced opener r
      end
  end.

Definition search_c (s : string) : option string := search_fenced "```json" s.
Definition search_d (s : string) : option string := search_fenced "```" s.

(** The code-fence stripping at the head of [_parse_gemini_response]. *)
Definition clean_response (response_text : string) : string :=
  let cleaned := strip response_text in
  if startswith cleaned "```json"
  then strip (replace "```" "" (replace "```json" "" cleaned))
  else if startswith cleaned "```"
  then strip (replace "```" "" cleaned)
  else cleaned.

(** The pattern loop: the first pattern whose match [json.loads] accepts
    wins; a match that fails with [JSONDecodeError] moves on to the next
    pattern, while any other exception of [json.loads] leaves the loop. *)
Definition first_parsed (cleaned : string) : result (option value) :=
  let attempt (m : option string) (k : result (option value)) : result (option value) :=
    match m with
    | Some json_str => match Json.loads json_str with
                       | Ok v => Ok (Some v)
                       | Err JSONDecodeError => k
                       | Err e => Err e
                       end
    | None => k
    end in
  attempt (search_a cleaned)
    (attempt (search_b cleaned)
       (attempt (search_c cleaned)
          (attempt (search_d cleaned) (Ok None)))).

(** The Completer applied to a decoded object.  Every match starts with
    ['{'], so [json.loads] only ever yields a dict here. *)
Definition complete_value (v : value) (framework_hints : option value) : result value :=
  match v with
  | VDict d => let* d' := validate_and_enhance_analysis d framework_hints in Ok (VDict d')
  | _ => Err TypeError
  end.

(** [_parse_gemini_response(response_text, framework_hints)]: the body of
    the [try], and the [except] that runs the text fallback again. *)
Definition parse_gemini_response (response_text : string)
    (framework_hints : option value) : result value :=
  try_except
    (let* parsed := first_parsed (clean_response response_text) in
     match parsed with
     | Some parsed_json =>
         if truthy parsed_json then complete_value parsed_json framework_hints
         else extract_from_text_response response_text framework_hints
     | None => extract_from_text_response response_text framework_hints
     end)
    (extract_from_text_response response_text framework_hints).

End Normalizer.

(* ------------------------------------------------------------------ *)
(** ** Rule-Based Fallback: [_extract_colors_from_html] *)

Module Colors.
Import Py Str.

(** The longest prefix of [s] whose characters satisfy [p], at most
    [max] of them, and the rest. *)
Fixpoint span_max (max : nat) (p : ascii -> bool) (s : string) : string * string :=
  match max, s with
  | S k, String c r =>
      if p c then let '(a, b) := span_max k p r in (String c a, b) else (EmptyString, s)
  | _, _ => (EmptyString, s)
  end.

Definition span (p : ascii -> bool) (s : string) : string * string :=
  span_max (String.length s) p s.

(** A literal matched case-insensitively ([re.IGNORECASE]; [lit] is lower
    case). *)
Definition lit_ci (lit s : string) : option string :=
  if String.prefix lit (lower s)
  then Some (substring (String.length lit) (String.length s) s) else None.

Definition lit (c : ascii) (s : string) : option string :=
  match s with
  | String c' r => if Ascii.eqb c c' then Some r else None
  | EmptyString => None
  end.

Definition plus (p : ascii -> bool) (s : string) : option (string * string) :=
  let '(a, b) := span p s in
  if String.eqb a EmptyString then None else Some (a, b).

Definition obind {A B} (m : option A) (k : A -> option B) : option B :=
  match m with Some a => k a | None => None end.
Notation "'let?' x := m 'in' k" := (obind m (fun x => k))
  (at level 200, x pattern, m at level 100, k at level 200).

Definition is_hash_or_word (c : ascii) : bool := isword c || Ascii.eqb c "#"%char.

(** [NAME:\s*([#\w]+)] at the head of [s]. *)
Definition decl_at (name : string) (s : string) : option (string * string) :=
  let? r := lit_ci name s in
  plus is_hash_or_word (lstrip r).

(** [#([0-9a-fA-F]{3,6})] at the head of [s]. *)
Definition hex_at (s : string) : option (string * string) :=
  let? r := lit "#"%char s in
  let '(a, b) := span_max 6 ishex r in
  if (3 <=? String.length a)%nat then Some (a, b) else None.

(** [\s*(\d+)\s*] followed by [sep]. *)
Definition num_then (sep : ascii) (s : string) : option (string * string) :=
  let? (d, r) := plus isdigit09 (lstrip s) in
  let? r := lit sep (lstrip r) in
  Some (d, r).

(** [rgb\(\s*(\d+)\s*,\s*(\d+)\s*,\s*(\d+)\s*\)] at the head of [s]. *)
Definition rgb_at (s : string) : option (list string * string) :=
  let? r := lit_ci "rgb(" s in
  let? (a, r) := num_then ","%char r in
  let? (b, r) := num_then ","%char r in
  let? (c, r) := num_then ")"%char r in
  Some ([a; b; c], r).

(** [rgba\(\s*(\d+)\s*,\s*(\d+)\s*,\s*(\d+)\s*,\s*[\d.]+\s*\)]. *)
Definition rgba_at (s : string) : option (list string * string) :=
  let? r := lit_ci "rgba(" s in
  let? (a, r) := num_then ","%char r in
  let? (b, r) := num_then ","%char r in
  let? (c, r) := num_then ","%char r in
  let? (_, r) := plus (fun ch => isdigit09 ch || Ascii.eqb ch "."%char) (lstrip r) in
  let? r := lit ")"%char (lstrip r) in
  Some ([a; b; c], r).

(** [re.findall]: scan left to right, resuming after each (non-empty)
    match. *)
Fixpoint findall_fuel {A} (fuel : nat) (at_ : string -> option (A * string))
    (s : string) : list A :=
  match fuel with
  | O => []
  | S f =>
      match s with
      | EmptyString => []
      | String _ r =>
          match at_ s with
          | Some (a, rest) => a :: findall_fuel f at_ rest
          | None => findall_fuel f at_ r
          end
      end
  end.

Definition findall {A} (at_ : string -> option (A * string)) (s : string) : list A :=
  findall_fuel (S (String.length s)) at_ s.

(** An element of [found_colors]: a string for a one-group pattern, a
    tuple for the three-group [rgb]/[rgba] patterns. *)
Inductive found : Type :=
| FStr (s : string)
| FTuple (t : list string).

Definition found_colors (html_content : string) : list found :=
  (map FStr (findall (decl_at "color:") html_content)
   ++ map FStr (findall (decl_at "background-color:") html_content)
   ++ map FStr (findall (decl_at "border-color:") html_content)
   ++ map FStr (findall hex_at html_content)
   ++ map FTuple (findall rgb_at html_content)
   ++ map FTuple (findall rgba_at html_content))%list.

(** [[c for c in found_colors if c.startswith('#') or c.isalnum()]]; a
    tuple has no [startswith]. *)
Fixpoint keep_colors (l : list found) : result (list string) :=
  match l with
  | [] => Ok []
  | FStr c :: l' =>
      let* rest := keep_colors l' in
      Ok (if startswith c "#" || isalnum c then c :: rest else rest)
  | FTuple _ :: _ => Err AttributeError
  end.

Definition hashify (c : string) : string :=
  if startswith c "#" then c else "#" ++ c.

Definition default_colors : value :=
  VDict [("primary", VStr "#3b82f6"); ("secondary", VStr "#f8fafc");
         ("accent", VStr "#10b981"); ("background", VStr "#ffffff");
         ("text", VStr "#111827")].

Definition colors_dict (primary secondary : string) : value :=
  VDict [("primary", VStr primary); ("secondary", VStr secondary);
         ("accent", VStr "#10b981"); ("background", VStr "#ffffff");
         ("text", VStr "#111827")].

(** The assignments from [unique_colors], in the order [list(set(...))]
    produced. *)
Definition colors_from (unique_colors : list string) : value :=
  colors_dict
    (match unique_colors with c :: _ => hashify c | [] => "#3b82f6" end)
    (match unique_colors with _ :: c :: _ => hashify c | _ => "#f8fafc" end).

(** [list(set(xs))]: the distinct elements of [xs] in the iteration order
    of a [set] of strings, which depends on the per-process string hash
    seed; any duplicate-free ordering of them. *)
Definition set_order (xs u : list string) : Prop :=
  NoDup u /\ (forall x, In x u <-> In x xs).

(** [_extract_colors_from_html(html_content)], as the relation between the
    HTML and the results the function can return. *)
Definition extract_colors_from_html (html_content : string) (out : result value) : Prop :=
  match found_colors html_content with
  | [] => out = Ok default_colors
  | found =>
      match keep_colors found with
      | Err e => out = Err e
      | Ok kept => exists u, set_order kept u /\ out = Ok (colors_from u)
      end
  end.

End Colors.

(* ------------------------------------------------------------------ *)
(** ** Rule-Based Fallback: [_extract_typography_from_html] *)

Module Typography.
Import Py Str Analyzer Colors.

Fixpoint last_char (s : string) : option ascii :=
  match s with
  | EmptyString => None
  | String c EmptyString => Some c
  | String _ r => last_char r
  end.

(** [font-family:\s*([^;]+)] at the head of [s]: the run of non-[;]
    characters after the whitespace; when none follows, [\s*] gives its
    last whitespace character back to the group. *)
Definition family_at (s : string) : option (string * string) :=
  let? r := lit_ci "font-family:" s in
  let '(ws, rest) := span isspace r in
  match plus (fun c => negb (Ascii.eqb c ";"%char)) rest with
  | Some (g, r') => Some (g, r')
  | None => match last_char ws with Some c => Some (s1 c, rest) | None => None end
  end.

(** [(?:px|em|rem|%)], case-insensitively, keeping the text as written. *)
Definition unit_at (s : string) : option (string * string) :=
  match lit_ci "px" s with
  | Some r => Some (substring 0 2 s, r)
  | None =>
      match lit_ci "em" s with
      | Some r => Some (substring 0 2 s, r)
      | None =>
          match lit_ci "rem" s with
          | Some r => Some (substring 0 3 s, r)
          | None =>
              match lit_ci "%" s with
              | Some r => Some (substring 0 1 s, r)
              | None => None
              end
          end
      end
  end.

(** [font-size:\s*(\d+(?:px|em|rem|%))]. *)
Definition size_at (s : string) : option (string * string) :=
  let? r := lit_ci "font-size:" s in
  let? (d, r) := plus isdigit09 (lstrip r) in
  let? (u, r) := unit_at r in
  Some (d ++ u, r).

(** [font-weight:\s*(\d+)]. *)
Definition weight_at (s : string) : option (string * string) :=
  let? r := lit_ci "font-weight:" s in
  plus isdigit09 (lstrip r).

(** [line-height:\s*([\d.]+)]. *)
Definition height_at (s : string) : option (string * string) :=
  let? r := lit_ci "line-height:" s in
  plus (fun c => isdigit09 c || Ascii.eqb c "."%char) (lstrip r).

(** [str.isdigit()]. *)
Definition isdigit_str (s : string) : bool :=
  negb (String.eqb s "") && all_chars isdigit09 s.

(** [int(s)] of a string of decimal digits. *)
Definition int_of (s : string) : Z :=
  Z.of_N (fst (fst (Json.digits_acc s 0%N 0))).

Fixpoint insert_uniq (x : Z) (l : list Z) : list Z :=
  match l with
  | [] => [x]
  | y :: l' => if (x <? y)%Z then x :: l
               else if (x =? y)%Z then l
               else y :: insert_uniq x l'
  end.

(** [sorted(list(set(l)))]: the distinct elements of [l] in increasing
    order. *)
Definition sorted_set (l : list Z) : list Z := fold_right insert_uniq [] l.

Definition nonempty (s : string) : bool := negb (String.eqb s "").

Definition default_font_sizes : list string := ["14px"; "16px"; "18px"; "24px"; "32px"].
Definition default_line_heights : list string := ["1.4"; "1.6"; "1.8"].

(** [_extract_typography_from_html(html_content)], as the relation between
    the HTML and the dicts it can return: [list(set(...))[:n]] takes the
    first [n] of the distinct matches in the iteration order of the set
    ([set_order]). *)
Definition extract_typography_from_html (html_content : string) (out : value) : Prop :=
  let primary_font :=
    match findall family_at html_content with
    | m :: _ => replace "'" "" (replace (s1 dq) "" (strip m))
    | [] => "system-ui"
    end in
  let sizes := filter nonempty (findall size_at html_content) in
  let weights := map int_of (filter isdigit_str (findall weight_at html_content)) in
  let heights := filter nonempty (findall height_at html_content) in
  exists font_sizes line_heights,
    match sizes with
    | [] => font_sizes = default_font_sizes
    | _ => exists u, set_order sizes u /\ font_sizes = firstn 5 u
    end /\
    match heights with
    | [] => line_heights = default_line_heights
    | _ => exists u, set_order heights u /\ line_heights = firstn 3 u
    end /\
    out = VDict [("primary_font", VStr primary_font);
                 ("font_sizes", vstrs font_sizes);
                 ("font_weights",
                    VList (map VInt (match weights with
                                     | [] => [400; 500; 600; 700]%Z
                                     | _ => sorted_set weights
                                     end)));
                 ("line_heights", vstrs line_heights)].

End Typography.

(* ------------------------------------------------------------------ *)
(** ** Project Generator ([generator_agent.py]) *)

Module Generator.
Import Py Str Fmt.

(** [posixpath.splitext]: the extension starts at the last ['.'] after the
    last ['/'], unless the base name has only dots before it. *)
Fixpoint last_index (c : ascii) (s : string) (i : nat) (acc : option nat) : option nat :=
  match s with
  | EmptyString => acc
  | String c' r => last_index c r (S i) (if Ascii.eqb c c' then Some i else acc)
  end.

Definition splitext (p : string) : string * string :=
  let sep := last_index "/"%char p 0 None in
  let start := match sep with Some k => S k | None => 0 end in
  match last_index "."%char p 0 None with
  | Some dot =>
      if (start <=? dot)%nat
         && any_char (fun ch => negb (Ascii.eqb ch "."%char))
                     (substring start (dot - start) p)
      then (substring 0 dot p, substring dot (String.length p - dot) p)
      else (p, EmptyString)
  | None => (p, EmptyString)
  end.

(** [os.path.basename]. *)
Definition basename (p : string) : string :=
  match last_index "/"%char p 0 None with
  | Some k => substring (S k) (String.length p - S k) p
  | None => p
  end.

(** [s.split('```', 2)[-1]]: what follows the second fence, or the first
    when there is only one, or [s] itself. *)
Fixpoint after_sep (sep s : string) : option string :=
  if String.prefix sep s then Some (substring (String.length sep) (String.length s) s)
  else match s with
       | EmptyString => None
       | String _ r => after_sep sep r
       end.

Definition split2_last (sep s : string) : string :=
  match after_sep sep s with
  | None => s
  | Some r1 => match after_sep sep r1 with Some r2 => r2 | None => r1 end
  end.

(** The [self.model] attribute of a [GeneratorAgent].  [__init__] never
    assigns it ([NoAttr]); [ModelNone] is the value [None]; a model maps a
    prompt to the text of its response, or [None] when the call raises. *)
Inductive model_attr : Type :=
| NoAttr
| ModelNone
| Model (generate : string -> option string).

(** What [GeneratorAgent.__init__] leaves in [self.model]. *)
Definition agent_model : model_attr := NoAttr.

Definition mem_str (x : string) (l : list string) : bool := existsb (String.eqb x) l.

(** The deterministic tail of [_generate_real_code], by extension. *)
Definition placeholder (file_name : string) (description : value) (framework : string) : value :=
  let d := py_str description in
  let ext := snd (splitext file_name) in
  if mem_str ext [".js"; ".jsx"; ".ts"; ".tsx"] then
    VStr ("// " ++ file_name ++ " for " ++ framework ++ NL ++ "// " ++ d ++ NL
          ++ "export default function "
          ++ capitalize (fst (splitext (basename file_name)))
          ++ "() {" ++ NL ++ "  return (<div>" ++ d ++ "</div>);" ++ NL ++ "}")
  else if mem_str ext [".css"; ".scss"; ".less"] then
    VStr ("/* " ++ file_name ++ " for " ++ framework ++ NL ++ d ++ NL ++ "*/")
  else if String.eqb ext ".json" then
    (if truthy description then description else VStr "{}")
  else
    VStr ("# " ++ file_name ++ " for " ++ framework ++ NL ++ "# " ++ d).
(** The prompt of [_generate_real_code]. *)
Definition real_code_prompt (framework file_type file_name description : string) : string :=
  "
You are Bolt, an expert AI assistant and exceptional senior software developer with vast knowledge across multiple programming languages, frameworks, and best practices.

For all components, pages, and styles I ask you to generate, make them beautiful, not cookie-cutter. Make webpages that are fully featured and worthy for production.

By default, use JSX syntax with Tailwind CSS classes, React hooks, and Lucide React for icons. Do not install other packages for UI themes, icons, etc. unless absolutely necessary or I request them.

Use icons from lucide-react for logos.

Use stock photos from unsplash where appropriate, only valid URLs you know exist. Do not download the images, only link to them in image tags.

Use 2 spaces for code indentation.

Generate a "
  ++ framework
  ++ " "
  ++ file_type
  ++ " named "
  ++ file_name
  ++ " with the following description:
"
  ++ description
  ++ "

Return only the code, no explanations or comments outside the code. The code should be ready for production use, clean, and idiomatic. If generating a React component, export it as default. If generating a CSS file, include all necessary styles for the described component/page.

If you need to use images, use Unsplash URLs. For icons, use lucide-react.

Do not use any UI libraries or icon sets other than Tailwind CSS and lucide-react unless explicitly requested.

Do not include any explanations, only the code.
".

(** [_generate_gitignore]. *)
Definition base_ignore : string :=
  "# Dependencies
node_modules/
npm-debug.log*
yarn-debug.log*
yarn-error.log*

# Production builds
/build
/dist
/.next
/out

# Environment variables
.env
.env.local
.env.development.local
.env.test.local
.env.production.local

# IDE and editor files
.vscode/
.idea/
*.swp
*.swo

# OS generated files
.DS_Store
.DS_Store?
._*
.Spotlight-V100
.Trashes
ehthumbs.db
Thumbs.db

# Logs
logs
*.log

# Runtime data
pids
*.pid
*.seed
*.pid.lock

# Coverage directory used by tools like istanbul
coverage/

# Temporary folders
tmp/
temp/".

Definition angular_ignore : string :=
  "

# Angular specific
/e2e
/coverage
/.nyc_output".

Definition generate_gitignore (framework : string) : string :=
  if String.eqb framework "angular" then base_ignore ++ angular_ignore else base_ignore.

(** [_generate_readme]. *)
Definition generate_readme (framework : string) : string :=
  let npm_cmd := if String.eqb framework "next" then "run dev"
                 else if String.eqb framework "react" then "start"
                 else if String.eqb framework "vue" then "run serve" else "start" in
  "# Generated Website Clone

This is a website clone generated using the Generator Agent.

## Framework
- **"
  ++ capitalize framework
  ++ "**

## Getting Started

### Prerequisites
- Node.js (v14 or higher)
- npm or yarn

### Installation

1. Install dependencies:
```bash
npm install
```

2. Start the development server:
```bash
npm "
  ++ npm_cmd
  ++ "
```

3. Open your browser to `http://localhost:3000`

### Building for Production

```bash
npm run build
```

## Project Structure

```
src/
├── components/     # Reusable components
├── pages/         # Page components
├── utils/         # Utility functions
└── styles/        # CSS styles
```

## Features

- Responsive design
- Modern UI components
- Optimized performance
- Cross-browser compatibility

## Technologies Used

- "
  ++ capitalize framework
  ++ "
- CSS3/Tailwind CSS
- Modern JavaScript (ES6+)

## Contributing

1. Fork the repository
2. Create a feature branch
3. Make your changes
4. Submit a pull request

## License

This project is licensed under the MIT License.
".


(** The minimal files of the framework fallback in [generate_code], in
    source order.  Source lines 114-115 break the [public/index.html]
    literal of the Vue branch over two physical lines, which Python
    rejects (unterminated string literal); [vue_index_html] reads the
    break as the newline the sibling templates have at that place. *)
Definition react_index_jsx : string :=
  "import React from 'react';" ++ NL
  ++ "import ReactDOM from 'react-dom/client';" ++ NL
  ++ "import App from './App';" ++ NL
  ++ "import './index.css';" ++ NL
  ++ "" ++ NL
  ++ "ReactDOM.createRoot(document.getElementById('root')).render(<App />);".

Definition react_app_jsx : string :=
  "export default function App() {" ++ NL
  ++ "  return <div>Hello from App!</div>;" ++ NL
  ++ "}".

Definition react_index_html : string :=
  "<!DOCTYPE html>" ++ NL
  ++ "<html lang='en'>" ++ NL
  ++ "  <head>" ++ NL
  ++ "    <meta charset='UTF-8' />" ++ NL
  ++ "    <meta name='viewport' content='width=device-width, initial-scale=1.0' />" ++ NL
  ++ "    <title>Cloned React App</title>" ++ NL
  ++ "  </head>" ++ NL
  ++ "  <body>" ++ NL
  ++ "    <div id='root'></div>" ++ NL
  ++ "  </body>" ++ NL
  ++ "</html>".

Definition next_app_js : string :=
  "export default function MyApp({ Component, pageProps }) {" ++ NL
  ++ "  return <Component {...pageProps} />;" ++ NL
  ++ "}".

Definition next_index_js : string :=
  "export default function Home() {" ++ NL
  ++ "  return <div>Hello from Next.js Home!</div>;" ++ NL
  ++ "}".

Definition vue_main_js : string :=
  "import { createApp } from 'vue';" ++ NL
  ++ "import App from './App.vue';" ++ NL
  ++ "createApp(App).mount('#app');".

Definition vue_app_vue : string :=
  "<template>" ++ NL
  ++ "  <div>Hello from Vue App!</div>" ++ NL
  ++ "</template>" ++ NL
  ++ "<script>" ++ NL
  ++ "export default { name: 'App' }" ++ NL
  ++ "</script>".

Definition vue_index_html : string :=
  "<!DOCTYPE html>" ++ NL
  ++ "<html lang='en'>" ++ NL
  ++ "  <head>" ++ NL
  ++ "    <meta charset='UTF-8' />" ++ NL
  ++ "    <meta name='viewport' content='width=device-width, initial-scale=1.0' />" ++ NL
  ++ "    <title>Cloned Vue App</title>" ++ NL
  ++ "  </head>" ++ NL
  ++ "  <body>" ++ NL
  ++ "    <div id='app'></div>" ++ NL
  ++ "  </body>" ++ NL
  ++ "</html>".

Definition vanilla_index_html : string :=
  "<!DOCTYPE html>" ++ NL
  ++ "<html lang='en'>" ++ NL
  ++ "  <head>" ++ NL
  ++ "    <meta charset='UTF-8' />" ++ NL
  ++ "    <meta name='viewport' content='width=device-width, initial-scale=1.0' />" ++ NL
  ++ "    <title>Cloned Vanilla App</title>" ++ NL
  ++ "  </head>" ++ NL
  ++ "  <body>" ++ NL
  ++ "    <h1>Hello from Vanilla JS!</h1>" ++ NL
  ++ "    <script src='main.js'></script>" ++ NL
  ++ "  </body>" ++ NL
  ++ "</html>".

Definition vanilla_main_js : string :=
  "console.log('Hello from Vanilla JS!');".

(** [_generate_real_code(file_name, description, framework, file_type)]:
    the generative path and its deterministic fallback. *)
Definition generate_real_code (model : model_attr) (file_name : string)
    (description : value) (framework file_type : string) : result value :=
  if negb (truthy description)
  then Ok (VStr ("// No description provided for " ++ file_name))
  else
    let prompt := real_code_prompt framework file_type file_name (py_str description) in
    match model with
    | NoAttr => Err AttributeError
    | ModelNone => Ok (placeholder file_name description framework)
    | Model generate =>
        match generate prompt with
        | Some text =>
            let code := strip text in
            Ok (VStr (if startswith code "```" then strip (split2_last "```" code) else code))
        | None => Ok (placeholder file_name description framework)
        end
    end.

Definition sdict (l : list (string * string)) : value :=
  VDict (map (fun kv => (fst kv, VStr (snd kv))) l).

(** [_generate_package_json(analysis, framework)]; [base_package.update]
    keeps the keys in their places and replaces their values. *)
Definition generate_package_json (framework : string) : value :=
  let base : dict :=
    [("name", VStr "generated-website"); ("version", VStr "1.0.0");
     ("description", VStr "Generated website clone"); ("main", VStr "index.js");
     ("scripts", VDict []); ("dependencies", VDict []); ("devDependencies", VDict [])] in
  let update (scripts deps dev : value) : value :=
    VDict (dict_set (dict_set (dict_set base "scripts" scripts) "dependencies" deps)
                    "devDependencies" dev) in
  if String.eqb framework "react" then
    update (sdict [("start", "react-scripts start"); ("build", "react-scripts build");
                   ("test", "react-scripts test"); ("eject", "react-scripts eject")])
           (sdict [("react", "^18.2.0"); ("react-dom", "^18.2.0");
                   ("react-router-dom", "^6.8.0"); ("react-scripts", "5.0.1")])
           (sdict [("tailwindcss", "^3.2.0"); ("autoprefixer", "^10.4.0"); ("postcss", "^8.4.0")])
  else if String.eqb framework "next" then
    update (sdict [("dev", "next dev"); ("build", "next build");
                   ("start", "next start"); ("lint", "next lint")])
           (sdict [("next", "^13.1.0"); ("react", "^18.2.0"); ("react-dom", "^18.2.0")])
           (sdict [("tailwindcss", "^3.2.0"); ("autoprefixer", "^10.4.0"); ("postcss", "^8.4.0");
                   ("eslint", "^8.0.0"); ("eslint-config-next", "^13.1.0")])
  else if String.eqb framework "vue" then
    update (sdict [("serve", "vue-cli-service serve"); ("build", "vue-cli-service build");
                   ("lint", "vue-cli-service lint")])
           (sdict [("vue", "^3.2.0"); ("vue-router", "^4.1.0")])
           (sdict [("@vue/cli-service", "^5.0.0"); ("tailwindcss", "^3.2.0");
                   ("autoprefixer", "^10.4.0"); ("postcss", "^8.4.0")])
  else if String.eqb framework "angular" then
    update (sdict [("ng", "ng"); ("start", "ng serve"); ("build", "ng build");
                   ("test", "ng test"); ("lint", "ng lint")])
           (sdict [("@angular/core", "^15.0.0"); ("@angular/common", "^15.0.0");
                   ("@angular/platform-browser", "^15.0.0"); ("@angular/router", "^15.0.0")])
           (sdict [("@angular/cli", "^15.0.0"); ("@angular/compiler-cli", "^15.0.0");
                   ("typescript", "^4.8.0")])
  else if String.eqb framework "vanilla" then
    VDict (dict_set (dict_set base "scripts" (sdict [("start", "serve .")]))
                    "dependencies" (sdict [("serve", "^14.2.0")]))
  else VDict base.

(** [GeneratedProject] ([config/system_config.py]). *)
Record GeneratedProject : Type := {
  gp_framework : string;
  gp_project_structure : dict;
  gp_package_json : value;
  gp_config_files : value;
  gp_assets : value;
  gp_build_commands : value;
  gp_dev_commands : value;
  gp_deployment_config : value
}.

(** [for x in v]: the items a [for] loop visits. *)
Definition py_iter (v : value) : result (list value) :=
  match v with
  | VList l => Ok l
  | VDict d => Ok (map (fun kv => VStr (fst kv)) d)
  | VStr s => Ok (map (fun c => VStr (s1 c)) (list_ascii_of_string s))
  | _ => Err TypeError
  end.

(** [needle in container]. *)
Definition py_in (needle : string) (container : value) : result bool :=
  match container with
  | VDict d => Ok (dict_mem d needle)
  | VList l => Ok (existsb (fun x => is_str_eq x needle) l)
  | VStr s => Ok (contains s needle)
  | _ => Err TypeError
  end.

(** One loop of [generate_code] over [files], each rendered with its
    entry in [descriptions] (default [""]).  A non-string entry ends in a
    [TypeError] (at the latest when the project is saved, in
    [os.path.join]); it is raised at once here. *)
Fixpoint render_files (model : model_attr) (framework file_type : string)
    (descriptions : value) (files : list value) (ps : dict) : result dict :=
  match files with
  | [] => Ok ps
  | VStr file_name :: rest =>
      let* description := py_get descriptions file_name (VStr "") in
      let* code := generate_real_code model file_name description framework file_type in
      render_files model framework file_type descriptions rest (dict_set ps file_name code)
  | _ :: _ => Err TypeError
  end.

(** [any(f for f in project_structure if f.lower().endswith(s) ...)]. *)
Definition has_suffix (ps : dict) (suffixes : list string) : bool :=
  existsb (fun f => existsb (endswith (lower f)) suffixes) (dict_keys ps).

Definition ensure (ps : dict) (suffixes : list string) (path content : string) : dict :=
  if has_suffix ps suffixes then ps else dict_set ps path (VStr content).

(** The per-framework completeness fallback. *)
Definition framework_fallback (framework : string) (ps : dict) : dict :=
  if String.eqb framework "react" then
    let ps := ensure ps ["index.js"; "index.jsx"] "src/index.jsx" react_index_jsx in
    let ps := ensure ps ["app.js"; "app.jsx"] "src/App.jsx" react_app_jsx in
    ensure ps ["index.html"] "public/index.html" react_index_html
  else if String.eqb framework "next" then
    let ps := ensure ps ["_app.js"; "_app.jsx"] "pages/_app.js" next_app_js in
    ensure ps ["index.js"; "index.jsx"] "pages/index.js" next_index_js
  else if String.eqb framework "vue" then
    let ps := ensure ps ["main.js"] "src/main.js" vue_main_js in
    let ps := ensure ps ["app.vue"] "src/App.vue" vue_app_vue in
    ensure ps ["index.html"] "public/index.html" vue_index_html
  else if String.eqb framework "vanilla" then
    let ps := ensure ps ["index.html"] "index.html" vanilla_index_html in
    ensure ps ["main.js"] "main.js" vanilla_main_js
  else ps.

(** The framework selection at the head of [generate_code]: the
    [framework.primary] string of the analysis when it is a non-empty
    string, ["react"] otherwise. *)
Definition resolve_framework (framework_dict : value) : string :=
  match framework_dict with
  | VDict fd =>
      match dict_get fd "primary" with
      | Some (VStr p) => if String.eqb p "" then "react" else p
      | _ => "react"
      end
  | _ => "react"
  end.

(** [generate_code(analysis, target_framework)] up to the construction of
    the [GeneratedProject]; the file writes of [_save_project] that follow
    are not modelled.  The description maps are read from the top level of
    [analysis], as the source does. *)
Definition generate_code (model : model_attr) (analysis : value)
    (target_framework : option string) : result GeneratedProject :=
  let* framework_dict := py_get analysis "framework" VNone in
  let framework := resolve_framework framework_dict in
  let* cloning := py_get analysis "cloning_requirements" (VDict []) in
  let* pj := py_get cloning "package_json" VNone in
  let package_json := match pj with
                      | VDict (_ :: _) => pj
                      | _ => generate_package_json framework
                      end in
  let* assets := py_get cloning "assets" (VList []) in
  let* build_commands := py_get cloning "build_commands" (VList []) in
  let* dev_commands := py_get cloning "dev_commands" (VList []) in
  let* deployment_config := py_get cloning "deployment_config" (VDict []) in
  let* component_files := py_get cloning "component_files" (VList []) in
  let* component_descriptions := py_get analysis "components_description" (VDict []) in
  let* items := py_iter component_files in
  let* ps := render_files model framework "component" component_descriptions items [] in
  let* page_files := py_get cloning "pages" (VList []) in
  let* page_descriptions := py_get analysis "pages_description" (VDict []) in
  let* items := py_iter page_files in
  let* ps := render_files model framework "page" page_descriptions items ps in
  let* style_files := py_get cloning "styles" (VList []) in
  let* style_descriptions := py_get analysis "styles_description" (VDict []) in
  let* items := py_iter style_files in
  let* ps := render_files model framework "style" style_descriptions items ps in
  let* config_files := py_get cloning "config_files" (VDict []) in
  let ps := framework_fallback framework ps in
  let* has_gitignore := py_in ".gitignore" config_files in
  let* config_files :=
    if negb has_gitignore && negb (dict_mem ps ".gitignore")
    then py_setitem config_files ".gitignore" (VStr (generate_gitignore framework))
    else Ok config_files in
  let* has_readme := py_in "README.md" config_files in
  let* config_files :=
    if negb has_readme && negb (dict_mem ps "README.md")
    then py_setitem config_files "README.md" (VStr (generate_readme framework))
    else Ok config_files in
  let* has_package := py_in "package.json" config_files in
  let* config_files :=
    if negb has_package && truthy package_json
    then py_setitem config_files "package.json" (VStr (Json.dumps_indent 2 package_json))
    else Ok config_files in
  Ok {| gp_framework := framework;
        gp_project_structure := ps;
        gp_package_json := package_json;
        gp_config_files := config_files;
        gp_assets := assets;
        gp_build_commands := build_commands;
        gp_dev_commands := dev_commands;
        gp_deployment_config := deployment_config |}.

(** [_determine_framework], the selection that honours [target_framework];
    [generate_code] does not call it. *)
Definition framework_map (detected : string) : string :=
  if mem_str detected ["react"; "next"; "vue"; "angular"; "svelte"] then detected
  else if String.eqb detected "nextjs" then "next"
  else if String.eqb detected "vuejs" then "vue"
  else "react".

Definition determine_framework (analysis : value) (target_framework : option string)
    : result string :=
  match target_framework with
  | Some t => if String.eqb t "" then
                let* fd := py_get analysis "framework" (VDict []) in
                let* p := py_get fd "primary" (VStr "unknown") in
                match p with
                | VStr s => Ok (framework_map (lower s))
                | _ => Err AttributeError
                end
              else Ok (lower t)
  | None =>
      let* fd := py_get analysis "framework" (VDict []) in
      let* p := py_get fd "primary" (VStr "unknown") in
      match p with
      | VStr s => Ok (framework_map (lower s))
      | _ => Err AttributeError
      end
  end.

End Generator.

(* ------------------------------------------------------------------ *)
(** ** Pipeline Orchestrator ([website_clone.py]) *)

Module Orchestrator.
Import Py Str Generator.

(** The [try] body of [_validate_generated_code]. *)
Definition validate_body (gp : GeneratedProject) : result bool :=
  let fix check_required (files : list string) : result bool :=
    match files with
    | [] => Ok true
    | file :: rest =>
        let* in_config := py_in file (gp_config_files gp) in
        if negb in_config && negb (dict_mem (gp_project_structure gp) file)
        then Ok false
        else check_required rest
    end in
  let* present := check_required ["package.json"; ".gitignore"; "README.md"] in
  if negb present then Ok false
  else
    let* deps := py_get (gp_package_json gp) "dependencies" VNone in
    if negb (truthy deps) then Ok false
    else Ok (existsb (fun path => contains (lower path) "page" || contains (lower path) "index")
                     (dict_keys (gp_project_structure gp))).

(** [_validate_generated_code]: any exception in the body gives [False]. *)
Definition validate_generated_code (gp : GeneratedProject) : bool :=
  match validate_body gp with
  | Ok b => b
  | Err _ => false
  end.

End Orchestrator.

(* ================================================================== *)
(** * Properties *)

Module Facts.
Import Py Str Analyzer Normalizer Colors Generator Orchestrator.

(** Steps over one [let*] of a hypothesis [bind m k = Ok _]. *)
Ltac bind_ok H :=
  lazymatch type of H with
  | bind ?m _ = _ =>
      let E := fresh "E" in
      destruct m eqn:E; cbn [bind] in H; [| discriminate H]
  end.

Definition manifest_frameworks : list string :=
  ["react"; "next"; "vue"; "angular"; "vanilla"].

(** [s[n:]]. *)
Fixpoint drop (n : nat) (s : string) : string :=
  match n, s with
  | O, _ => s
  | S _, EmptyString => EmptyString
  | S k, String _ s' => drop k s'
  end.

(** The value the first loop of [_validate_and_enhance_analysis] stores
    for a missing field. *)
Definition required_default (field : string) : value :=
  if String.eqb field "components" then VList [] else VDict [].

(** [framework[key]] holds a value that the hint step keeps. *)
Definition settled (G : value) (key : string) (hints : value) (hk : string) : Prop :=
  exists g x, G = VDict g /\ dict_get g key = Some x /\
    ((truthy x = true /\ is_str_eq x "unknown" = false) \/
     exists l, py_get hints hk (vstrs ["vanilla"]) = Ok l /\ py_index0 l = Ok x).

(** [cloning_req[k]] or [content_structure[k]] is a truthy entry of a dict. *)
Definition truthy_at (v : value) (k : string) : Prop :=
  exists d x, v = VDict d /\ dict_get d k = Some x /\ truthy x = true.

(** The one-group matches of [_extract_colors_from_html], in the order
    [found_colors] lists them. *)
Definition found_strings (html_content : string) : list string :=
  (findall (decl_at "color:") html_content
   ++ findall (decl_at "background-color:") html_content
   ++ findall (decl_at "border-color:") html_content
   ++ findall hex_at html_content)%list.

(** The matches the list comprehension keeps. *)
Definition kept_colors (html_content : string) : list string :=
  filter (fun c => startswith c "#" || isalnum c) (found_strings html_content).

(** The synthesized manifest always has a [dependencies] entry; it is
    non-empty exactly for the five frameworks of [manifest_frameworks],
    and the empty mapping otherwise. *)
Lemma generate_package_json_dependencies (framework : string) :
  exists d deps,
    generate_package_json framework = VDict d /\
    dict_get d "dependencies" = Some deps /\
    (truthy deps = true <-> In framework manifest_frameworks) /\
    (~ In framework manifest_frameworks -> deps = VDict []).
Proof.
  unfold generate_package_json, manifest_frameworks.
  destruct (String.eqb_spec framework "react") as [->|Hr];
    [do 2 eexists; split; [reflexivity|]; split; [reflexivity|];
     cbn; split; [tauto | intros H; exfalso; tauto] |].
  destruct (String.eqb_spec framework "next") as [->|Hn];
    [do 2 eexists; split; [reflexivity|]; split; [reflexivity|];
     cbn; split; [tauto | intros H; exfalso; tauto] |].
  destruct (String.eqb_spec framework "vue") as [->|Hv];
    [do 2 eexists; split; [reflexivity|]; split; [reflexivity|];
     cbn; split; [tauto | intros H; exfalso; tauto] |].
  destruct (String.eqb_spec framework "angular") as [->|Ha];
    [do 2 eexists; split; [reflexivity|]; split; [reflexivity|];
     cbn; split; [tauto | intros H; exfalso; tauto] |].
  destruct (String.eqb_spec framework "vanilla") as [->|Hva];
    [do 2 eexists; split; [reflexivity|]; split; [reflexivity|];
     cbn; split; [tauto | intros H; exfalso; tauto] |].
  do 2 eexists; split; [reflexivity|]; split; [reflexivity|].
  cbn. split; [split; [discriminate | intros H; exfalso] | reflexivity].
  destruct H as [H|[H|[H|[H|[H|H]]]]]; congruence.
Qed.

(** A manifest whose [dependencies] is the empty mapping fails the
    validation, whatever the files of the project. *)
Lemma validate_empty_dependencies (gp : GeneratedProject) (d : dict) :
  gp_package_json gp = VDict d ->
  dict_get d "dependencies" = Some (VDict []) ->
  validate_body gp <> Ok true /\ validate_generated_code gp = false.
Proof.
  intros Hpj Hdeps.
  assert (Hb : validate_body gp <> Ok true).
  { unfold validate_body. rewrite Hpj.
    match goal with |- bind ?m _ <> _ => destruct m as [[|]|] end;
      cbn; [| discriminate | discriminate].
    rewrite Hdeps. cbn. discriminate. }
  split; [exact Hb|].
  unfold validate_generated_code.
  destruct (validate_body gp) as [[|]|]; [congruence | reflexivity | reflexivity].
Qed.

(** When [cloning_requirements.package_json] is not a non-empty mapping,
    [generate_code] keeps the manifest synthesized for its framework. *)
Lemma generate_code_synthesized_manifest (model : model_attr) (analysis : value)
    (target : option string) (cloning : value) (p : GeneratedProject) :
  py_get analysis "cloning_requirements" (VDict []) = Ok cloning ->
  (forall k v d, py_get cloning "package_json" VNone <> Ok (VDict ((k, v) :: d))) ->
  generate_code model analysis target = Ok p ->
  gp_package_json p = generate_package_json (gp_framework p).
Proof.
  intros Hcr Hpj Hgen.
  unfold generate_code in Hgen.
  repeat bind_ok Hgen.
  injection Hgen as <-. cbn.
  injection Hcr as Hc; subst.
  match goal with E : py_get cloning "package_json" VNone = Ok ?pj |- _ =>
    destruct pj as [| | | | | | [|[k v] d]]; try reflexivity;
    exfalso; exact (Hpj k v d E)
  end.
Qed.

(** *** Strings: stripping, replacing and the greedy brace search *)

Lemma app_assoc_str (a b c : string) : (a ++ b) ++ c = a ++ (b ++ c).
Proof. induction a as [|x a IH]; simpl; [reflexivity | now rewrite IH]. Qed.

Lemma app_nil_str (a : string) : a ++ "" = a.
Proof. induction a as [|x a IH]; simpl; [reflexivity | now rewrite IH]. Qed.

Lemma length_app_str (a b : string) : String.length (a ++ b) = String.length a + String.length b.
Proof. induction a as [|x a IH]; simpl; [reflexivity | now rewrite IH]. Qed.

Lemma lstrip_app (a b : string) :
  lstrip (a ++ b) = match lstrip a with EmptyString => lstrip b | x => x ++ b end.
Proof.
  induction a as [|c a IH]; simpl; [reflexivity|].
  destruct (isspace c); [exact IH | reflexivity].
Qed.

Lemma rev_str_acc (s acc : string) : rev_str s acc = rev_str s "" ++ acc.
Proof.
  revert acc; induction s as [|c s IH]; intros acc; simpl; [reflexivity|].
  rewrite IH, (IH (String c "")), app_assoc_str. reflexivity.
Qed.

Lemma rev_str_app (a b : string) : rev_str (a ++ b) "" = rev_str b "" ++ rev_str a "".
Proof.
  induction a as [|c a IH]; simpl.
  - now rewrite app_nil_str.
  - rewrite rev_str_acc, IH, (rev_str_acc a (String c "")), app_assoc_str. reflexivity.
Qed.

Lemma rev_str_rev (s : string) : rev_str (rev_str s "") "" = s.
Proof.
  induction s as [|c s IH]; simpl; [reflexivity|].
  rewrite (rev_str_acc s (String c "")), rev_str_app, IH. reflexivity.
Qed.

Lemma rev_str_cons (c : ascii) (x : string) :
  rev_str (String c x) "" = rev_str x "" ++ String c "".
Proof. simpl. apply rev_str_acc. Qed.

Lemma rstrip_app_nonspace (a b : string) (c : ascii) :
  isspace c = false -> rstrip (a ++ String c b) = a ++ String c (rstrip b).
Proof.
  intros Hc. unfold rstrip.
  rewrite rev_str_app, rev_str_cons, app_assoc_str.
  change (String c "" ++ rev_str a "") with (String c (rev_str a "")).
  rewrite lstrip_app.
  destruct (lstrip (rev_str b "")) as [|d x] eqn:E.
  - change (lstrip (String c (rev_str a ""))) with
      (if isspace c then lstrip (rev_str a "") else String c (rev_str a "")).
    rewrite Hc, rev_str_cons, rev_str_rev. reflexivity.
  - rewrite rev_str_app, rev_str_cons, rev_str_rev, app_assoc_str. reflexivity.
Qed.

Lemma lstrip_app_nonspace (a b : string) (c : ascii) :
  isspace c = false -> lstrip (a ++ String c b) = lstrip a ++ String c b.
Proof.
  intros Hc. rewrite lstrip_app.
  destruct (lstrip a) eqn:E; simpl; [rewrite Hc|]; reflexivity.
Qed.

Lemma any_char_app (f : ascii -> bool) (a b : string) :
  any_char f (a ++ b) = any_char f a || any_char f b.
Proof. induction a as [|x a IH]; simpl; [reflexivity|]. rewrite IH. apply orb_assoc. Qed.

Lemma any_char_lstrip (f : ascii -> bool) (s : string) :
  any_char f (lstrip s) = true -> any_char f s = true.
Proof.
  induction s as [|c s IH]; simpl; [auto|].
  destruct (isspace c); simpl; intros H; [rewrite IH; auto using orb_true_r | exact H].
Qed.

Lemma any_char_rev (f : ascii -> bool) (s : string) :
  any_char f (rev_str s "") = any_char f s.
Proof.
  induction s as [|c s IH]; simpl; [reflexivity|].
  rewrite rev_str_acc, any_char_app, IH. simpl. rewrite orb_false_r. apply orb_comm.
Qed.

Lemma any_char_rstrip (f : ascii -> bool) (s : string) :
  any_char f (rstrip s) = true -> any_char f s = true.
Proof.
  unfold rstrip. rewrite any_char_rev. intros H.
  apply any_char_lstrip in H. now rewrite any_char_rev in H.
Qed.

Lemma substring0_all (s : string) (m : nat) : String.length s <= m -> substring 0 m s = s.
Proof.
  revert m; induction s as [|c s IH]; intros m H; destruct m; simpl in *; try reflexivity; try lia.
  rewrite IH by lia. reflexivity.
Qed.

Lemma substring_drop (n m : nat) (s : string) :
  String.length s <= n + m -> substring n m s = drop n s.
Proof.
  revert s; induction n as [|n IH]; intros s H.
  - apply substring0_all. simpl in H. exact H.
  - destruct s as [|c s]; simpl; [reflexivity|]. apply IH. simpl in H. lia.
Qed.

Lemma drop_length (n : nat) (s : string) : String.length (drop n s) = String.length s - n.
Proof.
  revert s; induction n as [|n IH]; intros s; destruct s; simpl; try reflexivity.
  apply IH.
Qed.

Lemma drop_app (n : nat) (a b : string) : n <= String.length a -> drop n (a ++ b) = drop n a ++ b.
Proof.
  revert a; induction n as [|n IH]; intros a H; [reflexivity|].
  destruct a as [|c a]; simpl in *; [lia|]. apply IH. lia.
Qed.

Lemma prefix_length (p s : string) : String.prefix p s = true -> String.length p <= String.length s.
Proof.
  revert s; induction p as [|d p IH]; intros s H; simpl; [lia|].
  destruct s as [|e s]; simpl in H; [discriminate|].
  destruct (ascii_dec d e); [|discriminate]. apply IH in H. simpl. lia.
Qed.

(** A pattern without [c] cannot run over a [c]. *)
Lemma prefix_app_stop (p x y : string) (c : ascii) :
  any_char (Ascii.eqb c) p = false ->
  String.prefix p (x ++ String c y) = String.prefix p x.
Proof.
  revert p; induction x as [|e x IH]; intros p Hp.
  - destruct p as [|d p]; simpl; [reflexivity|].
    simpl in Hp. apply orb_false_iff in Hp as [Hd _].
    destruct (ascii_dec d c) as [->|]; [now rewrite Ascii.eqb_refl in Hd | reflexivity].
  - destruct p as [|d p]; simpl; [reflexivity|].
    destruct (ascii_dec d e); [|reflexivity].
    apply IH. simpl in Hp. apply orb_false_iff in Hp as [_ Hp]. exact Hp.
Qed.

Section Replace.
Variable pat r : string.
Hypothesis Hpat : pat <> EmptyString.

Lemma pat_pos : 0 < String.length pat.
Proof. destruct pat; [congruence | simpl; lia]. Qed.

Lemma replace_fuel_enough (f1 f2 : nat) (s : string) :
  String.length s < f1 -> String.length s < f2 ->
  replace_fuel f1 pat r s = replace_fuel f2 pat r s.
Proof.
  revert f2 s; induction f1 as [|f1 IH]; intros f2 s H1 H2; [lia|].
  destruct f2 as [|f2]; [lia|].
  destruct s as [|c s]; cbn [replace_fuel]; [reflexivity|].
  destruct (String.prefix pat (String c s)) eqn:E.
  - f_equal. rewrite !(substring_drop (String.length pat)) by (simpl in *; lia).
    pose proof pat_pos. apply IH; rewrite drop_length; cbn [String.length] in *; lia.
  - f_equal. apply IH; simpl in *; lia.
Qed.

Lemma replace_cons (c : ascii) (s : string) :
  replace pat r (String c s) =
  if String.prefix pat (String c s)
  then r ++ replace pat r (drop (String.length pat) (String c s))
  else String c (replace pat r s).
Proof.
  unfold replace at 1. cbn [replace_fuel].
  destruct (String.prefix pat (String c s)) eqn:E.
  - rewrite substring_drop by (simpl in *; lia). f_equal. unfold replace.
    pose proof pat_pos. apply replace_fuel_enough; rewrite drop_length; cbn [String.length] in *; lia.
  - reflexivity.
Qed.

Lemma replace_app (a b : string) :
  (forall n, n < String.length a ->
     String.prefix pat (drop n a ++ b) = String.prefix pat (drop n a)) ->
  replace pat r (a ++ b) = replace pat r a ++ replace pat r b.
Proof.
  remember (String.length a) as len eqn:Hlen.
  revert a Hlen. induction len as [len IH] using lt_wf_ind. intros a Hlen Hst.
  destruct a as [|c a]; [reflexivity|].
  simpl (String c a ++ b). rewrite !replace_cons.
  pose proof (Hst 0 ltac:(simpl in *; lia)) as H0. simpl drop in H0.
  simpl (String c a ++ b) in H0. rewrite H0.
  destruct (String.prefix pat (String c a)) eqn:E.
  - apply prefix_length in E.
    change (String c (a ++ b)) with (String c a ++ b).
    rewrite drop_app by exact E. rewrite app_assoc_str. f_equal.
    apply (IH (String.length (drop (String.length pat) (String c a)))).
    + pose proof pat_pos. rewrite drop_length. cbn [String.length] in *. lia.
    + reflexivity.
    + intros n Hn. rewrite drop_length in Hn.
      assert (Hd : forall m s, drop m (drop (String.length pat) s) = drop (m + String.length pat) s).
      { clear. intros m s. revert s. induction (String.length pat) as [|k IHk]; intros s.
        - now rewrite Nat.add_0_r.
        - destruct s; simpl; [destruct m; reflexivity|]. rewrite Nat.add_succ_r. simpl. apply IHk. }
      rewrite Hd. apply Hst. lia.
  - simpl. f_equal. apply (IH (String.length a)); [simpl in *; lia | reflexivity |].
    intros n Hn. apply (Hst (S n)). simpl in *. lia.
Qed.

Lemma replace_absent (s : string) : contains s pat = false -> replace pat r s = s.
Proof.
  induction s as [|c s IH]; intros H; [reflexivity|].
  rewrite replace_cons.
  change (contains (String c s) pat) with (String.prefix pat (String c s) || contains s pat) in H.
  apply orb_false_iff in H as [Hp Hc].
  rewrite Hp. f_equal. apply IH. exact Hc.
Qed.

Lemma any_char_drop (f : ascii -> bool) (n : nat) (t : string) :
  any_char f (drop n t) = true -> any_char f t = true.
Proof.
  revert t; induction n as [|k IHk]; intros t H; [exact H|].
  destruct t as [|d t]; [exact H|]. simpl in *. rewrite (IHk t H). apply orb_true_r.
Qed.

Lemma any_char_replace (f : ascii -> bool) (s : string) :
  any_char f (replace pat r s) = true -> any_char f s = true \/ any_char f r = true.
Proof.
  remember (String.length s) as len eqn:Hlen.
  revert s Hlen. induction len as [len IH] using lt_wf_ind. intros s Hlen H.
  destruct s as [|c s]; [left; exact H|].
  rewrite replace_cons in H.
  destruct (String.prefix pat (String c s)).
  - rewrite any_char_app in H. apply orb_true_iff in H as [H|H]; [right; exact H|].
    apply (IH (String.length (drop (String.length pat) (String c s)))) in H.
    + destruct H as [H|H]; [left; exact (any_char_drop f _ _ H) | right; exact H].
    + pose proof pat_pos. rewrite drop_length. cbn [String.length] in *. lia.
    + reflexivity.
  - simpl in H |- *. apply orb_true_iff in H as [H|H]; [left; now rewrite H|].
    destruct (IH (String.length s) ltac:(simpl in *; lia) s eq_refl H) as [H'|H'].
    + left. rewrite H'. apply orb_true_r.
    + right. exact H'.
Qed.

End Replace.

Lemma prefix_app_l (a b x : string) : String.prefix (a ++ b) x = true -> String.prefix a x = true.
Proof.
  revert x; induction a as [|d a IH]; intros x H; [destruct x; reflexivity|].
  destruct x as [|e x]; simpl in *; [discriminate|].
  destruct (ascii_dec d e); [exact (IH x H) | discriminate].
Qed.

Lemma contains_app_l (s a b : string) : contains s (a ++ b) = true -> contains s a = true.
Proof.
  induction s as [|c s IH]; intros H.
  - destruct a; [reflexivity|]. simpl in H. discriminate.
  - change (contains (String c s) (a ++ b)) with
      (String.prefix (a ++ b) (String c s) || contains s (a ++ b)) in H.
    change (contains (String c s) a) with (String.prefix a (String c s) || contains s a).
    apply orb_true_iff in H as [H|H].
    + now rewrite (prefix_app_l a b _ H).
    + rewrite (IH H). apply orb_true_r.
Qed.

Lemma strip_around (p M q : string) :
  strip (p ++ ("{" ++ M ++ "}") ++ q) = lstrip p ++ ("{" ++ M ++ "}") ++ rstrip q.
Proof.
  unfold strip.
  change (("{" ++ M ++ "}") ++ q) with (String "{"%char ((M ++ "}") ++ q)).
  rewrite lstrip_app_nonspace by reflexivity.
  replace (lstrip p ++ String "{"%char ((M ++ "}") ++ q))
    with ((lstrip p ++ "{" ++ M) ++ String "}"%char q)
    by (rewrite !app_assoc_str; reflexivity).
  rewrite rstrip_app_nonspace by reflexivity.
  rewrite !app_assoc_str. reflexivity.
Qed.

Lemma replace_around (pat p M q : string) :
  pat <> EmptyString ->
  any_char (Ascii.eqb "{"%char) pat = false ->
  any_char (Ascii.eqb "}"%char) pat = false ->
  contains ("{" ++ M ++ "}") pat = false ->
  replace pat "" (p ++ ("{" ++ M ++ "}") ++ q)
  = replace pat "" p ++ ("{" ++ M ++ "}") ++ replace pat "" q.
Proof.
  intros Hne Ho Hc Habs.
  rewrite (replace_app pat "" Hne p) by (intros n _; apply prefix_app_stop; exact Ho).
  f_equal. rewrite (replace_app pat "" Hne ("{" ++ M ++ "}")).
  - f_equal. apply replace_absent; assumption.
  - intros n Hn.
    replace ("{" ++ M ++ "}") with (("{" ++ M) ++ "}") in * by (rewrite app_assoc_str; reflexivity).
    rewrite drop_app by (rewrite !length_app_str in *; simpl in *; lia).
    rewrite app_assoc_str. simpl ("}" ++ q).
    rewrite !prefix_app_stop by exact Hc. reflexivity.
Qed.

Lemma no_char_replace (pat : string) (c : ascii) (s : string) :
  pat <> EmptyString ->
  any_char (Ascii.eqb c) s = false -> any_char (Ascii.eqb c) (replace pat "" s) = false.
Proof.
  intros Hne Hs. destruct (any_char (Ascii.eqb c) (replace pat "" s)) eqn:E; [|reflexivity].
  destruct (any_char_replace pat "" Hne _ _ E) as [H|H]; [congruence | discriminate].
Qed.

Lemma no_char_lstrip (c : ascii) (s : string) :
  any_char (Ascii.eqb c) s = false -> any_char (Ascii.eqb c) (lstrip s) = false.
Proof.
  intros Hs. destruct (any_char (Ascii.eqb c) (lstrip s)) eqn:E; [|reflexivity].
  apply any_char_lstrip in E. congruence.
Qed.

Lemma no_char_rstrip (c : ascii) (s : string) :
  any_char (Ascii.eqb c) s = false -> any_char (Ascii.eqb c) (rstrip s) = false.
Proof.
  intros Hs. destruct (any_char (Ascii.eqb c) (rstrip s)) eqn:E; [|reflexivity].
  apply any_char_rstrip in E. congruence.
Qed.

(** The fence removal of [_parse_gemini_response] keeps an object text
    between brace-free prose. *)
Lemma clean_response_around (p M q : string) :
  any_char (Ascii.eqb "{"%char) p = false ->
  any_char (Ascii.eqb "}"%char) q = false ->
  contains ("{" ++ M ++ "}") "```" = false ->
  exists p' q', clean_response (p ++ ("{" ++ M ++ "}") ++ q) = p' ++ ("{" ++ M ++ "}") ++ q' /\
    any_char (Ascii.eqb "{"%char) p' = false /\ any_char (Ascii.eqb "}"%char) q' = false.
Proof.
  intros Hp Hq Hf.
  assert (Hf' : contains ("{" ++ M ++ "}") "```json" = false).
  { destruct (contains ("{" ++ M ++ "}") "```json") eqn:E; [|reflexivity].
    change "```json" with ("```" ++ "json") in E. apply contains_app_l in E. congruence. }
  unfold clean_response. rewrite strip_around.
  destruct (startswith (lstrip p ++ ("{" ++ M ++ "}") ++ rstrip q) "```json").
  - rewrite replace_around by (try discriminate; try reflexivity; assumption).
    rewrite replace_around by (try discriminate; try reflexivity; assumption).
    rewrite strip_around.
    eexists _, _. split; [reflexivity|].
    split; [apply no_char_lstrip | apply no_char_rstrip];
      repeat (apply no_char_replace; [discriminate|]);
      [apply no_char_lstrip | apply no_char_rstrip]; assumption.
  - destruct (startswith (lstrip p ++ ("{" ++ M ++ "}") ++ rstrip q) "```").
    + rewrite replace_around by (try discriminate; try reflexivity; assumption).
      rewrite strip_around.
      eexists _, _. split; [reflexivity|].
      split; [apply no_char_lstrip | apply no_char_rstrip];
        apply no_char_replace; [discriminate| |discriminate|];
        [apply no_char_lstrip | apply no_char_rstrip]; assumption.
    + eexists _, _. split; [reflexivity|].
      split; [apply no_char_lstrip | apply no_char_rstrip]; assumption.
Qed.

Lemma greedy_close_none (y : string) :
  any_char (Ascii.eqb "}"%char) y = false -> greedy_close y = None.
Proof.
  induction y as [|c y IH]; intros H; [reflexivity|].
  cbn [any_char] in H. apply orb_false_iff in H as [Hc Hy].
  cbn [greedy_close]. rewrite (IH Hy). rewrite Ascii.eqb_sym, Hc. reflexivity.
Qed.

Lemma greedy_close_last (x y : string) :
  any_char (Ascii.eqb "}"%char) y = false ->
  greedy_close (x ++ String "}"%char y) = Some (x ++ "}").
Proof.
  intros Hy. induction x as [|c x IH].
  - simpl. rewrite (greedy_close_none y Hy). reflexivity.
  - simpl. rewrite IH. reflexivity.
Qed.

Lemma search_a_around (p M q : string) :
  any_char (Ascii.eqb "{"%char) p = false ->
  any_char (Ascii.eqb "}"%char) q = false ->
  search_a (p ++ ("{" ++ M ++ "}") ++ q) = Some ("{" ++ M ++ "}").
Proof.
  intros Hp Hq. induction p as [|c p IH].
  - simpl. rewrite app_assoc_str. simpl ("}" ++ q).
    rewrite greedy_close_last by exact Hq. reflexivity.
  - cbn [any_char] in Hp. apply orb_false_iff in Hp as [Hc Hp].
    cbn [append search_a]. rewrite Ascii.eqb_sym, Hc. exact (IH Hp).
Qed.

Lemma any_char_substring (f : ascii -> bool) (n m : nat) (s : string) :
  any_char f (substring n m s) = true -> any_char f s = true.
Proof.
  revert n m; induction s as [|c s IH]; intros n m H.
  - destruct n, m; exact H.
  - destruct n as [|n].
    + destruct m as [|m]; [discriminate H|].
      cbn [substring any_char] in *. apply orb_true_iff in H as [H|H].
      * rewrite H. reflexivity.
      * rewrite (IH 0 m H). apply orb_true_r.
    + cbn [substring any_char] in *. rewrite (IH n m H). apply orb_true_r.
Qed.

Lemma no_brace_clean_response (t : string) :
  any_char (Ascii.eqb "{"%char) t = false ->
  any_char (Ascii.eqb "{"%char) (clean_response t) = false.
Proof.
  intros Ht. unfold clean_response, strip.
  assert (H0 : any_char (Ascii.eqb "{"%char) (rstrip (lstrip t)) = false)
    by (apply no_char_rstrip, no_char_lstrip, Ht).
  destruct (startswith _ "```json"); [|destruct (startswith _ "```")].
  - apply no_char_rstrip, no_char_lstrip.
    repeat (apply no_char_replace; [discriminate|]). exact H0.
  - apply no_char_rstrip, no_char_lstrip.
    apply no_char_replace; [discriminate|]. exact H0.
  - exact H0.
Qed.

Lemma search_a_no_brace (s : string) :
  any_char (Ascii.eqb "{"%char) s = false -> search_a s = None.
Proof.
  induction s as [|c s IH]; intros H; [reflexivity|].
  cbn [any_char] in H. apply orb_false_iff in H as [Hc Hs].
  cbn [search_a]. rewrite Ascii.eqb_sym, Hc. exact (IH Hs).
Qed.

Lemma search_b_no_brace (s : string) :
  any_char (Ascii.eqb "{"%char) s = false -> search_b s = None.
Proof.
  induction s as [|c s IH]; intros H; [reflexivity|].
  cbn [any_char] in H. apply orb_false_iff in H as [Hc Hs].
  cbn [search_b]. rewrite Ascii.eqb_sym, Hc. exact (IH Hs).
Qed.

Lemma search_fenced_no_brace (opener s : string) :
  any_char (Ascii.eqb "{"%char) s = false -> search_fenced opener s = None.
Proof.
  induction s as [|c s IH]; intros H; [reflexivity|].
  assert (Hs : any_char (Ascii.eqb "{"%char) s = false)
    by (cbn [any_char] in H; apply orb_false_iff in H as [_ H']; exact H').
  cbn [search_fenced].
  assert (Hf : fenced_at opener (String c s) = None).
  { unfold fenced_at. destruct (startswith _ opener); [|reflexivity].
    destruct (lstrip (substring _ _ (String c s))) as [|d t] eqn:E; [reflexivity|].
    destruct (Ascii.eqb d "{"%char) eqn:Ed; [|reflexivity].
    exfalso.
    assert (Hany : any_char (Ascii.eqb "{"%char) (String d t) = true)
      by (cbn [any_char]; rewrite Ascii.eqb_sym, Ed; reflexivity).
    rewrite <- E in Hany. apply any_char_lstrip, any_char_substring in Hany.
    congruence. }
  rewrite Hf. exact (IH Hs).
Qed.

(** A response without ['{'] gives none of the JSON patterns a match. *)
Lemma first_parsed_no_brace (t : string) :
  any_char (Ascii.eqb "{"%char) t = false ->
  first_parsed (clean_response t) = Ok None.
Proof.
  intros Ht. pose proof (no_brace_clean_response t Ht) as Hc.
  unfold first_parsed, search_c, search_d.
  rewrite (search_a_no_brace _ Hc), (search_b_no_brace _ Hc),
    !(search_fenced_no_brace _ _ Hc).
  reflexivity.
Qed.

Lemma dict_get_set (d : dict) (k k' : string) (v : value) :
  dict_get (dict_set d k v) k' = if String.eqb k' k then Some v else dict_get d k'.
Proof.
  induction d as [|[k0 v0] d IH]; simpl.
  - destruct (String.eqb k' k); reflexivity.
  - destruct (String.eqb_spec k k0) as [->|Hne]; simpl.
    + destruct (String.eqb k' k0); reflexivity.
    + rewrite IH. destruct (String.eqb_spec k' k0) as [->|]; [|reflexivity].
      destruct (String.eqb_spec k0 k); [congruence | reflexivity].
Qed.

Lemma dict_set_same (d : dict) (k : string) (v : value) :
  dict_get d k = Some v -> dict_set d k v = d.
Proof.
  induction d as [|[k0 v0] d IH]; simpl; [discriminate|].
  destruct (String.eqb_spec k k0) as [->|Hne]; intros H.
  - injection H as ->. reflexivity.
  - rewrite (IH H). reflexivity.
Qed.

Lemma dict_mem_set (d : dict) (k k' : string) (v : value) :
  dict_mem (dict_set d k v) k' = String.eqb k' k || dict_mem d k'.
Proof.
  unfold dict_mem. rewrite dict_get_set. destruct (String.eqb k' k); reflexivity.
Qed.



Lemma fill_required_get_gen (fields : list string) (a : dict) (k : string) :
  dict_get (fold_left (fun a field =>
               if dict_mem a field then a
               else dict_set a field (if String.eqb field "components"
                                      then VList [] else VDict []))
            fields a) k =
  match dict_get a k with
  | Some v => Some v
  | None => if existsb (String.eqb k) fields then Some (required_default k) else None
  end.
Proof.
  revert a; induction fields as [|f fields IH]; intros a; simpl.
  - destruct (dict_get a k); reflexivity.
  - rewrite IH. unfold dict_mem.
    destruct (dict_get a f) eqn:Ef.
    + destruct (dict_get a k) eqn:Ek; [reflexivity|].
      destruct (String.eqb_spec k f) as [->|]; [congruence | reflexivity].
    + rewrite dict_get_set.
      destruct (String.eqb_spec k f) as [->|Hne].
      * rewrite Ef. unfold required_default. reflexivity.
      * destruct (dict_get a k); reflexivity.
Qed.

Lemma fill_required_get (a : dict) (k : string) :
  dict_get (fill_required a) k =
  match dict_get a k with
  | Some v => Some v
  | None => if existsb (String.eqb k) required_fields then Some (required_default k) else None
  end.
Proof. apply fill_required_get_gen. Qed.

Lemma fill_required_id (a : dict) :
  (forall f, In f required_fields -> dict_mem a f = true) -> fill_required a = a.
Proof.
  unfold fill_required. generalize required_fields. intros fields H.
  induction fields as [|f fields IH]; simpl; [reflexivity|].
  rewrite (H f (or_introl eq_refl)). apply IH. intros g Hg. apply H. now right.
Qed.

Lemma hint_field_ok (fw hd : dict) (key hk : string) (x : value) (xs : list value) :
  dict_get hd hk = Some (VList (x :: xs)) ->
  exists fw', hint_field (VDict fw) key (VDict hd) hk = Ok (VDict fw').
Proof.
  intros Hk. unfold hint_field. cbn [py_get bind].
  destruct (dict_get fw key) as [v|] eqn:E.
  - destruct (negb (truthy v)); cbn [bind py_subscript].
    + rewrite Hk. cbn. eexists. reflexivity.
    + rewrite E. cbn [bind]. destruct (is_str_eq v "unknown").
      * cbn [py_get]. rewrite Hk. cbn. eexists. reflexivity.
      * eexists. reflexivity.
  - cbn [truthy negb]. cbn [bind py_get]. rewrite Hk. cbn. eexists. reflexivity.
Qed.

Lemma apply_hints_get (a a' : dict) (h : option value) (k : string) :
  apply_hints a h = Ok a' -> k <> "framework" -> dict_get a' k = dict_get a k.
Proof.
  unfold apply_hints. intros H Hk.
  destruct h as [hints|]; [|injection H as <-; reflexivity].
  destruct (truthy hints); [|injection H as <-; reflexivity].
  bind_ok H. bind_ok H. injection H as <-.
  rewrite dict_get_set. destruct (String.eqb_spec k "framework"); [congruence | reflexivity].
Qed.

Lemma apply_hints_mem (a a' : dict) (h : option value) (k : string) :
  apply_hints a h = Ok a' -> dict_mem a k = true -> dict_mem a' k = true.
Proof.
  unfold apply_hints. intros H Hk.
  destruct h as [hints|]; [|injection H as <-; exact Hk].
  destruct (truthy hints); [|injection H as <-; exact Hk].
  bind_ok H. bind_ok H. injection H as <-.
  rewrite dict_mem_set, Hk. apply orb_true_r.
Qed.

Lemma fill_required_mem (a : dict) (f : string) :
  In f required_fields -> dict_mem (fill_required a) f = true.
Proof.
  intros Hf. unfold dict_mem. rewrite fill_required_get.
  destruct (dict_get a f); [reflexivity|].
  replace (existsb (String.eqb f) required_fields) with true; [reflexivity|].
  symmetry. apply existsb_exists. exists f. split; [exact Hf | apply String.eqb_refl].
Qed.

Lemma completer_part_a (analysis : dict) (hints : option value) (out : dict) :
  validate_and_enhance_analysis analysis hints = Ok out ->
  (forall f, In f required_fields -> dict_mem out f = true) /\
  exists cs, dict_get out "content_structure" = Some (VDict cs) /\
    ((dict_get analysis "content_structure" = None /\
      dict_get cs "text_content" = Some default_text_content) \/
     (exists cs0, dict_get analysis "content_structure" = Some (VDict cs0) /\
        dict_get cs "text_content" =
          if truthy (dget cs0 "text_content" VNone) then dict_get cs0 "text_content"
          else Some default_text_content)).
Proof.
  intros H. unfold validate_and_enhance_analysis in H.
  bind_ok H. rename E into EA.
  repeat bind_ok H. injection H as <-.
  split.
  - intros f Hf. rewrite !dict_mem_set.
    rewrite (apply_hints_mem _ _ _ _ EA (fill_required_mem analysis f Hf)).
    rewrite !orb_true_r. reflexivity.
  - match goal with
    | E : py_get (dget ?A "content_structure" (VDict [])) "text_content" VNone = Ok ?tc,
      E' : (if negb (truthy ?tc) then _ else _) = Ok ?cs' |- _ =>
        rename E into Etc; rename E' into Ecs
    end.
    assert (Hcs : dget a "content_structure" (VDict []) =
                  match dict_get analysis "content_structure" with
                  | Some v => v | None => VDict [] end).
    { unfold dget. rewrite (apply_hints_get _ _ _ _ EA) by discriminate.
      rewrite fill_required_get. destruct (dict_get analysis "content_structure"); reflexivity. }
    rewrite Hcs in Etc.
    destruct (dict_get analysis "content_structure") as [v|] eqn:Ev.
    + destruct v as [| | | | | | cs0]; cbn in Etc; try discriminate Etc.
      injection Etc as <-.
      destruct (truthy (match dict_get cs0 "text_content" with Some v => v | None => VNone end)) eqn:Et;
        cbn in Ecs; rewrite Hcs in Ecs; injection Ecs as <-.
      * eexists. rewrite dict_get_set. split; [reflexivity|]. right. exists cs0.
        split; [reflexivity|]. unfold dget. rewrite Et.
        destruct (dict_get cs0 "text_content"); [reflexivity | discriminate Et].
      * eexists. rewrite dict_get_set. split; [reflexivity|]. right. exists cs0.
        split; [reflexivity|]. unfold dget. rewrite Et. rewrite dict_get_set. reflexivity.
    + cbn in Etc. injection Etc as <-. cbn in Ecs. rewrite Hcs in Ecs. injection Ecs as <-.
      eexists. rewrite dict_get_set. split; [reflexivity|]. left. split; reflexivity.
Qed.

Lemma completer_part_b (analysis : dict) (hints : option value) :
  (hints = None \/
   exists hd x xs y ys, hints = Some (VDict hd) /\
     dict_get hd "frameworks" = Some (VList (x :: xs)) /\
     dict_get hd "css_frameworks" = Some (VList (y :: ys)) /\
     (forall v, dict_get analysis "framework" = Some v -> exists fw, v = VDict fw)) ->
  (forall v, dict_get analysis "cloning_requirements" = Some v -> exists cr, v = VDict cr) ->
  (forall v, dict_get analysis "content_structure" = Some v ->
     exists cs, v = VDict cs /\ truthy (dget cs "text_content" VNone) = false) ->
  exists out, validate_and_enhance_analysis analysis hints = Ok out.
Proof.
  intros Hh Hcr Hcs.
  assert (HA : exists A, apply_hints (fill_required analysis) hints = Ok A).
  { destruct Hh as [->|(hd & x & xs & y & ys & -> & Hf & Hc & Hfw)]; [eexists; reflexivity|].
    unfold apply_hints.
    replace (truthy (VDict hd)) with true
      by (destruct hd; [discriminate Hf | reflexivity]).
    assert (Hfd : exists fw, dget (fill_required analysis) "framework" (VDict []) = VDict fw).
    { unfold dget. rewrite fill_required_get.
      destruct (dict_get analysis "framework") as [v|] eqn:E.
      - destruct (Hfw v eq_refl) as [fw ->]. exists fw. reflexivity.
      - exists []. reflexivity. }
    destruct Hfd as [fw ->].
    destruct (hint_field_ok fw hd "primary" "frameworks" x xs Hf) as [fw1 ->]. cbn [bind].
    destruct (hint_field_ok fw1 hd "css" "css_frameworks" y ys Hc) as [fw2 ->]. cbn [bind].
    eexists. reflexivity. }
  destruct HA as [A HA].
  assert (Hcr' : exists cr, dget A "cloning_requirements" (VDict []) = VDict cr).
  { unfold dget. rewrite (apply_hints_get _ _ _ _ HA) by discriminate.
    rewrite fill_required_get.
    destruct (dict_get analysis "cloning_requirements") as [v|] eqn:E.
    - destruct (Hcr v eq_refl) as [cr ->]. exists cr. reflexivity.
    - exists []. reflexivity. }
  assert (Hcs' : exists cs, dget A "content_structure" (VDict []) = VDict cs /\
                            truthy (dget cs "text_content" VNone) = false).
  { unfold dget at 1. rewrite (apply_hints_get _ _ _ _ HA) by discriminate.
    rewrite fill_required_get.
    destruct (dict_get analysis "content_structure") as [v|] eqn:E.
    - destruct (Hcs v eq_refl) as [cs [-> Ht]]. exists cs. split; [reflexivity | exact Ht].
    - exists []. split; reflexivity. }
  destruct Hcr' as [cr Hcr'], Hcs' as [cs [Hcs' Ht]].
  unfold validate_and_enhance_analysis. rewrite HA. cbn [bind].
  rewrite Hcr', Hcs'. cbn [py_get bind].
  unfold dget in Ht. rewrite Ht. cbn [negb py_setitem bind].
  unfold text_of.
  repeat (cbn; rewrite ?dict_get_set; cbn;
          match goal with |- context [if negb (truthy ?x) then _ else _] =>
            destruct (negb (truthy x)) end).
  all: cbn; rewrite ?dict_get_set; cbn; eexists; reflexivity.
Qed.






Lemma hint_field_shape (g : dict) (G' hints : value) (key hk : string) :
  hint_field (VDict g) key hints hk = Ok G' ->
  G' = VDict g \/ exists y, G' = VDict (dict_set g key y).
Proof.
  unfold hint_field. intros H. cbn [py_get bind] in H.
  destruct (negb (truthy _)); cbn [bind py_subscript] in H.
  - repeat bind_ok H. cbn [py_setitem] in H. injection H as <-. right. eexists. reflexivity.
  - destruct (dict_get g key); cbn [bind] in H; [|discriminate H].
    destruct (is_str_eq _ _).
    + repeat bind_ok H. cbn [py_setitem] in H. injection H as <-. right. eexists. reflexivity.
    + injection H as <-. left. reflexivity.
Qed.

Lemma hint_field_settled (F F' hints : value) (key hk : string) :
  hint_field F key hints hk = Ok F' -> settled F' key hints hk.
Proof.
  unfold hint_field. intros H.
  destruct F as [| | | | | | f]; cbn [py_get bind] in H; try discriminate H.
  destruct (negb (truthy (match dict_get f key with Some v => v | None => VNone end))) eqn:Et;
    cbn [bind py_subscript] in H.
  - bind_ok H. bind_ok H. cbn [py_setitem] in H. injection H as <-.
    exists (dict_set f key a0), a0. split; [reflexivity|].
    rewrite dict_get_set, String.eqb_refl. split; [reflexivity|]. right. eauto.
  - destruct (dict_get f key) as [v|] eqn:Ek; [|discriminate Et].
    cbn [bind] in H. destruct (is_str_eq v "unknown") eqn:Eu.
    + bind_ok H. bind_ok H. cbn [py_setitem] in H. injection H as <-.
      exists (dict_set f key a0), a0. split; [reflexivity|].
      rewrite dict_get_set, String.eqb_refl. split; [reflexivity|]. right. eauto.
    + injection H as <-. exists f, v. split; [reflexivity|]. split; [exact Ek|].
      left. split; [|exact Eu]. destruct (truthy v); [reflexivity | discriminate Et].
Qed.

Lemma settled_hint_field (G hints : value) (key hk : string) :
  settled G key hints hk -> hint_field G key hints hk = Ok G.
Proof.
  intros (g & x & -> & Hx & Hc). unfold hint_field. cbn [py_get bind py_subscript].
  rewrite Hx.
  assert (Hs : py_setitem (VDict g) key x = Ok (VDict g)).
  { cbn [py_setitem]. rewrite (dict_set_same _ _ _ Hx). reflexivity. }
  destruct Hc as [[Ht Hu] | (l & El & Ex)].
  - rewrite Ht. cbn [negb bind]. rewrite Hu. reflexivity.
  - destruct (negb (truthy x)); cbn [bind]; [rewrite El; cbn [bind]; rewrite Ex; exact Hs|].
    destruct (is_str_eq x "unknown"); [|reflexivity].
    rewrite El; cbn [bind]; rewrite Ex; exact Hs.
Qed.

Lemma settled_frame (G G' hints : value) (key key' hk hk' : string) :
  key <> key' -> settled G key hints hk -> hint_field G key' hints hk' = Ok G' ->
  settled G' key hints hk.
Proof.
  intros Hne (g & x & -> & Hx & Hc) H.
  destruct (hint_field_shape _ _ _ _ _ H) as [-> | [y ->]].
  - exists g, x. auto.
  - exists (dict_set g key' y), x. split; [reflexivity|]. split; [|exact Hc].
    rewrite dict_get_set. destruct (String.eqb_spec key key'); [congruence | exact Hx].
Qed.

(** A dict whose [framework] entry is settled for both keys is kept by the
    hint step. *)
Lemma apply_hints_settled (B : dict) (F : value) (h : option value) :
  dict_get B "framework" = Some F ->
  (forall hints, settled F "primary" hints "frameworks" /\
                 settled F "css" hints "css_frameworks") ->
  apply_hints B h = Ok B.
Proof.
  intros HF Hs. unfold apply_hints.
  destruct h as [hints|]; [|reflexivity].
  destruct (truthy hints); [|reflexivity].
  unfold dget. rewrite HF. destruct (Hs hints) as [Hp Hc].
  rewrite (settled_hint_field _ _ _ _ Hp). cbn [bind].
  rewrite (settled_hint_field _ _ _ _ Hc). cbn [bind].
  rewrite (dict_set_same _ _ _ HF). reflexivity.
Qed.

Lemma apply_hints_again (A a2 B : dict) (h : option value) :
  apply_hints A h = Ok a2 ->
  dict_get B "framework" = dict_get a2 "framework" ->
  apply_hints B h = Ok B.
Proof.
  intros H HB. unfold apply_hints in H |- *.
  destruct h as [hints|]; [|reflexivity].
  destruct (truthy hints); [|reflexivity].
  bind_ok H. bind_ok H. injection H as <-.
  rewrite dict_get_set, String.eqb_refl in HB.
  pose proof (hint_field_settled _ _ _ _ _ E) as Hp.
  pose proof (hint_field_settled _ _ _ _ _ E0) as Hc.
  assert (Hp' : settled a0 "primary" hints "frameworks")
    by exact (settled_frame _ _ _ "primary" "css" _ _ ltac:(discriminate) Hp E0).
  unfold dget. rewrite HB.
  rewrite (settled_hint_field _ _ _ _ Hp'). cbn [bind].
  rewrite (settled_hint_field _ _ _ _ Hc). cbn [bind].
  rewrite (dict_set_same _ _ _ HB). reflexivity.
Qed.

(** The steps after the hint step keep a dict whose [cloning_requirements]
    has its four descriptions truthy and whose [content_structure] has a
    truthy [text_content]. *)
Lemma completer_tail_identity (a a2 : dict) (h : option value) (cr cs : value) :
  apply_hints (fill_required a) h = Ok a2 ->
  dict_get a2 "cloning_requirements" = Some cr ->
  truthy_at cr "package_json" -> truthy_at cr "components_description" ->
  truthy_at cr "pages_description" -> truthy_at cr "styles_description" ->
  dict_get a2 "content_structure" = Some cs -> truthy_at cs "text_content" ->
  validate_and_enhance_analysis a h = Ok a2.
Proof.
  intros HA Hcr (c & x1 & -> & E1 & T1) (c2 & x2 & [= <-] & E2 & T2)
    (c3 & x3 & [= <-] & E3 & T3) (c4 & x4 & [= <-] & E4 & T4) Hcs
    (s & y & -> & F1 & U1).
  unfold validate_and_enhance_analysis. rewrite HA. cbn [bind].
  unfold dget. rewrite Hcr, Hcs. cbn [py_get bind].
  rewrite E1, T1. cbn [negb bind].
  rewrite F1, U1. cbn [negb bind py_get].
  rewrite E2, T2. cbn [negb bind py_get].
  rewrite E3, T3. cbn [negb bind py_get].
  rewrite E4, T4. cbn [negb bind].
  rewrite (dict_set_same _ _ _ Hcr), (dict_set_same _ _ _ Hcs). reflexivity.
Qed.

Lemma setitem_truthy_at (c c' V : value) (k : string) :
  truthy V = true -> py_setitem c k V = Ok c' ->
  truthy_at c' k /\ forall k2, k2 <> k -> truthy_at c k2 -> truthy_at c' k2.
Proof.
  intros HV H. destruct c as [| | | | | | d]; cbn in H; try discriminate H.
  injection H as <-. split.
  - exists (dict_set d k V), V. rewrite dict_get_set, String.eqb_refl. auto.
  - intros k2 Hne (d' & x & [= <-] & Hx & Tx). exists (dict_set d k V), x.
    rewrite dict_get_set. destruct (String.eqb_spec k2 k); [congruence|]. auto.
Qed.

(** One [if not x.get(k): x[k] = ...] step of the Completer. *)
Lemma fill_step (c c' x : value) (k : string) (m : result value) :
  py_get c k VNone = Ok x ->
  (if negb (truthy x) then m else Ok c) = Ok c' ->
  (forall c'', m = Ok c'' ->
     truthy_at c'' k /\ forall k2, k2 <> k -> truthy_at c k2 -> truthy_at c'' k2) ->
  truthy_at c' k /\ forall k2, k2 <> k -> truthy_at c k2 -> truthy_at c' k2.
Proof.
  intros Hg H Hm. destruct (truthy x) eqn:Tx; cbn [negb] in H.
  - injection H as <-. split; [|auto].
    destruct c as [| | | | | | d]; cbn in Hg; try discriminate Hg. injection Hg as Hg.
    destruct (dict_get d k) eqn:Ek; [|subst; discriminate Tx].
    subst. exists d, x. auto.
  - exact (Hm c' H).
Qed.

Lemma completer_output_shape (a : dict) (h : option value) (out : dict) :
  validate_and_enhance_analysis a h = Ok out ->
  exists a2 cr cs,
    apply_hints (fill_required a) h = Ok a2 /\
    out = dict_set (dict_set a2 "cloning_requirements" cr) "content_structure" cs /\
    truthy_at cr "package_json" /\ truthy_at cr "components_description" /\
    truthy_at cr "pages_description" /\ truthy_at cr "styles_description" /\
    truthy_at cs "text_content".
Proof.
  intros H. unfold validate_and_enhance_analysis in H.
  bind_ok H. rename E into EA. rename a0 into a2.
  bind_ok H. bind_ok H. bind_ok H. bind_ok H. bind_ok H. bind_ok H. bind_ok H. bind_ok H.
  bind_ok H. bind_ok H.
  injection H as <-.
  do 3 eexists. split; [reflexivity|]. split; [reflexivity|].
  destruct (fill_step _ _ _ _ _ E E0) as [P1 _].
  { intros c'' Hm. eapply setitem_truthy_at; [| exact Hm]; reflexivity. }
  destruct (fill_step _ _ _ _ _ E1 E2) as [S1 _].
  { intros c'' Hm. eapply setitem_truthy_at; [| exact Hm]; reflexivity. }
  destruct (fill_step _ _ _ _ _ E3 E4) as [C2 K2].
  { intros c'' Hm. repeat bind_ok Hm. eapply setitem_truthy_at; [| exact Hm]; reflexivity. }
  destruct (fill_step _ _ _ _ _ E5 E6) as [C3 K3].
  { intros c'' Hm. repeat bind_ok Hm. eapply setitem_truthy_at; [| exact Hm]; reflexivity. }
  destruct (fill_step _ _ _ _ _ E7 E8) as [C4 K4].
  { intros c'' Hm. eapply setitem_truthy_at; [| exact Hm]; reflexivity. }
  repeat split.
  - apply K4; [discriminate|]. apply K3; [discriminate|]. apply K2; [discriminate|]. exact P1.
  - apply K4; [discriminate|]. apply K3; [discriminate|]. exact C2.
  - apply K4; [discriminate|]. exact C3.
  - exact C4.
  - exact S1.
Qed.

Lemma completer_output_fields (a : dict) (h : option value) (out : dict) :
  validate_and_enhance_analysis a h = Ok out ->
  forall f, In f required_fields -> dict_mem out f = true.
Proof. intros H. exact (proj1 (completer_part_a a h out H)). Qed.

Lemma completer_idempotent (a : dict) (h : option value) (out : dict) :
  validate_and_enhance_analysis a h = Ok out ->
  validate_and_enhance_analysis out h = Ok out.
Proof.
  intros H.
  pose proof (completer_output_fields a h out H) as Hf.
  destruct (completer_output_shape a h out H) as
    (a2 & cr & cs & EA & -> & P1 & P2 & P3 & P4 & S1).
  eapply completer_tail_identity; [| | exact P1 | exact P2 | exact P3 | exact P4 | | exact S1].
  - rewrite (fill_required_id _ Hf).
    eapply apply_hints_again; [exact EA|]. rewrite !dict_get_set. reflexivity.
  - rewrite !dict_get_set. reflexivity.
  - rewrite !dict_get_set. reflexivity.
Qed.

Lemma hint_field_keeps (g : dict) (G' hints : value) (key hk k : string) (x : value) :
  hint_field (VDict g) key hints hk = Ok G' ->
  dict_get g k = Some x -> truthy x = true -> is_str_eq x "unknown" = false ->
  exists g', G' = VDict g' /\ dict_get g' k = Some x.
Proof.
  intros H Hx Tx Ux.
  destruct (String.eqb_spec k key) as [->|Hne].
  - unfold hint_field in H. cbn [py_get bind py_subscript] in H.
    rewrite Hx, Tx in H. cbn [negb bind] in H. rewrite Ux in H.
    injection H as <-. exists g. auto.
  - destruct (hint_field_shape _ _ _ _ _ H) as [-> | [y ->]]; [exists g; auto|].
    exists (dict_set g key y). split; [reflexivity|].
    rewrite dict_get_set. destruct (String.eqb_spec k key); [congruence | exact Hx].
Qed.

(** A truthy entry of [framework] other than ["unknown"] survives the
    Completer. *)
Lemma completer_keeps_framework_key (a : dict) (h : option value) (out fw : dict)
    (k : string) (x : value) :
  validate_and_enhance_analysis a h = Ok out ->
  dict_get a "framework" = Some (VDict fw) ->
  dict_get fw k = Some x -> truthy x = true -> is_str_eq x "unknown" = false ->
  exists fw', dict_get out "framework" = Some (VDict fw') /\ dict_get fw' k = Some x.
Proof.
  intros H Hfw Hx Tx Ux.
  destruct (completer_output_shape a h out H) as (a2 & cr & cs & EA & -> & _).
  rewrite !dict_get_set. cbn [String.eqb Ascii.eqb Bool.eqb andb].
  assert (Hf : dict_get (fill_required a) "framework" = Some (VDict fw))
    by (rewrite fill_required_get, Hfw; reflexivity).
  unfold apply_hints in EA.
  destruct h as [hints|]; [|injection EA as <-; exists fw; auto].
  destruct (truthy hints); [|injection EA as <-; exists fw; auto].
  bind_ok EA. bind_ok EA. injection EA as <-.
  rewrite dict_get_set, String.eqb_refl.
  unfold dget in E. rewrite Hf in E.
  destruct (hint_field_keeps _ _ _ _ _ _ _ E Hx Tx Ux) as (g1 & -> & Hg1).
  destruct (hint_field_keeps _ _ _ _ _ _ _ E0 Hg1 Tx Ux) as (g2 & -> & Hg2).
  exists g2. auto.
Qed.

(** A top-level field other than [framework], [cloning_requirements] and
    [content_structure] is never changed by the Completer. *)
Lemma completer_keeps_other_field (a : dict) (h : option value) (out : dict)
    (k : string) (v : value) :
  validate_and_enhance_analysis a h = Ok out ->
  k <> "framework" -> k <> "cloning_requirements" -> k <> "content_structure" ->
  dict_get a k = Some v -> dict_get out k = Some v.
Proof.
  intros H H1 H2 H3 Hk.
  destruct (completer_output_shape a h out H) as (a2 & cr & cs & EA & -> & _).
  rewrite !dict_get_set.
  destruct (String.eqb_spec k "content_structure"); [congruence|].
  destruct (String.eqb_spec k "cloning_requirements"); [congruence|].
  rewrite (apply_hints_get _ _ _ _ EA H1), fill_required_get, Hk. reflexivity.
Qed.

Lemma keep_colors_strings (l : list string) :
  keep_colors (map FStr l) = Ok (filter (fun c => startswith c "#" || isalnum c) l).
Proof.
  induction l as [|c l IH]; [reflexivity|].
  cbn [map keep_colors]. rewrite IH. cbn [bind filter].
  destruct (startswith c "#" || isalnum c); reflexivity.
Qed.

Lemma found_colors_strings (html : string) :
  findall rgb_at html = [] -> findall rgba_at html = [] ->
  found_colors html = map FStr (found_strings html).
Proof.
  intros H1 H2. unfold found_colors, found_strings. rewrite H1, H2.
  cbn [map]. rewrite !map_app, !app_nil_r. reflexivity.
Qed.

(** Without [rgb]/[rgba] matches, the result is built from the first two
    elements of a duplicate-free ordering of the kept matches. *)
Lemma extract_colors_cases (html : string) (out : result value) :
  findall rgb_at html = [] -> findall rgba_at html = [] ->
  extract_colors_from_html html out ->
  exists u, set_order (kept_colors html) u /\ out = Ok (colors_from u).
Proof.
  intros H1 H2 Hout. unfold extract_colors_from_html in Hout.
  rewrite (found_colors_strings html H1 H2) in Hout.
  unfold kept_colors.
  destruct (found_strings html) as [|c l] eqn:E.
  - exists []. cbn [filter]. split; [split; [constructor | reflexivity]|].
    rewrite Hout. reflexivity.
  - cbn [map] in Hout. rewrite <- (map_cons FStr c l), keep_colors_strings in Hout.
    exact Hout.
Qed.

Lemma py_in_setitem_same (c c' v : value) (k : string) :
  py_setitem c k v = Ok c' -> py_in k c' = Ok true.
Proof.
  destruct c as [| | | | | | d]; cbn; intros H; try discriminate H.
  injection H as <-. cbn. rewrite dict_mem_set, String.eqb_refl. reflexivity.
Qed.

Lemma py_in_setitem_other (c c' v : value) (k k' : string) :
  py_in k c = Ok true -> py_setitem c k' v = Ok c' -> py_in k c' = Ok true.
Proof.
  intros Hk H. destruct c as [| | | | | | d]; cbn in H; try discriminate H.
  injection H as <-. cbn in Hk |- *. injection Hk as Hk.
  rewrite dict_mem_set, Hk, orb_true_r. reflexivity.
Qed.

(** One [if k not in config_files and b: config_files[k] = ...] step. *)
Lemma config_step (c c' V : value) (k : string) (h b : bool) :
  py_in k c = Ok h ->
  (if negb h && b then py_setitem c k V else Ok c) = Ok c' ->
  py_in k c' = Ok true \/ b = false.
Proof.
  intros Hin H. destruct h; cbn [negb andb] in H.
  - injection H as <-. left. exact Hin.
  - destruct b; [left; exact (py_in_setitem_same _ _ _ _ H) | right; reflexivity].
Qed.

Lemma config_step_keeps (c c' V : value) (k k0 : string) (b : bool) :
  (if b then py_setitem c k V else Ok c) = Ok c' ->
  py_in k0 c = Ok true -> py_in k0 c' = Ok true.
Proof.
  intros H Hin. destruct b; [exact (py_in_setitem_other _ _ _ _ _ Hin H)|].
  injection H as <-. exact Hin.
Qed.

(** The three [Ensure ... is always present] steps of [generate_code]. *)
Lemma config_steps_contain (c0 c1 c2 c3 : value) (ps : dict) (pj V1 V2 V3 : value)
    (h1 h2 h3 : bool) :
  py_in ".gitignore" c0 = Ok h1 ->
  (if negb h1 && negb (dict_mem ps ".gitignore")
   then py_setitem c0 ".gitignore" V1 else Ok c0) = Ok c1 ->
  py_in "README.md" c1 = Ok h2 ->
  (if negb h2 && negb (dict_mem ps "README.md")
   then py_setitem c1 "README.md" V2 else Ok c1) = Ok c2 ->
  py_in "package.json" c2 = Ok h3 ->
  (if negb h3 && truthy pj then py_setitem c2 "package.json" V3 else Ok c2) = Ok c3 ->
  truthy pj = true ->
  forall f, In f [".gitignore"; "README.md"; "package.json"] ->
    py_in f c3 = Ok true \/ dict_mem ps f = true.
Proof.
  intros E1 S1 E2 S2 E3 S3 Hpj f Hf.
  destruct Hf as [<- | [<- | [<- | []]]].
  - destruct (config_step _ _ _ _ _ _ E1 S1) as [Hin | Hm].
    + left. exact (config_step_keeps _ _ _ _ _ _ S3
                     (config_step_keeps _ _ _ _ _ _ S2 Hin)).
    + right. destruct (dict_mem ps ".gitignore"); [reflexivity | discriminate Hm].
  - destruct (config_step _ _ _ _ _ _ E2 S2) as [Hin | Hm].
    + left. exact (config_step_keeps _ _ _ _ _ _ S3 Hin).
    + right. destruct (dict_mem ps "README.md"); [reflexivity | discriminate Hm].
  - destruct (config_step _ _ _ _ _ _ E3 S3) as [Hin | Hm]; [left; exact Hin|].
    rewrite Hpj in Hm. discriminate Hm.
Qed.

Lemma generate_package_json_truthy (framework : string) :
  truthy (generate_package_json framework) = true.
Proof.
  unfold generate_package_json.
  repeat match goal with |- context [if ?b then _ else _] => destruct b end;
    reflexivity.
Qed.

Lemma dict_keys_set_incl (ps : dict) (k f : string) (v : value) :
  In f (dict_keys ps) -> In f (dict_keys (dict_set ps k v)).
Proof.
  induction ps as [|[k0 v0] ps IH]; cbn; [intros []|].
  destruct (String.eqb k k0); cbn; intros [H | H]; auto.
Qed.

Lemma has_suffix_set (ps : dict) (sfx : list string) (k : string) (v : value) :
  has_suffix ps sfx = true -> has_suffix (dict_set ps k v) sfx = true.
Proof.
  unfold has_suffix. rewrite !existsb_exists. intros (f & Hf & Hs).
  exists f. split; [apply dict_keys_set_incl; exact Hf | exact Hs].
Qed.

Lemma ensure_keeps (ps : dict) (sfx sfx' : list string) (path content : string) :
  has_suffix ps sfx = true -> has_suffix (ensure ps sfx' path content) sfx = true.
Proof.
  intros H. unfold ensure. destruct (has_suffix ps sfx'); [exact H|].
  apply has_suffix_set. exact H.
Qed.

Lemma ensure_has (ps : dict) (sfx : list string) (path content : string) :
  existsb (endswith (lower path)) sfx = true ->
  has_suffix (ensure ps sfx path content) sfx = true.
Proof.
  intros Hp. unfold ensure. destruct (has_suffix ps sfx) eqn:E; [exact E|].
  unfold has_suffix. apply existsb_exists. exists path. split; [|exact Hp].
  clear. induction ps as [|[k0 v0] ps IH]; cbn; [left; reflexivity|].
  destruct (String.eqb_spec path k0) as [->|]; cbn; [left; reflexivity | right; exact IH].
Qed.

Lemma has_suffix_one (ps : dict) (s : string) :
  has_suffix ps [s] = true ->
  exists f, In f (dict_keys ps) /\ endswith (lower f) s = true.
Proof.
  unfold has_suffix. rewrite existsb_exists. intros (f & Hf & Hs).
  exists f. split; [exact Hf|]. cbn in Hs. rewrite orb_false_r in Hs. exact Hs.
Qed.

Lemma framework_fallback_vanilla (ps : dict) :
  has_suffix (framework_fallback "vanilla" ps) ["index.html"] = true /\
  has_suffix (framework_fallback "vanilla" ps) ["main.js"] = true.
Proof.
  change (framework_fallback "vanilla" ps) with
    (ensure (ensure ps ["index.html"] "index.html" vanilla_index_html)
            ["main.js"] "main.js" vanilla_main_js).
  split.
  - apply ensure_keeps. apply ensure_has. reflexivity.
  - apply ensure_has. reflexivity.
Qed.

(** What [generate_code] returns when it returns. *)
Lemma generate_code_ok (model : model_attr) (analysis : value)
    (target_framework : option string) (p : GeneratedProject) :
  generate_code model analysis target_framework = Ok p ->
  (forall f, In f [".gitignore"; "README.md"; "package.json"] ->
     py_in f (gp_config_files p) = Ok true \/ dict_mem (gp_project_structure p) f = true) /\
  exists ps, gp_project_structure p = framework_fallback (gp_framework p) ps.
Proof.
  intros H. unfold generate_code in H. repeat bind_ok H. injection H as <-.
  cbn [gp_config_files gp_project_structure gp_framework].
  split; [|eexists; reflexivity].
  eapply config_steps_contain; try eassumption.
  match goal with |- truthy ?pj = true =>
    lazymatch pj with
    | match ?x with _ => _ end => destruct x as [| | | | | |[|kv d]]
    end
  end; try apply generate_package_json_truthy; reflexivity.
Qed.

End Facts.

Module Claims.
Import Py Str Fmt Analyzer Normalizer Colors Generator Orchestrator Facts.

(** C9: a [GeneratedProject] whose [package_json.dependencies] is the
    empty mapping fails the validation: [_validate_generated_code]
    returns [False] (its body never reaches [return True], and the
    function always returns), whatever files the project has. *)
Theorem validate_fails_on_empty_dependencies (gp : GeneratedProject) (d : dict)
    (Hpj : gp_package_json gp = VDict d)
    (Hdeps : dict_get d "dependencies" = Some (VDict [])) :
  validate_generated_code gp = false /\ validate_body gp <> Ok true.
Proof.
  destruct (validate_empty_dependencies gp d Hpj Hdeps) as [Hb Hv].
  split; assumption.
Qed.

Lemma validate_fails_on_empty_dependencies_witness :
  let gp := {| gp_framework := "react";
               gp_project_structure := [("pages/index.js", VStr "x")];
               gp_package_json := VDict [("name", VStr "p"); ("dependencies", VDict [])];
               gp_config_files := VDict [("package.json", VStr "{}");
                                         (".gitignore", VStr "");
                                         ("README.md", VStr "")];
               gp_assets := VList []; gp_build_commands := VList [];
               gp_dev_commands := VList []; gp_deployment_config := VDict [] |} in
  validate_generated_code gp = false /\ validate_body gp <> Ok true.
Proof.
  intros gp.
  apply (validate_fails_on_empty_dependencies gp [("name", VStr "p"); ("dependencies", VDict [])]);
    reflexivity.
Defined.

(** C10: when [cloning_requirements.package_json] is absent, empty or not
    a mapping, the project's manifest is the one synthesized for its
    framework; its [dependencies] mapping is non-empty exactly when the
    framework is react, next, vue, angular or vanilla, and for any other
    framework the validation of the project fails. *)
Theorem synthesized_manifest_dependencies (model : model_attr) (analysis : value)
    (target : option string) (cloning : value) (p : GeneratedProject)
    (Hcr : py_get analysis "cloning_requirements" (VDict []) = Ok cloning)
    (Hpj : forall k v d, py_get cloning "package_json" VNone <> Ok (VDict ((k, v) :: d)))
    (Hgen : generate_code model analysis target = Ok p) :
  gp_package_json p = generate_package_json (gp_framework p) /\
  (exists d deps, gp_package_json p = VDict d /\
     dict_get d "dependencies" = Some deps /\
     (truthy deps = true <-> In (gp_framework p) ["react"; "next"; "vue"; "angular"; "vanilla"])) /\
  (~ In (gp_framework p) ["react"; "next"; "vue"; "angular"; "vanilla"] ->
   validate_generated_code p = false).
Proof.
  pose proof (generate_code_synthesized_manifest model analysis target cloning p Hcr Hpj Hgen) as Hm.
  destruct (generate_package_json_dependencies (gp_framework p))
    as (d & deps & Hd & Hget & Hiff & Hempty).
  split; [exact Hm|].
  split.
  - exists d, deps. rewrite Hm. auto.
  - intros Hnot.
    apply (validate_empty_dependencies p d); [congruence|].
    rewrite Hget, (Hempty Hnot). reflexivity.
Qed.

Lemma synthesized_manifest_dependencies_witness :
  match generate_code NoAttr (VDict [("framework", VDict [("primary", VStr "svelte")])]) None with
  | Ok p =>
      gp_package_json p = generate_package_json (gp_framework p) /\
      (exists d deps, gp_package_json p = VDict d /\
         dict_get d "dependencies" = Some deps /\
         (truthy deps = true <-> In (gp_framework p) ["react"; "next"; "vue"; "angular"; "vanilla"])) /\
      (~ In (gp_framework p) ["react"; "next"; "vue"; "angular"; "vanilla"] ->
       validate_generated_code p = false)
  | Err _ => False
  end.
Proof.
  destruct (generate_code NoAttr (VDict [("framework", VDict [("primary", VStr "svelte")])]) None)
    as [p|e] eqn:Hg.
  - apply (synthesized_manifest_dependencies NoAttr
             (VDict [("framework", VDict [("primary", VStr "svelte")])]) None (VDict []) p).
    + reflexivity.
    + intros k v d H. cbn in H. discriminate H.
    + exact Hg.
  - vm_compute in Hg. discriminate Hg.
Defined.

(** C2: [generate_code] does not use its [target_framework] argument: the
    project is the same for every override, its framework is read from
    [analysis.framework.primary] alone, so an override ["angular"] on an
    analysis whose primary framework is ["vue"] yields a ["vue"] project,
    where [_determine_framework] resolves the same call to ["angular"]. *)
Theorem generate_code_ignores_override :
  (forall model analysis target,
     generate_code model analysis target = generate_code model analysis None) /\
  (exists p,
     generate_code NoAttr (VDict [("framework", VDict [("primary", VStr "vue")])])
                   (Some "angular") = Ok p /\
     gp_framework p = "vue" /\
     determine_framework (VDict [("framework", VDict [("primary", VStr "vue")])])
                         (Some "angular") = Ok "angular").
Proof.
  split.
  - intros model analysis target. reflexivity.
  - destruct (generate_code NoAttr (VDict [("framework", VDict [("primary", VStr "vue")])])
                            (Some "angular")) as [p|e] eqn:Hg.
    + exists p. split; [reflexivity|]. split; [|reflexivity].
      vm_compute in Hg. injection Hg as <-. reflexivity.
    + vm_compute in Hg. discriminate Hg.
Qed.

(** C3: hints whose [frameworks] list is empty, as the HTML detector
    returns for a page without framework keywords, make the heuristic
    text fallback raise [IndexError] at [framework_hints.get(...)[0]];
    on a response without ['{'], where none of the JSON patterns matches,
    the [except] handler of [_parse_gemini_response] runs the same
    fallback again, so the normalizer raises instead of returning a
    specification. *)
Theorem text_fallback_raises_on_empty_hints (text : string) (hints : dict)
    (Hfw : dict_get hints "frameworks" = Some (VList []))
    (Hnb : any_char (Ascii.eqb "{"%char) text = false) :
  extract_from_text_response text (Some (VDict hints)) = Err IndexError /\
  parse_gemini_response text (Some (VDict hints)) = Err IndexError.
Proof.
  assert (Hx : extract_from_text_response text (Some (VDict hints)) = Err IndexError).
  { unfold extract_from_text_response.
    destruct hints as [|kv hints']; [discriminate Hfw|].
    cbn [truthy length Nat.eqb negb]. cbn [bind py_get].
    rewrite Hfw. reflexivity. }
  split; [exact Hx|].
  unfold parse_gemini_response. rewrite (first_parsed_no_brace text Hnb).
  cbn [bind]. rewrite Hx. reflexivity.
Qed.

Lemma text_fallback_raises_on_empty_hints_witness :
  detect_framework_from_html "<p>hi</p>" =
    VDict [("frameworks", VList []); ("css_frameworks", VList []); ("cms", VList [])] /\
  extract_from_text_response "hello"
    (Some (VDict [("frameworks", VList []); ("css_frameworks", VList []); ("cms", VList [])]))
    = Err IndexError /\
  parse_gemini_response "hello"
    (Some (VDict [("frameworks", VList []); ("css_frameworks", VList []); ("cms", VList [])]))
    = Err IndexError.
Proof.
  split; [vm_compute; reflexivity|].
  apply text_fallback_raises_on_empty_hints; vm_compute; reflexivity.
Defined.

(** C6 (amended): for a text [p ++ J ++ q] where [J] is an object text
    that [json.loads] decodes to a truthy (non-empty) value [o] (floats
    included), nested at most 100 levels deep, [J] has no triple backtick,
    the prose [p] before it has no ['{'] and the prose [q] after it no
    ['}'] (fences included), the extraction yields [o] unchanged
    (pattern (a) matches exactly [J]), and [_parse_gemini_response]
    returns the completion of [o] whenever the completion succeeds.  The
    depth bound keeps the decoder below Python's recursion limit, whose
    [RecursionError] would send the parser to its text fallback. *)
Theorem normalizer_extracts_object (p M q : string) (o : value) (hints : option value)
    (Hp : any_char (Ascii.eqb "{"%char) p = false)
    (Hq : any_char (Ascii.eqb "}"%char) q = false)
    (Hf : contains ("{" ++ M ++ "}") "```" = false)
    (Hj : Json.loads ("{" ++ M ++ "}") = Ok o)
    (Hd : Json.depth o <= 100)
    (Ho : truthy o = true) :
  first_parsed (clean_response (p ++ ("{" ++ M ++ "}") ++ q)) = Ok (Some o) /\
  (forall v, complete_value o hints = Ok v ->
             parse_gemini_response (p ++ ("{" ++ M ++ "}") ++ q) hints = Ok v).
Proof.
  destruct (clean_response_around p M q Hp Hq Hf) as (p' & q' & Hc & Hp' & Hq').
  assert (Hfirst : first_parsed (clean_response (p ++ ("{" ++ M ++ "}") ++ q)) = Ok (Some o)).
  { rewrite Hc. unfold first_parsed. rewrite (search_a_around p' M q' Hp' Hq').
    cbv beta zeta. rewrite Hj. reflexivity. }
  split; [exact Hfirst|].
  intros v Hv. unfold parse_gemini_response. rewrite Hfirst. cbn [bind].
  rewrite Ho, Hv. reflexivity.
Qed.

Lemma normalizer_extracts_object_witness :
  let p := "Here is the analysis:" ++ NL ++ "```json" ++ NL in
  let M := s1 dq ++ "framework" ++ s1 dq ++ ": {" ++ s1 dq ++ "primary" ++ s1 dq
           ++ ": " ++ s1 dq ++ "react" ++ s1 dq ++ "}, " ++ s1 dq ++ "ratio" ++ s1 dq
           ++ ": 1.5" in
  let q := NL ++ "```" ++ NL ++ "Let me know if anything is missing." in
  let o := VDict [("framework", VDict [("primary", VStr "react")]);
                  ("ratio", VFloat (FFin false (3 * 2 ^ 51) (-52)))] in
  first_parsed (clean_response (p ++ ("{" ++ M ++ "}") ++ q)) = Ok (Some o) /\
  (forall v, complete_value o None = Ok v ->
             parse_gemini_response (p ++ ("{" ++ M ++ "}") ++ q) None = Ok v).
Proof.
  intros p M q o.
  apply normalizer_extracts_object;
    first [vm_compute; reflexivity | apply Nat.leb_le; vm_compute; reflexivity].
Defined.

(** C6, counterexample: prose with a brace before the one well-formed
    object sends every pattern past it; the normalizer falls back to the
    text segmentation instead of returning [{"a": 1}]. *)
Lemma normalizer_braced_prose_counterexample :
  let J := "{" ++ s1 dq ++ "a" ++ s1 dq ++ ": 1}" in
  let text := "Note {x}: " ++ J in
  Json.loads J = Ok (VDict [("a", VInt 1)]) /\
  first_parsed (clean_response text) = Ok None /\
  parse_gemini_response text None = extract_from_text_response text None.
Proof. vm_compute. split; [reflexivity | split; reflexivity]. Qed.

(** C1: whenever the Specification Completer returns, its output has all
    eight top-level fields, and its [content_structure.text_content] is the
    default [{header, main, footer}] mapping when the input had no
    [content_structure] or a falsy [text_content], and is the input's own
    [text_content] otherwise.  It returns for every input whose
    [framework], [cloning_requirements] and [content_structure] are absent
    or mappings and whose [text_content] is absent or falsy, with no hints
    or hints giving non-empty [frameworks] and [css_frameworks] lists. *)
Theorem completer_fills_fields (analysis : dict) (hints : option value) :
  (forall out, validate_and_enhance_analysis analysis hints = Ok out ->
    (forall f, In f required_fields -> dict_mem out f = true) /\
    exists cs, dict_get out "content_structure" = Some (VDict cs) /\
      ((dict_get analysis "content_structure" = None /\
        dict_get cs "text_content" = Some default_text_content) \/
       (exists cs0, dict_get analysis "content_structure" = Some (VDict cs0) /\
          dict_get cs "text_content" =
            if truthy (dget cs0 "text_content" VNone) then dict_get cs0 "text_content"
            else Some default_text_content))) /\
  ((hints = None \/
    exists hd x xs y ys, hints = Some (VDict hd) /\
      dict_get hd "frameworks" = Some (VList (x :: xs)) /\
      dict_get hd "css_frameworks" = Some (VList (y :: ys)) /\
      (forall v, dict_get analysis "framework" = Some v -> exists fw, v = VDict fw)) ->
   (forall v, dict_get analysis "cloning_requirements" = Some v -> exists cr, v = VDict cr) ->
   (forall v, dict_get analysis "content_structure" = Some v ->
      exists cs, v = VDict cs /\ truthy (dget cs "text_content" VNone) = false) ->
   exists out, validate_and_enhance_analysis analysis hints = Ok out).
Proof.
  split.
  - intros out H. exact (completer_part_a analysis hints out H).
  - exact (completer_part_b analysis hints).
Qed.

Lemma completer_fills_fields_witness :
  let a := [("layout", VDict [("type", VStr "grid")])] in
  let hd := [("frameworks", vstrs ["react"]); ("css_frameworks", vstrs ["tailwind"])] in
  exists out, validate_and_enhance_analysis a (Some (VDict hd)) = Ok out.
Proof.
  intros a hd.
  apply (proj2 (completer_fills_fields a (Some (VDict hd)))).
  - right. do 5 eexists. split; [reflexivity|].
    split; [reflexivity|]. split; [reflexivity|].
    intros v Hv. discriminate Hv.
  - intros v Hv. discriminate Hv.
  - intros v Hv. discriminate Hv.
Defined.

(** C1, counterexample: a truthy [text_content] with only a [header] key
    is kept as it is, so the output's [text_content] has no [main] and no
    [footer]; without the two descriptions the same input raises
    [KeyError] instead of returning. *)
Lemma completer_partial_text_content_counterexample :
  let cs := VDict [("text_content", VDict [("header", VStr "h")])] in
  let cr := VDict [("components_description", VDict [("components/Header.html", VStr "x")]);
                   ("pages_description", VDict [("index.html", VStr "y")])] in
  match validate_and_enhance_analysis
          [("content_structure", cs); ("cloning_requirements", cr)] None with
  | Ok out => dict_get out "content_structure" = Some cs
  | Err _ => False
  end /\
  validate_and_enhance_analysis [("content_structure", cs)] None = Err KeyError.
Proof. vm_compute. split; reflexivity. Qed.

(** C7: the Specification Completer is idempotent: completing its own
    output gives that output back.  An input is returned unchanged when
    all eight fields are present, [framework.primary] and [framework.css]
    are truthy and not ["unknown"], the four descriptions of
    [cloning_requirements] ([package_json], [components_description],
    [pages_description], [styles_description]) are truthy and
    [content_structure.text_content] is truthy.  An entry of [framework]
    that is truthy and not ["unknown"] is kept, and so is every top-level
    field other than [framework], [cloning_requirements] and
    [content_structure]. *)
Theorem completer_idempotent_identity (a : dict) (h : option value) :
  (forall out, validate_and_enhance_analysis a h = Ok out ->
     validate_and_enhance_analysis out h = Ok out) /\
  ((forall f, In f required_fields -> dict_mem a f = true) ->
   (exists fw x y, dict_get a "framework" = Some (VDict fw) /\
      dict_get fw "primary" = Some x /\ truthy x = true /\ is_str_eq x "unknown" = false /\
      dict_get fw "css" = Some y /\ truthy y = true /\ is_str_eq y "unknown" = false) ->
   (exists cr, dict_get a "cloning_requirements" = Some cr /\
      truthy_at cr "package_json" /\ truthy_at cr "components_description" /\
      truthy_at cr "pages_description" /\ truthy_at cr "styles_description") ->
   (exists cs, dict_get a "content_structure" = Some cs /\ truthy_at cs "text_content") ->
   validate_and_enhance_analysis a h = Ok a) /\
  (forall out fw k x, validate_and_enhance_analysis a h = Ok out ->
     dict_get a "framework" = Some (VDict fw) ->
     dict_get fw k = Some x -> truthy x = true -> is_str_eq x "unknown" = false ->
     exists fw', dict_get out "framework" = Some (VDict fw') /\ dict_get fw' k = Some x) /\
  (forall out k v, validate_and_enhance_analysis a h = Ok out ->
     k <> "framework" -> k <> "cloning_requirements" -> k <> "content_structure" ->
     dict_get a k = Some v -> dict_get out k = Some v).
Proof.
  split; [exact (completer_idempotent a h)|].
  split; [|split; [exact (completer_keeps_framework_key a h) |
                   exact (completer_keeps_other_field a h)]].
  intros Hf (fw & x & y & Hfw & Hx & Tx & Ux & Hy & Ty & Uy)
         (cr & Hcr & P1 & P2 & P3 & P4) (cs & Hcs & S1).
  apply (completer_tail_identity a a h cr cs); auto.
  rewrite (fill_required_id _ Hf).
  apply (apply_hints_settled a (VDict fw) h Hfw).
  intros hints. split.
  - exists fw, x. auto.
  - exists fw, y. auto.
Qed.

Lemma completer_idempotent_identity_witness :
  let tr := VDict [("k", VStr "v")] in
  let a := [("framework", VDict [("primary", VStr "react"); ("css", VStr "tailwind")]);
            ("layout", tr); ("colors", tr); ("typography", tr);
            ("components", VList [VStr "nav"]); ("interactive_elements", tr);
            ("content_structure", VDict [("text_content", tr)]);
            ("cloning_requirements",
              VDict [("package_json", tr); ("components_description", tr);
                     ("pages_description", tr); ("styles_description", tr)])] in
  validate_and_enhance_analysis a None = Ok a /\
  (exists out, validate_and_enhance_analysis [] None = Ok out /\
               validate_and_enhance_analysis out None = Ok out).
Proof.
  intros tr a. split.
  - apply (proj1 (proj2 (completer_idempotent_identity a None))).
    + intros f Hf. simpl in Hf.
      repeat (destruct Hf as [<- | Hf]; [reflexivity|]). destruct Hf.
    + do 3 eexists. repeat split; reflexivity.
    + eexists. split; [reflexivity|].
      repeat split; do 2 eexists; repeat split; reflexivity.
    + eexists. split; [reflexivity|]. do 2 eexists; repeat split; reflexivity.
  - destruct (validate_and_enhance_analysis [] None) as [out|e] eqn:E.
    + exists out. split; [reflexivity|].
      exact (proj1 (completer_idempotent_identity [] None) out E).
    + vm_compute in E. discriminate E.
Defined.

(** C7, counterexample: an input whose eight fields are all present and
    non-empty but whose [cloning_requirements] has no [package_json] is
    not returned unchanged: the default manifest is added. *)
Lemma completer_not_identity_counterexample :
  let tr := VDict [("k", VStr "v")] in
  let cr := VDict [("components_description", tr); ("pages_description", tr);
                   ("styles_description", tr)] in
  let a := [("framework", VDict [("primary", VStr "react"); ("css", VStr "tailwind")]);
            ("layout", tr); ("colors", tr); ("typography", tr);
            ("components", VList [VStr "nav"]); ("interactive_elements", tr);
            ("content_structure", VDict [("text_content", tr)]);
            ("cloning_requirements", cr)] in
  validate_and_enhance_analysis a None =
    Ok (dict_set a "cloning_requirements"
          (VDict [("components_description", tr); ("pages_description", tr);
                  ("styles_description", tr); ("package_json", default_package_json)])) /\
  validate_and_enhance_analysis a None <> Ok a.
Proof. vm_compute. split; [reflexivity | discriminate]. Qed.

(** C4: when the model is [None] or its call fails, [_generate_real_code]
    returns, and never an empty string.  An empty (falsy) description gives
    the line ["// No description provided for <file>"] whatever the
    extension; otherwise the result is chosen by the extension:
    [.js/.jsx/.ts/.tsx] give a function stub ending in
    [return (<div>description</div>);], [.css/.scss/.less] a comment,
    [.json] the description itself and any other extension a [#] comment. *)
Theorem real_code_fallback_by_extension (model : model_attr) (file_name : string)
    (desc : value) (framework file_type : string)
    (Hm : match model with
          | NoAttr => False
          | ModelNone => True
          | Model g => g (real_code_prompt framework file_type file_name (py_str desc)) = None
          end) :
  (truthy desc = false ->
     generate_real_code model file_name desc framework file_type =
       Ok (VStr ("// No description provided for " ++ file_name))) /\
  (truthy desc = true ->
     exists v, generate_real_code model file_name desc framework file_type = Ok v /\
       truthy v = true /\
       (mem_str (snd (splitext file_name)) [".js"; ".jsx"; ".ts"; ".tsx"] = true ->
          exists pre, v = VStr (pre ++ "  return (<div>" ++ py_str desc ++ "</div>);" ++ NL ++ "}")) /\
       (mem_str (snd (splitext file_name)) [".js"; ".jsx"; ".ts"; ".tsx"] = false ->
        mem_str (snd (splitext file_name)) [".css"; ".scss"; ".less"] = true ->
          v = VStr ("/* " ++ file_name ++ " for " ++ framework ++ NL ++ py_str desc ++ NL ++ "*/")) /\
       (mem_str (snd (splitext file_name)) [".js"; ".jsx"; ".ts"; ".tsx"] = false ->
        mem_str (snd (splitext file_name)) [".css"; ".scss"; ".less"] = false ->
        snd (splitext file_name) = ".json" -> v = desc) /\
       (mem_str (snd (splitext file_name)) [".js"; ".jsx"; ".ts"; ".tsx"] = false ->
        mem_str (snd (splitext file_name)) [".css"; ".scss"; ".less"] = false ->
        snd (splitext file_name) <> ".json" ->
          v = VStr ("# " ++ file_name ++ " for " ++ framework ++ NL ++ "# " ++ py_str desc))).
Proof.
  split.
  - intros Hd. unfold generate_real_code. rewrite Hd. reflexivity.
  - intros Hd.
    assert (Hg : generate_real_code model file_name desc framework file_type =
                 Ok (placeholder file_name desc framework)).
    { unfold generate_real_code. rewrite Hd. cbn [negb].
      destruct model as [| |g]; [contradiction | reflexivity |].
      rewrite Hm. reflexivity. }
    exists (placeholder file_name desc framework). split; [exact Hg|].
    unfold placeholder.
    destruct (mem_str (snd (splitext file_name)) [".js"; ".jsx"; ".ts"; ".tsx"]) eqn:Ej.
    + split; [reflexivity|].
      split; [|split; [intros Hf; discriminate Hf | split; intros Hf; discriminate Hf]].
      intros _.
      exists ("// " ++ file_name ++ " for " ++ framework ++ NL ++ "// " ++ py_str desc ++ NL
              ++ "export default function "
              ++ capitalize (fst (splitext (basename file_name))) ++ "() {" ++ NL).
      rewrite !app_assoc_str. reflexivity.
    + destruct (mem_str (snd (splitext file_name)) [".css"; ".scss"; ".less"]) eqn:Ec.
      * split; [reflexivity|].
        split; [intros Hf; discriminate Hf|].
        split; [intros _ _; reflexivity|].
        split; intros _ Hf; discriminate Hf.
      * destruct (String.eqb_spec (snd (splitext file_name)) ".json") as [Ejs|Ejs].
        -- rewrite Hd. split; [exact Hd|].
           split; [intros Hf; discriminate Hf|].
           split; [intros _ Hf; discriminate Hf|].
           split; [intros _ _ _; reflexivity | intros _ _ Hn; contradiction].
        -- split; [reflexivity|].
           split; [intros Hf; discriminate Hf|].
           split; [intros _ Hf; discriminate Hf|].
           split; [intros _ _ Hn; contradiction | intros _ _ _; reflexivity].
Qed.

Lemma real_code_fallback_by_extension_witness :
  let g := fun _ : string => @None string in
  generate_real_code (Model g) "src/components/Header.jsx" (VStr "Site header")
    "react" "component" =
    Ok (VStr ("// src/components/Header.jsx for react" ++ NL ++ "// Site header" ++ NL
              ++ "export default function Header() {" ++ NL
              ++ "  return (<div>Site header</div>);" ++ NL ++ "}")) /\
  (exists v, generate_real_code (Model g) "src/components/Header.jsx" (VStr "Site header")
               "react" "component" = Ok v /\ truthy v = true).
Proof.
  intros g. split; [vm_compute; reflexivity|].
  destruct (proj2 (real_code_fallback_by_extension (Model g) "src/components/Header.jsx"
                     (VStr "Site header") "react" "component" eq_refl) eq_refl)
    as (v & Hv & Tv & _).
  exists v. split; [exact Hv | exact Tv].
Defined.

(** C4, counterexample: an empty description on a JSON path does not give
    an empty object: the early [return] for a falsy description wins over
    the extension. *)
Lemma real_code_empty_json_counterexample :
  generate_real_code ModelNone "data.json" (VStr "") "react" "config" =
    Ok (VStr "// No description provided for data.json") /\
  generate_real_code ModelNone "data.json" (VStr "") "react" "config" <> Ok (VStr "{}").
Proof. vm_compute. split; [reflexivity | discriminate]. Qed.

(** C5: for an HTML text with no [rgb(...)]/[rgba(...)] match, the color
    extraction leaves accent, background and text at their defaults, and
    sets primary (and secondary) from the kept matches: both stay at their
    defaults when no match is kept; otherwise primary is a kept match [c1]
    prefixed with [#] if needed, and secondary is a kept match different
    from [c1], prefixed the same way, or its default when every kept match
    equals [c1].  Which kept match comes first is the iteration order of a
    Python [set], not the order of the text. *)
Theorem colors_from_two_distinct_matches (html : string) (out : result value)
    (Hrgb : findall rgb_at html = []) (Hrgba : findall rgba_at html = [])
    (Hout : extract_colors_from_html html out) :
  exists primary secondary, out = Ok (colors_dict primary secondary) /\
    ((kept_colors html = [] /\ primary = "#3b82f6" /\ secondary = "#f8fafc") \/
     (exists c1, In c1 (kept_colors html) /\ primary = hashify c1 /\
        ((forall c, In c (kept_colors html) -> c = c1) /\ secondary = "#f8fafc" \/
         exists c2, In c2 (kept_colors html) /\ c2 <> c1 /\ secondary = hashify c2))).
Proof.
  destruct (extract_colors_cases html out Hrgb Hrgba Hout) as (u & [Hnd Hin] & ->).
  destruct u as [|c1 [|c2 u]].
  - exists "#3b82f6", "#f8fafc". split; [reflexivity|]. left.
    split; [|split; reflexivity].
    destruct (kept_colors html) as [|c l] eqn:E; [reflexivity|].
    exfalso. apply (proj2 (Hin c)). left. reflexivity.
  - exists (hashify c1), "#f8fafc". split; [reflexivity|]. right.
    exists c1. split; [apply Hin; left; reflexivity|]. split; [reflexivity|].
    left. split; [|reflexivity].
    intros c Hc. apply Hin in Hc. destruct Hc as [<- | []]. reflexivity.
  - exists (hashify c1), (hashify c2). split; [reflexivity|]. right.
    exists c1. split; [apply Hin; left; reflexivity|]. split; [reflexivity|].
    right. exists c2. split; [apply Hin; right; left; reflexivity|].
    split; [|reflexivity].
    intros ->. inversion Hnd as [|x l Hnot _]. apply Hnot. left. reflexivity.
Qed.

Lemma colors_from_two_distinct_matches_witness :
  let html := "p { color: #ff0000; background-color: #00ff00; }" in
  let out := Ok (colors_dict "#ff0000" "#00ff00") in
  extract_colors_from_html html out /\
  exists primary secondary, out = Ok (colors_dict primary secondary) /\
    ((kept_colors html = [] /\ primary = "#3b82f6" /\ secondary = "#f8fafc") \/
     (exists c1, In c1 (kept_colors html) /\ primary = hashify c1 /\
        ((forall c, In c (kept_colors html) -> c = c1) /\ secondary = "#f8fafc" \/
         exists c2, In c2 (kept_colors html) /\ c2 <> c1 /\ secondary = hashify c2))).
Proof.
  intros html out.
  assert (H : extract_colors_from_html html out).
  { unfold extract_colors_from_html. vm_compute.
    exists ["#ff0000"; "#00ff00"; "ff0000"; "00ff00"].
    split; [|reflexivity]. split.
    - repeat constructor; cbn; intuition discriminate.
    - intros x. cbn. tauto. }
  split; [exact H|].
  apply (colors_from_two_distinct_matches html out); [vm_compute; reflexivity
                                                    | vm_compute; reflexivity | exact H].
Defined.

(** C5, counterexample: on the example of the specification the result
    depends on the set order: primary can be ["#00ff00"], and the bare hex
    digits [ff0000] matched after [#] can make primary and secondary the
    same color. *)
Lemma colors_set_order_counterexample :
  let html := "p { color: #ff0000; background-color: #00ff00; }" in
  kept_colors html = ["#ff0000"; "#00ff00"; "#00ff00"; "ff0000"; "00ff00"] /\
  extract_colors_from_html html (Ok (colors_dict "#00ff00" "#ff0000")) /\
  extract_colors_from_html html (Ok (colors_dict "#ff0000" "#ff0000")).
Proof.
  intros html. split; [vm_compute; reflexivity|]. split.
  - unfold extract_colors_from_html. vm_compute.
    exists ["#00ff00"; "ff0000"; "#ff0000"; "00ff00"].
    split; [|reflexivity]. split.
    + repeat constructor; cbn; intuition discriminate.
    + intros x. cbn. tauto.
  - unfold extract_colors_from_html. vm_compute.
    exists ["ff0000"; "#ff0000"; "#00ff00"; "00ff00"].
    split; [|reflexivity]. split.
    + repeat constructor; cbn; intuition discriminate.
    + intros x. cbn. tauto.
Qed.

(** C8: every project [generate_code] returns has [.gitignore],
    [README.md] and [package.json] among its config files or its project
    files; for the framework vanilla its project files include a path
    ending in [index.html] and one ending in [main.js] (case-insensitively),
    whatever files the specification lists. *)
Theorem generated_project_has_required_files (model : model_attr) (analysis : value)
    (target_framework : option string) (p : GeneratedProject)
    (H : generate_code model analysis target_framework = Ok p) :
  (forall f, In f [".gitignore"; "README.md"; "package.json"] ->
     py_in f (gp_config_files p) = Ok true \/ dict_mem (gp_project_structure p) f = true) /\
  (gp_framework p = "vanilla" ->
     (exists f, In f (dict_keys (gp_project_structure p)) /\
                endswith (lower f) "index.html" = true) /\
     (exists f, In f (dict_keys (gp_project_structure p)) /\
                endswith (lower f) "main.js" = true)).
Proof.
  destruct (generate_code_ok model analysis target_framework p H) as [Hf [ps Hps]].
  split; [exact Hf|].
  intros Hv. rewrite Hps, Hv.
  destruct (framework_fallback_vanilla ps) as [Hi Hm].
  split; apply has_suffix_one; assumption.
Qed.

Lemma generated_project_has_required_files_witness :
  let analysis :=
    VDict [("framework", VDict [("primary", VStr "vanilla")]);
           ("cloning_requirements",
              VDict [("component_files", VList []); ("pages", VList []);
                     ("styles", VList []); ("config_files", VDict [])])] in
  match generate_code agent_model analysis None with
  | Ok p =>
      dict_keys (gp_project_structure p) = ["index.html"; "main.js"] /\
      dict_keys (match gp_config_files p with VDict d => d | _ => [] end) =
        [".gitignore"; "README.md"; "package.json"] /\
      ((forall f, In f [".gitignore"; "README.md"; "package.json"] ->
          py_in f (gp_config_files p) = Ok true \/
          dict_mem (gp_project_structure p) f = true) /\
       (gp_framework p = "vanilla" ->
          (exists f, In f (dict_keys (gp_project_structure p)) /\
                     endswith (lower f) "index.html" = true) /\
          (exists f, In f (dict_keys (gp_project_structure p)) /\
                     endswith (lower f) "main.js" = true)))
  | Err _ => False
  end.
Proof.
  intros analysis.
  destruct (generate_code agent_model analysis None) as [p|e] eqn:E.
  - split; [|split].
    + vm_compute in E. injection E as <-. reflexivity.
    + vm_compute in E. injection E as <-. reflexivity.
    + exact (generated_project_has_required_files agent_model analysis None p E).
  - vm_compute in E. discriminate E.
Defined.

End Claims.

(* ------------------------------------------------------------------ *)
(** ** Further properties of the pipeline *)

Module Extras.
Import Py Str Fmt Analyzer Normalizer Colors Typography Generator Orchestrator Facts.

Lemma validate_cases (gp : GeneratedProject) :
  validate_generated_code gp = true <->
  (forall f, In f ["package.json"; ".gitignore"; "README.md"] ->
     exists b, py_in f (gp_config_files gp) = Ok b /\
               (b = true \/ dict_mem (gp_project_structure gp) f = true)) /\
  (exists pj, gp_package_json gp = VDict pj /\
              truthy (dget pj "dependencies" VNone) = true) /\
  (exists path, In path (dict_keys (gp_project_structure gp)) /\
     (contains (lower path) "page" = true \/ contains (lower path) "index" = true)).
Proof.
  unfold validate_generated_code, validate_body.
  set (ps := gp_project_structure gp).
  set (cfg := gp_config_files gp).
  assert (Hpath : existsb (fun path => contains (lower path) "page" || contains (lower path) "index")
                    (dict_keys ps) = true <->
                  exists path, In path (dict_keys ps) /\
                    (contains (lower path) "page" = true \/ contains (lower path) "index" = true)).
  { rewrite existsb_exists. split; intros (path & Hin & Hp); exists path; split; auto;
      apply orb_true_iff; exact Hp. }
  split.
  - intros H.
    destruct (py_in "package.json" cfg) as [b1|] eqn:E1; cbn [bind] in H; [|discriminate H].
    destruct (negb b1 && negb (dict_mem ps "package.json")) eqn:N1; [discriminate H|].
    destruct (py_in ".gitignore" cfg) as [b2|] eqn:E2; cbn [bind] in H; [|discriminate H].
    destruct (negb b2 && negb (dict_mem ps ".gitignore")) eqn:N2; [discriminate H|].
    destruct (py_in "README.md" cfg) as [b3|] eqn:E3; cbn [bind] in H; [|discriminate H].
    destruct (negb b3 && negb (dict_mem ps "README.md")) eqn:N3; [discriminate H|].
    cbn [negb bind] in H.
    destruct (gp_package_json gp) as [| | | | | | pj]; cbn [py_get bind] in H; try discriminate H.
    destruct (truthy _) eqn:T; cbn [negb] in H; [|discriminate H].
    split; [|split; [exists pj; split; [reflexivity | exact T] | apply Hpath; exact H]].
    intros f [<- | [<- | [<- | []]]].
    + exists b1. split; [exact E1|]. destruct b1; [left; reflexivity|right].
      destruct (dict_mem ps "package.json"); [reflexivity | discriminate N1].
    + exists b2. split; [exact E2|]. destruct b2; [left; reflexivity|right].
      destruct (dict_mem ps ".gitignore"); [reflexivity | discriminate N2].
    + exists b3. split; [exact E3|]. destruct b3; [left; reflexivity|right].
      destruct (dict_mem ps "README.md"); [reflexivity | discriminate N3].
  - intros (Hf & (pj & Hpj & T) & Hp).
    destruct (Hf "package.json" ltac:(cbn; tauto)) as (b1 & E1 & O1).
    destruct (Hf ".gitignore" ltac:(cbn; tauto)) as (b2 & E2 & O2).
    destruct (Hf "README.md" ltac:(cbn; tauto)) as (b3 & E3 & O3).
    rewrite E1. cbn [bind].
    replace (negb b1 && negb (dict_mem ps "package.json")) with false
      by (destruct O1 as [-> | ->]; [reflexivity | symmetry; apply andb_false_r]).
    rewrite E2. cbn [bind].
    replace (negb b2 && negb (dict_mem ps ".gitignore")) with false
      by (destruct O2 as [-> | ->]; [reflexivity | symmetry; apply andb_false_r]).
    rewrite E3. cbn [bind].
    replace (negb b3 && negb (dict_mem ps "README.md")) with false
      by (destruct O3 as [-> | ->]; [reflexivity | symmetry; apply andb_false_r]).
    cbn [negb bind]. rewrite Hpj. cbn [py_get bind].
    unfold dget in T. rewrite T. cbn [negb]. f_equal. apply Hpath. exact Hp.
Qed.

Lemma dict_get_in_keys (d : dict) (k : string) (v : value) :
  dict_get d k = Some v -> In k (dict_keys d).
Proof.
  induction d as [|[k0 v0] d IH]; cbn; [discriminate|].
  destruct (String.eqb_spec k k0) as [->|]; [left; reflexivity | intros H; right; auto].
Qed.

Lemma ensure_get (ps : dict) (sfx : list string) (path content k : string) (v : value) :
  existsb (endswith (lower path)) sfx = true ->
  dict_get ps k = Some v -> dict_get (ensure ps sfx path content) k = Some v.
Proof.
  intros Hp Hk. unfold ensure. destruct (has_suffix ps sfx) eqn:E; [exact Hk|].
  rewrite dict_get_set. destruct (String.eqb_spec k path) as [->|]; [|exact Hk].
  exfalso. unfold has_suffix in E.
  assert (Hin : existsb (fun f => existsb (endswith (lower f)) sfx) (dict_keys ps) = true).
  { apply existsb_exists. exists path. split; [exact (dict_get_in_keys _ _ _ Hk) | exact Hp]. }
  congruence.
Qed.

Lemma framework_fallback_get (framework : string) (ps : dict) (k : string) (v : value) :
  dict_get ps k = Some v -> dict_get (framework_fallback framework ps) k = Some v.
Proof.
  intros Hk. unfold framework_fallback.
  repeat match goal with |- context [if String.eqb ?a ?b then _ else _] =>
    destruct (String.eqb a b) end;
  repeat (apply ensure_get; [reflexivity|]); exact Hk.
Qed.

Lemma render_files_mem (model : model_attr) (framework file_type : string)
    (descriptions : value) (files : list value) (ps ps' : dict) :
  render_files model framework file_type descriptions files ps = Ok ps' ->
  (forall k, dict_mem ps k = true -> dict_mem ps' k = true) /\
  (forall f, In (VStr f) files -> dict_mem ps' f = true).
Proof.
  revert ps; induction files as [|x files IH]; intros ps H; cbn [render_files] in H.
  - injection H as <-. split; [auto | intros f []].
  - destruct x as [| | | |fn| |]; try discriminate H.
    bind_ok H. bind_ok H.
    destruct (IH _ H) as [Hkeep Hnew].
    split.
    + intros k Hk. apply Hkeep. rewrite dict_mem_set, Hk. apply orb_true_r.
    + intros f [Hf | Hf].
      * injection Hf as <-. apply Hkeep. rewrite dict_mem_set, String.eqb_refl. reflexivity.
      * exact (Hnew f Hf).
Qed.

Lemma framework_fallback_mem (framework : string) (ps : dict) (k : string) :
  dict_mem ps k = true -> dict_mem (framework_fallback framework ps) k = true.
Proof.
  unfold dict_mem. destruct (dict_get ps k) as [v|] eqn:E; [|discriminate].
  rewrite (framework_fallback_get _ _ _ _ E). reflexivity.
Qed.

(** [generate_code]'s completeness fallback only adds files: every file
    already in [project_structure] keeps its content. *)
Theorem framework_fallback_keeps_files (framework : string) (ps : dict) (k : string) (v : value) :
  dict_get ps k = Some v -> dict_get (framework_fallback framework ps) k = Some v.
Proof. exact (framework_fallback_get framework ps k v). Qed.

Lemma framework_fallback_keeps_files_witness :
  dict_get [("src/App.jsx", VStr "custom")] "src/App.jsx" = Some (VStr "custom") /\
  dict_get (framework_fallback "react" [("src/App.jsx", VStr "custom")]) "src/App.jsx"
    = Some (VStr "custom").
Proof.
  split; [reflexivity|].
  apply framework_fallback_keeps_files. reflexivity.
Defined.

(** Every file named in [component_files], [pages] or [styles] of
    [cloning_requirements] is a file of the project [generate_code]
    returns. *)
Theorem generate_code_renders_listed_files (model : model_attr) (analysis : value)
    (target_framework : option string) (p : GeneratedProject) (cloning : value)
    (key : string) (files : value) (items : list value) (f : string) :
  generate_code model analysis target_framework = Ok p ->
  py_get analysis "cloning_requirements" (VDict []) = Ok cloning ->
  In key ["component_files"; "pages"; "styles"] ->
  py_get cloning key (VList []) = Ok files ->
  py_iter files = Ok items -> In (VStr f) items ->
  dict_mem (gp_project_structure p) f = true.
Proof.
  intros H Hc Hkey Hfiles Hitems Hf.
  unfold generate_code in H.
  destruct Hkey as [<- | [<- | [<- | []]]];
  repeat bind_ok H; injection H as <-; cbn [gp_project_structure];
  repeat match goal with Hx : Ok _ = Ok _ |- _ => injection Hx as Hx; subst end;
  repeat match goal with
  | H1 : ?m = Ok ?x, H2 : ?m = Ok ?y |- _ =>
      rewrite H1 in H2; injection H2 as H2; subst
  end;
  apply framework_fallback_mem;
  repeat match goal with
  | Hr : render_files _ _ _ _ _ _ = Ok ?ps' |- dict_mem ?ps' _ = true =>
      first [ exact (proj2 (render_files_mem _ _ _ _ _ _ _ Hr) f Hf)
            | apply (proj1 (render_files_mem _ _ _ _ _ _ _ Hr)) ]
  end.
Qed.

Lemma generate_code_renders_listed_files_witness :
  let analysis :=
    VDict [("framework", VDict [("primary", VStr "react")]);
           ("cloning_requirements",
              VDict [("component_files", VList [VStr "src/Header.jsx"])])] in
  match generate_code agent_model analysis None with
  | Ok p =>
      py_get analysis "cloning_requirements" (VDict []) =
        Ok (VDict [("component_files", VList [VStr "src/Header.jsx"])]) /\
      dict_mem (gp_project_structure p) "src/Header.jsx" = true
  | Err _ => False
  end.
Proof.
  intros analysis.
  destruct (generate_code agent_model analysis None) as [p|e] eqn:E.
  - split; [reflexivity|].
    apply (generate_code_renders_listed_files agent_model analysis None p
             (VDict [("component_files", VList [VStr "src/Header.jsx"])])
             "component_files" (VList [VStr "src/Header.jsx"]) [VStr "src/Header.jsx"]
             "src/Header.jsx" E); cbn; auto.
  - vm_compute in E. discriminate E.
Defined.

Lemma after_sep_cons (sep r : string) (c : ascii) :
  after_sep sep (String c r) =
  if String.prefix sep (String c r)
  then Some (substring (String.length sep) (String.length (String c r)) (String c r))
  else after_sep sep r.
Proof. reflexivity. Qed.

Lemma after_sep_fence (body rest : string) :
  any_char (fun c => Ascii.eqb c "`") body = false ->
  after_sep "```" (body ++ "```" ++ rest) = Some rest.
Proof.
  induction body as [|c body IH]; intros Hb.
  - cbn [append]. rewrite after_sep_cons. cbn [String.prefix].
    destruct (ascii_dec "`" "`") as [_|n]; [|contradiction n; reflexivity].
    destruct (ascii_dec "`" "`") as [_|n]; [|contradiction n; reflexivity].
    destruct (ascii_dec "`" "`") as [_|n]; [|contradiction n; reflexivity].
    replace (String.prefix "" rest) with true by (destruct rest; reflexivity).
    cbn [String.length substring]. rewrite substring0_all by lia. reflexivity.
  - cbn [any_char] in Hb. apply orb_false_iff in Hb as [Hc Hb].
    change (after_sep "```" (String c (body ++ "```" ++ rest)) = Some rest).
    rewrite after_sep_cons.
    replace (String.prefix "```" (String c (body ++ "```" ++ rest))) with false.
    + exact (IH Hb).
    + cbn [String.prefix]. destruct (ascii_dec "`" c) as [<-|]; [|reflexivity].
      rewrite Ascii.eqb_refl in Hc. discriminate Hc.
Qed.

Lemma split2_last_fenced (body : string) :
  any_char (fun c => Ascii.eqb c "`") body = false ->
  split2_last "```" ("```" ++ body ++ "```") = "".
Proof.
  intros Hb. unfold split2_last.
  replace (after_sep "```" ("```" ++ body ++ "```")) with (Some (body ++ "```"))
    by (symmetry; exact (after_sep_fence "" (body ++ "```") eq_refl)).
  pose proof (after_sep_fence body "" Hb) as H2. rewrite app_nil_str in H2.
  rewrite H2. reflexivity.
Qed.

Lemma strip_fenced (body : string) :
  strip ("```" ++ body ++ "```") = "```" ++ body ++ "```".
Proof.
  unfold strip.
  replace (lstrip ("```" ++ body ++ "```")) with ("```" ++ body ++ "```") by reflexivity.
  replace ("```" ++ body ++ "```") with (("```" ++ body ++ "``") ++ String "`" "").
  - rewrite rstrip_app_nonspace by reflexivity. reflexivity.
  - rewrite app_assoc_str. cbn [append].
    f_equal. f_equal. f_equal. rewrite app_assoc_str. reflexivity.
Qed.

(** When the model's whole response is one fenced block, the
    ["```"]-splitting of [_generate_real_code] keeps what follows the
    closing fence, so the file is written empty. *)
Theorem fenced_response_gives_empty_file (generate : string -> option string)
    (file_name : string) (description : value) (framework file_type body : string) :
  truthy description = true ->
  generate (real_code_prompt framework file_type file_name (py_str description))
    = Some ("```" ++ body ++ "```") ->
  any_char (fun c => Ascii.eqb c "`") body = false ->
  generate_real_code (Model generate) file_name description framework file_type = Ok (VStr "").
Proof.
  intros Hd Hg Hb. unfold generate_real_code. rewrite Hd. cbn [negb].
  rewrite Hg, strip_fenced.
  replace (startswith ("```" ++ body ++ "```") "```") with true
    by (unfold startswith; simpl; destruct (body ++ "```"); reflexivity).
  rewrite (split2_last_fenced _ Hb). reflexivity.
Qed.

Lemma fenced_response_gives_empty_file_witness :
  truthy (VStr "Site header") = true /\
  (fun _ : string => Some ("```jsx" ++ NL ++ "export default () => null;" ++ NL ++ "```"))
    (real_code_prompt "react" "component" "Header.jsx" (py_str (VStr "Site header")))
    = Some ("```" ++ ("jsx" ++ NL ++ "export default () => null;" ++ NL) ++ "```") /\
  any_char (fun c => Ascii.eqb c "`") ("jsx" ++ NL ++ "export default () => null;" ++ NL) = false /\
  generate_real_code (Model (fun _ => Some ("```jsx" ++ NL ++ "export default () => null;" ++ NL ++ "```"))) "Header.jsx" (VStr "Site header")
    "react" "component" = Ok (VStr "").
Proof.
  split; [reflexivity|]. split; [reflexivity|]. split; [vm_compute; reflexivity|].
  apply fenced_response_gives_empty_file
    with (body := "jsx" ++ NL ++ "export default () => null;" ++ NL);
    [reflexivity | reflexivity | vm_compute; reflexivity].
Defined.

Lemma prefix_refl (p : string) : String.prefix p p = true.
Proof.
  induction p as [|c p IH]; [reflexivity|].
  cbn. destruct (ascii_dec c c) as [_|n]; [exact IH | contradiction n; reflexivity].
Qed.

Lemma prefix_split (p s : string) : String.prefix p s = true -> exists t, s = p ++ t.
Proof.
  revert s; induction p as [|c p IH]; intros s H.
  - exists s. reflexivity.
  - destruct s as [|c' s]; cbn in H; [discriminate H|].
    destruct (ascii_dec c c') as [<-|]; [|discriminate H].
    destruct (IH s H) as [t ->]. exists t. reflexivity.
Qed.

Lemma contains_app_prefix (a b p : string) :
  String.prefix p b = true -> contains (a ++ b) p = true.
Proof.
  intros H. induction a as [|c a IH].
  - cbn [append]. destruct b; cbn [contains]; rewrite H; reflexivity.
  - cbn [append contains]. rewrite IH. apply orb_true_r.
Qed.

Lemma endswith_contains (s p : string) : endswith s p = true -> contains s p = true.
Proof.
  unfold endswith. intros H. apply prefix_split in H as [t Ht].
  rewrite <- (rev_str_rev s), Ht, rev_str_app, rev_str_rev.
  apply contains_app_prefix, prefix_refl.
Qed.

Lemma has_suffix_index (ps : dict) (sfx : list string) :
  has_suffix ps sfx = true ->
  (forall x, In x sfx -> exists r, x = "index" ++ r) ->
  exists path, In path (dict_keys ps) /\ contains (lower path) "index" = true.
Proof.
  unfold has_suffix. rewrite existsb_exists. intros (path & Hin & Hs) Hx.
  apply existsb_exists in Hs as (x & Hx' & He).
  destruct (Hx x Hx') as [r ->].
  exists path. split; [exact Hin|].
  exact (contains_app_l _ _ _ (endswith_contains _ _ He)).
Qed.

Lemma framework_fallback_index (framework : string) (ps : dict) :
  In framework ["react"; "next"; "vue"; "vanilla"] ->
  exists path, In path (dict_keys (framework_fallback framework ps)) /\
               contains (lower path) "index" = true.
Proof.
  intros [<- | [<- | [<- | [<- | []]]]].
  - apply (has_suffix_index _ ["index.html"]);
      [apply ensure_has; reflexivity | intros x [<- | []]; exists ".html"; reflexivity].
  - apply (has_suffix_index _ ["index.js"; "index.jsx"]);
      [apply ensure_has; reflexivity |
       intros x [<- | [<- | []]]; [exists ".js" | exists ".jsx"]; reflexivity].
  - apply (has_suffix_index _ ["index.html"]);
      [apply ensure_has; reflexivity | intros x [<- | []]; exists ".html"; reflexivity].
  - apply (has_suffix_index _ ["index.html"]);
      [apply (proj1 (framework_fallback_vanilla ps)) |
       intros x [<- | []]; exists ".html"; reflexivity].
Qed.

Lemma py_in_other (x y : string) (c : value) (b : bool) :
  py_in x c = Ok b -> exists b', py_in y c = Ok b'.
Proof. destruct c; cbn; intros H; try discriminate H; eexists; reflexivity. Qed.

Lemma py_setitem_in (c c' : value) (k y : string) (v : value) :
  py_setitem c k v = Ok c' -> exists b, py_in y c' = Ok b.
Proof. destruct c; cbn; intros H; try discriminate H. injection H as <-. eexists; reflexivity. Qed.

Lemma generate_code_config_in (model : model_attr) (analysis : value)
    (target_framework : option string) (p : GeneratedProject) (f : string) :
  generate_code model analysis target_framework = Ok p ->
  exists b, py_in f (gp_config_files p) = Ok b.
Proof.
  intros H. unfold generate_code in H. repeat bind_ok H. injection H as <-.
  cbn [gp_config_files].
  match goal with
  | Hs : (if ?c then py_setitem ?c0 "package.json" _ else Ok ?c0) = Ok ?c1,
    Hi : py_in "package.json" ?c0 = Ok _ |- _ =>
      destruct c; [exact (py_setitem_in _ _ _ _ _ Hs) |
                   injection Hs as <-; exact (py_in_other _ _ _ _ Hi)]
  end.
Qed.

(** For a project [generate_code] returns with framework [react], [next],
    [vue] or [vanilla], [_validate_generated_code] accepts it exactly when
    its [package_json] is a dict with a truthy [dependencies]: the file and
    page checks always pass. *)
Theorem generate_code_validation (model : model_attr) (analysis : value)
    (target_framework : option string) (p : GeneratedProject) :
  generate_code model analysis target_framework = Ok p ->
  In (gp_framework p) ["react"; "next"; "vue"; "vanilla"] ->
  (validate_generated_code p = true <->
   exists pj, gp_package_json p = VDict pj /\ truthy (dget pj "dependencies" VNone) = true).
Proof.
  intros H Hfw. rewrite validate_cases.
  destruct (generate_code_ok _ _ _ _ H) as [Hfiles [ps Hps]].
  split; [intros (_ & Hd & _); exact Hd|].
  intros Hd. split; [|split; [exact Hd|]].
  - intros f Hf.
    destruct (Hfiles f ltac:(cbn in Hf |- *; tauto)) as [Hin | Hmem].
    + exists true. split; [exact Hin | left; reflexivity].
    + destruct (generate_code_config_in _ _ _ _ f H) as [b Hb].
      exists b. split; [exact Hb | right; exact Hmem].
  - rewrite Hps. destruct (framework_fallback_index _ ps Hfw) as (path & Hin & Hc).
    exists path. split; [exact Hin | right; exact Hc].
Qed.

Lemma generate_code_validation_witness :
  let analysis :=
    VDict [("framework", VDict [("primary", VStr "vue")]);
           ("cloning_requirements", VDict [("pages", VList [VStr "src/Home.vue"])])] in
  match generate_code agent_model analysis None with
  | Ok p =>
      In (gp_framework p) ["react"; "next"; "vue"; "vanilla"] /\
      validate_generated_code p = true
  | Err _ => False
  end.
Proof.
  intros analysis.
  destruct (generate_code agent_model analysis None) as [p|e] eqn:E.
  - assert (Hfw : In (gp_framework p) ["react"; "next"; "vue"; "vanilla"]).
    { vm_compute in E. injection E as <-. cbn. tauto. }
    split; [exact Hfw|].
    apply (proj2 (generate_code_validation agent_model analysis None p E Hfw)).
    vm_compute in E. injection E as <-. eexists. split; reflexivity.
  - vm_compute in E. discriminate E.
Defined.

(** [_determine_framework] returns a non-empty [target_framework]
    lower-cased, whatever the analysis; without a [target_framework] (or
    with an empty one) it picks one of [react], [next], [vue], [angular],
    [svelte]. *)
Theorem determine_framework_range (analysis : value) :
  (forall t, t <> "" -> determine_framework analysis (Some t) = Ok (lower t)) /\
  (forall target_framework fw,
     determine_framework analysis target_framework = Ok fw ->
     match target_framework with
     | Some t => if String.eqb t "" then In fw ["react"; "next"; "vue"; "angular"; "svelte"]
                 else fw = lower t
     | None => In fw ["react"; "next"; "vue"; "angular"; "svelte"]
     end).
Proof.
  assert (Hmap : forall d, In (framework_map d) ["react"; "next"; "vue"; "angular"; "svelte"]).
  { intros d. unfold framework_map.
    destruct (mem_str d _) eqn:Hm.
    - unfold mem_str in Hm. apply existsb_exists in Hm as (x & Hx & Hd).
      apply String.eqb_eq in Hd. subst x. exact Hx.
    - destruct (String.eqb d "nextjs"); [cbn; tauto|].
      destruct (String.eqb d "vuejs"); cbn; tauto. }
  assert (Hdet : forall r,
            (let* fd := py_get analysis "framework" (VDict []) in
             let* p := py_get fd "primary" (VStr "unknown") in
             match p with VStr s => Ok (framework_map (lower s)) | _ => Err AttributeError end)
            = Ok r -> In r ["react"; "next"; "vue"; "angular"; "svelte"]).
  { intros r H. bind_ok H. bind_ok H. destruct a0; try discriminate H.
    injection H as <-. apply Hmap. }
  split.
  - intros t Ht. unfold determine_framework.
    destruct (String.eqb_spec t "") as [E|_]; [contradiction|reflexivity].
  - intros target_framework fw H. unfold determine_framework in H.
    destruct target_framework as [t|].
    + destruct (String.eqb_spec t "") as [->|Ht].
      * exact (Hdet fw H).
      * injection H as <-. reflexivity.
    + exact (Hdet fw H).
Qed.

Lemma determine_framework_range_witness :
  determine_framework (VDict [("framework", VDict [("primary", VStr "NextJS")])]) (Some "Vue")
    = Ok "vue" /\
  In "next" ["react"; "next"; "vue"; "angular"; "svelte"].
Proof.
  destruct (determine_framework_range (VDict [("framework", VDict [("primary", VStr "NextJS")])]))
    as [H1 H2].
  split.
  - exact (H1 "Vue" ltac:(discriminate)).
  - apply (H2 None "next"). vm_compute. reflexivity.
Defined.

(** [_get_packages_for_framework] always returns a non-empty list of
    package names; with the [tailwind] CSS framework it ends with
    [tailwindcss], [autoprefixer], [postcss], with [bootstrap] it ends with
    [bootstrap]. *)
Theorem get_packages_for_framework_shape (framework css_framework : value) :
  exists l, get_packages_for_framework framework css_framework = vstrs l /\ l <> [] /\
    (is_str_eq css_framework "tailwind" = true ->
       exists b, l = (b ++ ["tailwindcss"; "autoprefixer"; "postcss"])%list) /\
    (is_str_eq css_framework "tailwind" = false -> is_str_eq css_framework "bootstrap" = true ->
       exists b, l = (b ++ ["bootstrap"])%list).
Proof.
  unfold get_packages_for_framework.
  set (base := if is_str_eq framework "react" then _ else _).
  destruct (is_str_eq css_framework "tailwind") eqn:Ht.
  - destruct (base ++ ["tailwindcss"; "autoprefixer"; "postcss"])%list as [|x l] eqn:E.
    + destruct base; discriminate E.
    + exists (x :: l). split; [reflexivity|]. split; [discriminate|].
      split; [intros _; exists base; symmetry; exact E | discriminate].
  - destruct (is_str_eq css_framework "bootstrap") eqn:Hb.
    + destruct (base ++ ["bootstrap"])%list as [|x l] eqn:E.
      * destruct base; discriminate E.
      * exists (x :: l). split; [reflexivity|]. split; [discriminate|].
        split; [discriminate | intros _ _; exists base; symmetry; exact E].
    + destruct base as [|x l].
      * exists ["live-server"]. split; [reflexivity|]. split; [discriminate|].
        split; discriminate.
      * exists (x :: l). split; [reflexivity|]. split; [discriminate|].
        split; discriminate.
Qed.

Lemma extract_from_text_response_fields (response_text : string)
    (framework_hints : option value) (v : value) :
  extract_from_text_response response_text framework_hints = Ok v ->
  exists d, v = VDict d /\ forall f, In f required_fields -> dict_mem d f = true.
Proof.
  unfold extract_from_text_response. intros H. bind_ok H.
  destruct a as [fw css]. destruct (segment _ _ _ _ _ _) as [[h m] f].
  injection H as <-. eexists. split; [reflexivity|].
  intros k Hk. unfold required_fields in Hk.
  repeat destruct Hk as [<- | Hk]; try reflexivity. destruct Hk.
Qed.

Lemma extract_from_text_response_none (response_text : string) :
  exists v, extract_from_text_response response_text None = Ok v.
Proof.
  unfold extract_from_text_response. cbn [bind].
  destruct (segment _ _ _ _ _ _) as [[h m] f]. eexists. reflexivity.
Qed.

(** Whatever [_parse_gemini_response] returns is a dict with the eight
    top-level fields [framework], [layout], [colors], [typography],
    [components], [interactive_elements], [content_structure],
    [cloning_requirements]; without framework hints it always returns. *)
Theorem parse_gemini_response_fields (response_text : string) :
  (forall framework_hints v,
     parse_gemini_response response_text framework_hints = Ok v ->
     exists d, v = VDict d /\ forall f, In f required_fields -> dict_mem d f = true) /\
  exists v, parse_gemini_response response_text None = Ok v.
Proof.
  split.
  - intros hints v. unfold parse_gemini_response, try_except.
    destruct (first_parsed (clean_response response_text)) as [[p|]|e]; cbn [bind].
    + destruct (truthy p).
      * destruct (complete_value p hints) as [r|e] eqn:E.
        -- intros [= <-]. destruct p as [| | | | | |d]; cbn in E; try discriminate E.
           bind_ok E. injection E as <-. eexists. split; [reflexivity|].
           exact (completer_output_fields _ _ _ E0).
        -- apply extract_from_text_response_fields.
      * destruct (extract_from_text_response response_text hints) as [r|e] eqn:E.
        -- intros [= <-]. exact (extract_from_text_response_fields _ _ _ E).
        -- intros H; discriminate H.
    + destruct (extract_from_text_response response_text hints) as [r|e] eqn:E.
      * intros [= <-]. exact (extract_from_text_response_fields _ _ _ E).
      * intros H; discriminate H.
    + apply extract_from_text_response_fields.
  - unfold parse_gemini_response, try_except.
    destruct (extract_from_text_response_none response_text) as [w Hw].
    match goal with |- exists v, match ?m with _ => _ end = _ => destruct m as [r|e] end.
    + exists r. reflexivity.
    + exists w. exact Hw.
Qed.

Lemma segment_snippets (n i : nat) (lines : list string) (h m f h' m' f' : string) :
  segment n i lines h m f = (h', m', f') ->
  (h' = h \/ exists l, In l lines /\ 5 < String.length (strip l) /\ h' = take 100 (strip l)) /\
  (m' = m \/ exists l, In l lines /\ 5 < String.length (strip l) /\ m' = take 100 (strip l)) /\
  (f' = f \/ exists l, In l lines /\ 5 < String.length (strip l) /\ f' = take 100 (strip l)).
Proof.
  revert i h m f. induction lines as [|l lines IH]; intros i h m f H; cbn [segment] in H.
  - injection H as <- <- <-. auto.
  - destruct (negb (String.eqb (strip l) "") && (5 <? String.length (strip l))%nat) eqn:Hl.
    + apply andb_true_iff in Hl as [_ Hl]. apply Nat.ltb_lt in Hl.
      assert (Hs : forall x x', x' = x \/ (exists l', In l' lines /\ 5 < String.length (strip l') /\
                                                   x' = take 100 (strip l')) ->
                     x' = x \/ (exists l', In l' (l :: lines) /\ 5 < String.length (strip l') /\
                                          x' = take 100 (strip l'))).
      { intros x x' [-> | (l' & Hin & Hlen & ->)]; [left; reflexivity|].
        right. exists l'. split; [right; exact Hin | auto]. }
      assert (Hn : forall x', x' = take 100 (strip l) \/
                     (exists l', In l' lines /\ 5 < String.length (strip l') /\
                                 x' = take 100 (strip l')) ->
                   exists l', In l' (l :: lines) /\ 5 < String.length (strip l') /\
                              x' = take 100 (strip l')).
      { intros x' [-> | (l' & Hin & Hlen & ->)].
        - exists l. split; [left; reflexivity | auto].
        - exists l'. split; [right; exact Hin | auto]. }
      destruct (10 * i <? 3 * n)%nat; [|destruct (10 * i <? 7 * n)%nat].
      * destruct (IH _ _ _ _ H) as (Hh & Hm & Hf).
        split; [right; apply Hn; exact Hh | split; apply Hs; assumption].
      * destruct (IH _ _ _ _ H) as (Hh & Hm & Hf).
        split; [apply Hs; exact Hh | split; [right; apply Hn; exact Hm | apply Hs; exact Hf]].
      * destruct (IH _ _ _ _ H) as (Hh & Hm & Hf).
        split; [apply Hs; exact Hh | split; [apply Hs; exact Hm | right; apply Hn; exact Hf]].
    + destruct (IH _ _ _ _ H) as (Hh & Hm & Hf).
      split; [|split];
        match goal with
        | Hx : ?x' = ?x \/ _ |- ?x' = ?x \/ _ =>
            destruct Hx as [-> | (l' & Hin & Hlen & ->)];
            [left; reflexivity | right; exists l'; split; [right; exact Hin | auto]]
        end.
Qed.

(** The header, main and footer texts of the text fallback are each its
    default, or the first 100 characters of a stripped line of the
    response that is longer than 5 characters. *)
Theorem text_fallback_snippets (response_text : string) (framework_hints : option value)
    (v : value) :
  extract_from_text_response response_text framework_hints = Ok v ->
  exists d cs h m f,
    v = VDict d /\ dict_get d "content_structure" = Some (VDict cs) /\
    dict_get cs "text_content" = Some (VDict [("header", VStr h); ("main", VStr m); ("footer", VStr f)]) /\
    (h = "Welcome to Our Site" \/ exists l, In l (split_nl response_text) /\
       5 < String.length (strip l) /\ h = take 100 (strip l)) /\
    (m = "About Us Content" \/ exists l, In l (split_nl response_text) /\
       5 < String.length (strip l) /\ m = take 100 (strip l)) /\
    (f = "Copyright 2025" \/ exists l, In l (split_nl response_text) /\
       5 < String.length (strip l) /\ f = take 100 (strip l)).
Proof.
  unfold extract_from_text_response. intros H. bind_ok H.
  destruct a as [fw css].
  destruct (segment _ _ _ _ _ _) as [[h m] f] eqn:Es.
  injection H as <-.
  destruct (segment_snippets _ _ _ _ _ _ _ _ _ Es) as (Hh & Hm & Hf).
  do 5 eexists. split; [reflexivity|]. split; [reflexivity|]. split; [reflexivity|].
  auto.
Qed.

Lemma text_fallback_snippets_witness :
  exists d cs h m f,
    extract_from_text_response ("Acme Widgets Inc" ++ NL ++ "ok") None = Ok (VDict d) /\
    dict_get d "content_structure" = Some (VDict cs) /\
    dict_get cs "text_content" = Some (VDict [("header", VStr h); ("main", VStr m); ("footer", VStr f)]) /\
    (h = "Welcome to Our Site" \/ exists l, In l (split_nl ("Acme Widgets Inc" ++ NL ++ "ok")) /\
       5 < String.length (strip l) /\ h = take 100 (strip l)) /\
    (m = "About Us Content" \/ exists l, In l (split_nl ("Acme Widgets Inc" ++ NL ++ "ok")) /\
       5 < String.length (strip l) /\ m = take 100 (strip l)) /\
    (f = "Copyright 2025" \/ exists l, In l (split_nl ("Acme Widgets Inc" ++ NL ++ "ok")) /\
       5 < String.length (strip l) /\ f = take 100 (strip l)).
Proof.
  destruct (extract_from_text_response ("Acme Widgets Inc" ++ NL ++ "ok") None) as [v|e] eqn:E.
  - destruct (text_fallback_snippets _ _ _ E) as (d & cs & h & m & f & -> & R).
    exists d, cs, h, m, f. split; [reflexivity | exact R].
  - vm_compute in E. discriminate E.
Defined.

Lemma lower_app (a b : string) : lower (a ++ b) = lower a ++ lower b.
Proof. induction a as [|c a IH]; cbn; [reflexivity | rewrite IH; reflexivity]. Qed.

Lemma prefix_self_app (p z : string) : String.prefix p (p ++ z) = true.
Proof.
  induction p as [|c p IH]; [destruct z; reflexivity|].
  cbn. destruct (ascii_dec c c) as [_|n]; [exact IH | contradiction n; reflexivity].
Qed.

Lemma prefix_app_r (p x y : string) : String.prefix p x = true -> String.prefix p (x ++ y) = true.
Proof.
  intros H. apply prefix_split in H as [t ->]. rewrite app_assoc_str. apply prefix_self_app.
Qed.

Lemma contains_app_r (a b p : string) : contains a p = true -> contains (a ++ b) p = true.
Proof.
  induction a as [|c a IH]; intros H.
  - cbn in H. rewrite orb_false_r in H. destruct p; [|discriminate H].
    destruct b; reflexivity.
  - cbn [append contains] in *. apply orb_true_iff in H as [H | H].
    + pose proof (prefix_app_r _ (String c a) b H) as H'. cbn [append] in H'.
      rewrite H'. reflexivity.
    + rewrite (IH H). apply orb_true_r.
Qed.

Lemma detected_names_mono (P : string -> bool) (html extra n : string) :
  In n (filter P (map fst (filter (fun fi => existsb (contains (lower html)) (snd fi))
                                  framework_indicators))) ->
  In n (filter P (map fst (filter (fun fi => existsb (contains (lower (html ++ extra))) (snd fi))
                                  framework_indicators))).
Proof.
  rewrite !filter_In, !in_map_iff. intros ((fi & <- & Hfi) & Hp). split; [|exact Hp].
  exists fi. split; [reflexivity|]. apply filter_In in Hfi as [Hin Hhit].
  apply filter_In. split; [exact Hin|].
  apply existsb_exists in Hhit as (x & Hx & Hc). apply existsb_exists. exists x.
  split; [exact Hx|]. rewrite lower_app. apply contains_app_r. exact Hc.
Qed.

(** [_detect_framework_from_html] is monotone in its input: every framework,
    CSS framework or CMS it reports for some HTML it also reports once more
    text is appended to that HTML. *)
Theorem detect_framework_monotone (html extra k : string) (l1 l2 : list value) (v : value) :
  py_get (detect_framework_from_html html) k (VList []) = Ok (VList l1) ->
  py_get (detect_framework_from_html (html ++ extra)) k (VList []) = Ok (VList l2) ->
  In v l1 -> In v l2.
Proof.
  assert (Hinj : forall x y : list value, @Ok value (VList x) = Ok (VList y) -> x = y)
    by (intros x y H; injection H; auto).
  unfold detect_framework_from_html, vstrs. cbn [py_get dict_get].
  destruct (String.eqb k "frameworks"); [|destruct (String.eqb k "css_frameworks");
                                          [|destruct (String.eqb k "cms")]];
    intros H1 H2; apply Hinj in H1, H2; subst l1 l2; try (intros []);
    rewrite !in_map_iff; intros (n & <- & Hn); exists n; split; try reflexivity;
    apply detected_names_mono; exact Hn.
Qed.

Lemma detect_framework_monotone_witness :
  py_get (detect_framework_from_html "<div id='root' data-reactroot>") "frameworks" (VList [])
    = Ok (VList [VStr "react"]) /\
  py_get (detect_framework_from_html ("<div id='root' data-reactroot>" ++ "<script src='/_next/app.js'>"))
    "frameworks" (VList []) = Ok (VList [VStr "react"; VStr "next"]) /\
  In (VStr "react") [VStr "react"; VStr "next"].
Proof.
  split; [vm_compute; reflexivity|]. split; [vm_compute; reflexivity|].
  apply (detect_framework_monotone "<div id='root' data-reactroot>" "<script src='/_next/app.js'>"
           "frameworks" [VStr "react"]); [vm_compute; reflexivity | vm_compute; reflexivity | left; reflexivity].
Defined.

Lemma append_new_nodup (l : list string) (x : string) : NoDup l -> NoDup (append_new l x).
Proof.
  unfold append_new, Analyzer.mem_str. destruct (existsb (String.eqb x) l) eqn:E; [auto|].
  intros Hl. apply NoDup_app; [exact Hl | constructor; [intros [] | constructor] |].
  intros y Hy [<- | []].
  assert (Hx : existsb (String.eqb x) l = true)
    by (apply existsb_exists; exists x; split; [exact Hy | apply String.eqb_refl]).
  congruence.
Qed.

Lemma append_new_keeps (l : list string) (x y : string) : In y l -> In y (append_new l x).
Proof.
  unfold append_new. destruct (Analyzer.mem_str x l); [auto|]. intros H. apply in_or_app. left. exact H.
Qed.

Lemma append_new_has (l : list string) (x : string) : In x (append_new l x).
Proof.
  unfold append_new, Analyzer.mem_str. destruct (existsb (String.eqb x) l) eqn:E.
  - apply existsb_exists in E as (y & Hy & Hxy). apply String.eqb_eq in Hxy. subst y. exact Hy.
  - apply in_or_app. right. left. reflexivity.
Qed.

Lemma append_new_in (l : list string) (x y : string) : In y (append_new l x) -> In y l \/ y = x.
Proof.
  unfold append_new. destruct (Analyzer.mem_str x l); [auto|].
  intros H. apply in_app_or in H as [H | [<- | []]]; auto.
Qed.

Lemma fold_left_inv {A B} (P : A -> Prop) (f : A -> B -> A) (l : list B) (a : A) :
  (forall a b, In b l -> P a -> P (f a b)) -> P a -> P (fold_left f l a).
Proof.
  revert a; induction l as [|b l IH]; intros a Hf Ha; cbn; [exact Ha|].
  apply IH; [intros a' b' Hb'; apply Hf; right; exact Hb' | apply Hf; [left; reflexivity | exact Ha]].
Qed.

(** [_detect_components_from_html] lists no component twice, always lists
    [header], [main] and [footer], and lists only components of its
    indicator table. *)
Theorem detect_components_from_html_shape (html_content : string) :
  let components := detect_components_from_html html_content in
  NoDup components /\
  In "header" components /\ In "main" components /\ In "footer" components /\
  (forall x, In x components -> In x (map fst component_indicators)).
Proof.
  intros components. unfold components, detect_components_from_html.
  set (c0 := fold_left _ component_indicators []).
  assert (Hinv : NoDup c0 /\ forall x, In x c0 -> In x (map fst component_indicators)).
  { unfold c0. apply fold_left_inv; [|split; [constructor | intros x []]].
    intros a ci Hci [Hnd Ha].
    destruct (existsb _ _); [|split; assumption].
    split; [apply append_new_nodup; exact Hnd|].
    intros x Hx. apply append_new_in in Hx as [Hx | ->]; [apply Ha; exact Hx|].
    apply in_map. exact Hci. }
  destruct Hinv as [Hnd Hin].
  cbn [fold_left].
  split; [repeat apply append_new_nodup; exact Hnd|].
  split; [apply append_new_keeps, append_new_keeps, append_new_has|].
  split; [apply append_new_keeps, append_new_has|].
  split; [apply append_new_has|].
  intros x Hx.
  apply append_new_in in Hx as [Hx | ->]; [|cbn; tauto].
  apply append_new_in in Hx as [Hx | ->]; [|cbn; tauto].
  apply append_new_in in Hx as [Hx | ->]; [|cbn; tauto].
  exact (Hin x Hx).
Qed.

Lemma keep_colors_tuple (l : list string) (t : list string) (rest : list found) :
  keep_colors ((map FStr l) ++ FTuple t :: rest)%list = Err AttributeError.
Proof. induction l as [|c l IH]; cbn; [reflexivity | rewrite IH; reflexivity]. Qed.

Lemma keep_colors_strs (l : list string) : exists k, keep_colors (map FStr l) = Ok k.
Proof.
  induction l as [|c l [k IH]]; cbn; [eexists; reflexivity|].
  rewrite IH. eexists; reflexivity.
Qed.

Lemma hashify_hash (c : string) : startswith (hashify c) "#" = true.
Proof.
  unfold hashify. destruct (startswith c "#") eqn:E; [exact E|].
  unfold startswith. cbn. destruct c; reflexivity.
Qed.

(** [_extract_colors_from_html] raises [AttributeError] as soon as an
    [rgb(...)] or [rgba(...)] color occurs in the HTML (the tuple it
    finds has no [startswith]); otherwise it returns the colour dict with
    a [primary] and a [secondary] that start with ['#']. *)
Theorem extract_colors_rgb_or_hash (html_content : string) (out : result value) :
  extract_colors_from_html html_content out ->
  ((findall rgb_at html_content ++ findall rgba_at html_content)%list <> [] ->
     out = Err AttributeError) /\
  ((findall rgb_at html_content ++ findall rgba_at html_content)%list = [] ->
     exists primary secondary, out = Ok (colors_dict primary secondary) /\
       startswith primary "#" = true /\ startswith secondary "#" = true).
Proof.
  unfold extract_colors_from_html.
  assert (Hf : found_colors html_content =
            (map FStr (findall (decl_at "color:") html_content
                       ++ findall (decl_at "background-color:") html_content
                       ++ findall (decl_at "border-color:") html_content
                       ++ findall hex_at html_content)
             ++ map FTuple (findall rgb_at html_content ++ findall rgba_at html_content))%list).
  { unfold found_colors. rewrite !map_app, <- !app_assoc. reflexivity. }
  rewrite Hf.
  set (strs := (findall (decl_at "color:") html_content ++ _)%list).
  intros Hout. split.
  - intros Ht. destruct (findall rgb_at html_content ++ findall rgba_at html_content)%list
      as [|t rest]; [contradiction Ht; reflexivity|].
    cbn [map] in Hout. destruct (map FStr strs ++ FTuple t :: map FTuple rest)%list as [|x l] eqn:E.
    + destruct (map FStr strs); discriminate E.
    + rewrite <- E, keep_colors_tuple in Hout. exact Hout.
  - intros Ht. rewrite Ht, app_nil_r in Hout.
    destruct (map FStr strs) as [|x l] eqn:E.
    + exists "#3b82f6", "#f8fafc". split; [exact Hout | split; reflexivity].
    + rewrite <- E in Hout. destruct (keep_colors_strs strs) as [k Hk]. rewrite Hk in Hout.
      destruct Hout as (u & _ & ->).
      eexists; eexists; split; [reflexivity|].
      split; destruct u as [|c [|c' u]]; first [reflexivity | apply hashify_hash].
Qed.

Lemma extract_colors_rgb_or_hash_witness :
  extract_colors_from_html "<p style='color: rgb(255, 0, 0)'>" (Err AttributeError) /\
  (findall rgb_at "<p style='color: rgb(255, 0, 0)'>"
     ++ findall rgba_at "<p style='color: rgb(255, 0, 0)'>")%list <> [] /\
  Err AttributeError = @Err value AttributeError.
Proof.
  assert (H : extract_colors_from_html "<p style='color: rgb(255, 0, 0)'>" (Err AttributeError))
    by (vm_compute; reflexivity).
  assert (Hne : (findall rgb_at "<p style='color: rgb(255, 0, 0)'>"
                   ++ findall rgba_at "<p style='color: rgb(255, 0, 0)'>")%list <> [])
    by (vm_compute; discriminate).
  split; [exact H|]. split; [exact Hne|].
  exact (proj1 (extract_colors_rgb_or_hash _ _ H) Hne).
Defined.

Lemma insert_uniq_in (x w : Z) (l : list Z) : In w (insert_uniq x l) <-> x = w \/ In w l.
Proof.
  induction l as [|y l IH]; cbn; [tauto|].
  destruct (x <? y)%Z; [cbn; tauto|].
  destruct (Z.eqb_spec x y) as [->|]; [cbn; intuition congruence|].
  cbn. rewrite IH. tauto.
Qed.

Lemma insert_uniq_sorted (x : Z) (l : list Z) : Sorted Z.lt l -> Sorted Z.lt (insert_uniq x l).
Proof.
  induction l as [|y l IH]; intros H; cbn; [repeat constructor|].
  destruct (Z.ltb_spec x y); [constructor; [exact H | constructor; exact H0]|].
  destruct (Z.eqb_spec x y) as [->|Hne]; [exact H|].
  apply Sorted_inv in H as [Hl Hh].
  constructor; [exact (IH Hl)|].
  destruct l as [|z l]; cbn; [constructor; lia|].
  apply HdRel_inv in Hh.
  destruct (x <? z)%Z; [constructor; lia|].
  destruct (x =? z)%Z; constructor; lia.
Qed.

Lemma sorted_set_spec (l : list Z) :
  Sorted Z.lt (sorted_set l) /\ forall w, In w (sorted_set l) <-> In w l.
Proof.
  induction l as [|x l [IHs IHi]]; cbn; [split; [constructor | tauto]|].
  split; [apply insert_uniq_sorted; exact IHs|].
  intros w. rewrite insert_uniq_in, IHi. intuition.
Qed.

Lemma nodup_firstn {A} (n : nat) (u : list A) : NoDup u -> NoDup (firstn n u).
Proof.
  revert u; induction n as [|n IH]; intros u H; [constructor|].
  destruct u as [|a u]; cbn; [constructor|].
  apply NoDup_cons_iff in H as [Ha Hu]. constructor; [|exact (IH _ Hu)].
  intros Hin. apply Ha. rewrite <- (firstn_skipn n u). apply in_or_app. left. exact Hin.
Qed.

(** [_extract_typography_from_html] returns at most 5 distinct font sizes,
    at most 3 distinct line heights, and font weights in strictly
    increasing order: the distinct [font-weight] values of the HTML, or
    [400, 500, 600, 700] when there are none. *)
Theorem extract_typography_shape (html_content : string) (out : value) :
  extract_typography_from_html html_content out ->
  let weights := map int_of (filter isdigit_str (findall weight_at html_content)) in
  exists primary_font font_sizes font_weights line_heights,
    out = VDict [("primary_font", VStr primary_font);
                 ("font_sizes", vstrs font_sizes);
                 ("font_weights", VList (map VInt font_weights));
                 ("line_heights", vstrs line_heights)] /\
    NoDup font_sizes /\ (length font_sizes <= 5)%nat /\
    NoDup line_heights /\ (length line_heights <= 3)%nat /\
    Sorted Z.lt font_weights /\
    (weights = [] -> font_weights = [400; 500; 600; 700]%Z) /\
    (weights <> [] -> forall w, In w font_weights <-> In w weights).
Proof.
  intros H weights. unfold extract_typography_from_html in H. cbv zeta in H.
  destruct H as (fs & lh & Hfs & Hlh & ->). fold weights.
  do 4 eexists. split; [reflexivity|].
  split; [|split; [|split; [|split; [|split; [|split]]]]].
  - destruct (filter nonempty (findall size_at html_content)).
    + rewrite Hfs. repeat constructor; cbn; intuition discriminate.
    + destruct Hfs as (u & [Hu _] & ->). apply nodup_firstn. exact Hu.
  - destruct (filter nonempty (findall size_at html_content)).
    + rewrite Hfs. cbn. lia.
    + destruct Hfs as (u & _ & ->). apply firstn_le_length.
  - destruct (filter nonempty (findall height_at html_content)).
    + rewrite Hlh. repeat constructor; cbn; intuition discriminate.
    + destruct Hlh as (u & [Hu _] & ->). apply nodup_firstn. exact Hu.
  - destruct (filter nonempty (findall height_at html_content)).
    + rewrite Hlh. cbn. lia.
    + destruct Hlh as (u & _ & ->). apply firstn_le_length.
  - destruct weights; [repeat constructor; lia | apply sorted_set_spec].
  - intros ->. reflexivity.
  - destruct weights as [|x l]; [intros H; contradiction H; reflexivity|].
    intros _ w. apply sorted_set_spec.
Qed.

Lemma extract_typography_shape_witness :
  let html := "<h1 style='font-weight: 700'>A</h1><p style='font-weight:400; font-size: 16px'>" in
  extract_typography_from_html html
    (VDict [("primary_font", VStr "system-ui");
            ("font_sizes", vstrs ["16px"]);
            ("font_weights", VList [VInt 400; VInt 700]);
            ("line_heights", vstrs default_line_heights)]) /\
  exists primary_font font_sizes font_weights line_heights,
    VDict [("primary_font", VStr "system-ui");
           ("font_sizes", vstrs ["16px"]);
           ("font_weights", VList [VInt 400; VInt 700]);
           ("line_heights", vstrs default_line_heights)] =
    VDict [("primary_font", VStr primary_font);
           ("font_sizes", vstrs font_sizes);
           ("font_weights", VList (map VInt font_weights));
           ("line_heights", vstrs line_heights)] /\
    Sorted Z.lt font_weights.
Proof.
  intros html.
  assert (H : extract_typography_from_html html
                (VDict [("primary_font", VStr "system-ui");
                        ("font_sizes", vstrs ["16px"]);
                        ("font_weights", VList [VInt 400; VInt 700]);
                        ("line_heights", vstrs default_line_heights)])).
  { unfold extract_typography_from_html.
    exists ["16px"], default_line_heights. vm_compute.
    split; [exists ["16px"]; split; [split; [repeat constructor; intros [] | tauto] | reflexivity]|].
    split; reflexivity. }
  split; [exact H|].
  destruct (extract_typography_shape html _ H) as (pf & fs & fw & lh & Heq & _ & _ & _ & _ & Hs & _).
  exists pf, fs, fw, lh. split; [exact Heq | exact Hs].
Defined.

Lemma render_files_noattr (framework file_type : string) (descriptions : value)
    (files : list value) (ps ps' : dict) :
  render_files NoAttr framework file_type descriptions files ps = Ok ps' ->
  (forall k v, dict_get ps k = Some v -> v = VStr ("// No description provided for " ++ k)) ->
  (forall k v, dict_get ps' k = Some v -> v = VStr ("// No description provided for " ++ k)) /\
  (forall f, In (VStr f) files ->
     exists d, py_get descriptions f (VStr "") = Ok d /\ truthy d = false).
Proof.
  revert ps; induction files as [|x files IH]; intros ps H Hinv; cbn [render_files] in H.
  - injection H as <-. split; [exact Hinv | intros f []].
  - destruct x as [| | | |fn| |]; try discriminate H.
    bind_ok H. bind_ok H.
    unfold generate_real_code in E0.
    destruct (truthy a) eqn:Ta; cbn [negb] in E0; [discriminate E0|].
    injection E0 as <-.
    destruct (IH _ H) as [Hi Hd].
    { intros k v Hk. rewrite dict_get_set in Hk.
      destruct (String.eqb_spec k fn) as [->|]; [injection Hk as <-; reflexivity | exact (Hinv k v Hk)]. }
    split; [exact Hi|].
    intros f [Hf | Hf]; [injection Hf as <-; exists a; split; [exact E | exact Ta] | exact (Hd f Hf)].
Qed.

(** [GeneratorAgent.__init__] never sets [self.model], so [_generate_real_code]
    raises for every truthy description: when [generate_code] returns, each
    listed component, page and style file had a falsy description and holds
    the line [// No description provided for <file>]. *)
Theorem generate_code_unset_model (analysis : value) (target_framework : option string)
    (p : GeneratedProject) (cloning : value) (key description_key : string)
    (files descriptions : value) (items : list value) (f : string) :
  generate_code agent_model analysis target_framework = Ok p ->
  py_get analysis "cloning_requirements" (VDict []) = Ok cloning ->
  In (key, description_key) [("component_files", "components_description");
                             ("pages", "pages_description");
                             ("styles", "styles_description")] ->
  py_get cloning key (VList []) = Ok files ->
  py_iter files = Ok items -> In (VStr f) items ->
  py_get analysis description_key (VDict []) = Ok descriptions ->
  (exists d, py_get descriptions f (VStr "") = Ok d /\ truthy d = false) /\
  dict_get (gp_project_structure p) f = Some (VStr ("// No description provided for " ++ f)).
Proof.
  intros H Hc Hkey Hfiles Hitems Hf Hdesc.
  unfold generate_code in H.
  destruct Hkey as [Hk | [Hk | [Hk | []]]]; injection Hk as <- <-;
  repeat bind_ok H; injection H as <-; cbn [gp_project_structure];
  repeat match goal with Hx : Ok _ = Ok _ |- _ => injection Hx as Hx; subst end;
  repeat match goal with
  | H1 : ?m = Ok ?x, H2 : ?m = Ok ?y |- _ =>
      rewrite H1 in H2; injection H2 as H2; subst
  end;
  (assert (I0 : forall k v, dict_get [] k = Some v ->
                  v = VStr ("// No description provided for " ++ k)) by discriminate);
  destruct (render_files_noattr _ _ _ _ _ _ E9 I0) as [I9 D9];
  destruct (render_files_noattr _ _ _ _ _ _ E13 I9) as [I13 D13];
  destruct (render_files_noattr _ _ _ _ _ _ E17 I13) as [I17 D17];
  (assert (Hmem : dict_mem a17 f = true) by
     (repeat match goal with
      | Hr : render_files _ _ _ _ _ _ = Ok ?ps' |- dict_mem ?ps' _ = true =>
          first [ exact (proj2 (render_files_mem _ _ _ _ _ _ _ Hr) f Hf)
                | apply (proj1 (render_files_mem _ _ _ _ _ _ _ Hr)) ]
      end));
  (split; [first [exact (D9 f Hf) | exact (D13 f Hf) | exact (D17 f Hf)]|]);
  unfold dict_mem in Hmem; destruct (dict_get a17 f) as [v|] eqn:G; try discriminate Hmem;
  rewrite (framework_fallback_get _ _ _ _ G), (I17 _ _ G); reflexivity.
Qed.

Lemma generate_code_unset_model_witness :
  let analysis :=
    VDict [("framework", VDict [("primary", VStr "react")]);
           ("cloning_requirements",
              VDict [("component_files", VList [VStr "src/Header.jsx"])])] in
  match generate_code agent_model analysis None with
  | Ok p =>
      dict_get (gp_project_structure p) "src/Header.jsx" =
        Some (VStr ("// No description provided for " ++ "src/Header.jsx"))
  | Err _ => False
  end.
Proof.
  intros analysis.
  destruct (generate_code agent_model analysis None) as [p|e] eqn:E.
  - exact (proj2 (generate_code_unset_model analysis None p
             (VDict [("component_files", VList [VStr "src/Header.jsx"])])
             "component_files" "components_description"
             (VList [VStr "src/Header.jsx"]) (VDict []) [VStr "src/Header.jsx"]
             "src/Header.jsx" E eq_refl ltac:(cbn; tauto) eq_refl eq_refl
             ltac:(cbn; tauto) eq_refl)).
  - vm_compute in E. discriminate E.
Defined.

End Extras.
